(** * Verification of the document-ingestion utilities of haystack

    Shallow embedding of
    - [haystack/utils/azure_ocr_utils.py] (layout reconstruction),
    - [haystack/components/converters/azure.py] (converter construction),
    - [haystack/components/preprocessors/recursive_chunker.py],
    - [haystack/components/preprocessors/document_token_truncater.py],
    - [haystack/dataclasses/document.py].

    Python [str] is a list of characters, [int] is [Z], [float] is the
    kernel's binary64 [float], a raised exception is the [Raise] branch of
    [result], and a [dict] is an insertion-ordered association list. *)

From Stdlib Require Import ZArith List Ascii String Bool Lia Arith.
From Stdlib Require Import Permutation Relations.
From Stdlib Require Import Sorted.
From Stdlib Require Import Floats SpecFloat.
Import ListNotations.

Set Implicit Arguments.
Set Warnings "-register-all,-inexact-float".

(** ** Python values and builtins *)

Module Py.

Definition str := list ascii.

Definition lit (s : string) : str := list_ascii_of_string s.

(** Exceptions the modelled code raises, with their message where the source
    gives one. *)
Inductive exn : Type :=
| ValueError (msg : string)
| IndexError
| TypeError
| AttributeError
| ZeroDivisionError
| RecursionError
| LookupError
| KeyError
| ModuleNotFoundError
| Exception (msg : string).

Inductive result (A : Type) : Type :=
| Ok (a : A)
| Raise (e : exn).

Arguments Ok {A} a.
Arguments Raise {A} e.

Definition bind {A B} (m : result A) (k : A -> result B) : result B :=
  match m with
  | Ok a => k a
  | Raise e => Raise e
  end.

Definition raises {A} (m : result A) : Prop := exists e, m = Raise e.

(** [for x in xs: acc = body acc x], stopping at the first exception. *)
Fixpoint for_each {A S} (body : S -> A -> result S) (xs : list A) (acc : S)
  : result S :=
  match xs with
  | [] => Ok acc
  | x :: xs' => bind (body acc x) (for_each body xs')
  end.

(** [[f x for x in xs]] with a fallible [f]. *)
Fixpoint map_m {A B} (f : A -> result B) (xs : list A) : result (list B) :=
  match xs with
  | [] => Ok []
  | x :: xs' =>
      bind (f x) (fun y => bind (map_m f xs') (fun ys => Ok (y :: ys)))
  end.

Definition len {A} (l : list A) : Z := Z.of_nat (List.length l).

(** A slice bound as Python normalises it: a negative bound counts from the
    end, and both are clamped to [0, len]. *)
Definition clamp (n i : Z) : Z :=
  if (i <? 0)%Z then Z.max 0 (i + n) else Z.min i n.

(** [s[lo:hi]]. *)
Definition slice {A} (lo hi : Z) (s : list A) : list A :=
  let l := clamp (len s) lo in
  let h := clamp (len s) hi in
  firstn (Z.to_nat (h - l)) (skipn (Z.to_nat l) s).

(** [s[lo:]]. *)
Definition slice_from {A} (lo : Z) (s : list A) : list A :=
  skipn (Z.to_nat (clamp (len s) lo)) s.

(** [s[:hi]]. *)
Definition slice_to {A} (hi : Z) (s : list A) : list A :=
  firstn (Z.to_nat (clamp (len s) hi)) s.

(** [xs[i]] with Python's negative indices. *)
Definition index {A} (xs : list A) (i : Z) : result A :=
  let j := if (i <? 0)%Z then (i + len xs)%Z else i in
  if (j <? 0)%Z then Raise IndexError
  else match nth_error xs (Z.to_nat j) with
       | Some x => Ok x
       | None => Raise IndexError
       end.

(** [sep.join(parts)]. *)
Fixpoint join (sep : str) (parts : list str) : str :=
  match parts with
  | [] => []
  | [p] => p
  | p :: ps => p ++ sep ++ join sep ps
  end.

Definition eqb_str (a b : str) : bool :=
  if list_eq_dec ascii_dec a b then true else false.

Fixpoint startswith (p s : str) : bool :=
  match p, s with
  | [], _ => true
  | _ :: _, [] => false
  | a :: p', b :: s' => Ascii.eqb a b && startswith p' s'
  end.

(** [a in b] for two strings: [a] occurs in [b] as a substring. *)
Fixpoint contains (b a : str) : bool :=
  startswith a b ||
  match b with
  | [] => false
  | _ :: b' => contains b' a
  end.

(** [str.isspace] on one code point below 256. *)
Definition isspace (c : ascii) : bool :=
  let n := nat_of_ascii c in
  ((9 <=? n) && (n <=? 13)) || ((28 <=? n) && (n <=? 32))
  || (n =? 133) || (n =? 160).

(** Truth value of [s.strip()]: some character is not white space. *)
Definition strip_nonempty (s : str) : bool :=
  existsb (fun c => negb (isspace c)) s.

(** [text.split(sep)] for a non-empty [sep], scanning left to right;
    [skip] counts the characters of a matched separator still to pass and
    [cur] holds the current fragment reversed. *)
Fixpoint split_go (sep s : str) (skip : nat) (cur : str) : list str :=
  match s with
  | [] => [rev cur]
  | c :: s' =>
      match skip with
      | S k => split_go sep s' k cur
      | O =>
          if startswith sep s
          then rev cur :: split_go sep s' (List.length sep - 1) []
          else split_go sep s' 0 (c :: cur)
      end
  end.

Definition split (text sep : str) : result (list str) :=
  match sep with
  | [] => Raise (ValueError "empty separator")
  | _ => Ok (split_go sep text 0 [])
  end.

(** [range(0, stop, step)]. *)
Fixpoint range_go (fuel : nat) (i stop step : Z) : list Z :=
  match fuel with
  | O => []
  | S f => if (i <? stop)%Z then i :: range_go f (i + step) stop step else []
  end.

Definition range_step (stop step : Z) : result (list Z) :=
  if (step =? 0)%Z then Raise (ValueError "range() arg 3 must not be zero")
  else if (step <? 0)%Z then Ok []
  else Ok (range_go (Z.to_nat stop) 0 stop step).

(** [s.lstrip()] and [s.strip()]: the white space at the ends goes. *)
Fixpoint lstrip (s : str) : str :=
  match s with
  | [] => []
  | c :: s' => if isspace c then lstrip s' else s
  end.

Definition strip (s : str) : str := rev (lstrip (rev (lstrip s))).

Definition LF : ascii := ascii_of_nat 10.
Definition FF : ascii := ascii_of_nat 12.
Definition SP : ascii := ascii_of_nat 32.

End Py.

Import Py.

Declare Scope py_scope.
Notation "x <- m ;; k" := (Py.bind m (fun x => k))
  (at level 61, m at next level, right associativity) : py_scope.
Open Scope py_scope.

(** An insertion-ordered dictionary with integer keys. *)
Module Dict.

Definition t (V : Type) := list (Z * V).

Fixpoint get {V} (d : t V) (k : Z) : option V :=
  match d with
  | [] => None
  | (k', v) :: d' => if (k' =? k)%Z then Some v else get d' k
  end.

(** [d.get(k, default)]. *)
Definition get_default {V} (d : t V) (k : Z) (default : V) : V :=
  match get d k with
  | Some v => v
  | None => default
  end.

(** [d[k] = v]: the value of an existing key is replaced in place, a new key
    goes to the end. *)
Fixpoint set {V} (d : t V) (k : Z) (v : V) : t V :=
  match d with
  | [] => [(k, v)]
  | (k', v') :: d' =>
      if (k' =? k)%Z then (k', v) :: d' else (k', v') :: set d' k v
  end.

Definition keys {V} (d : t V) : list Z := map fst d.

End Dict.

(** ** The analysis result of the OCR service

    The classes of [azure.ai.formrecognizer] that the code reads, with the
    attributes it reads. An attribute the service may leave out is an
    [option]. *)

Module DocumentSpan.
Record t : Type := mk { offset : Z; length : Z }.
End DocumentSpan.

(** A point is the named tuple [(x, y)]. *)
Module Point.
Record t : Type := mk { x : float; y : float }.
End Point.

Definition Polygon := list Point.t.

Module BoundingRegion.
Record t : Type := mk { page_number : Z; polygon : option Polygon }.
End BoundingRegion.

Module DocumentLine.
Record t : Type := mk {
  content : str;
  polygon : option Polygon;
  spans : list DocumentSpan.t }.
End DocumentLine.

Module DocumentParagraph.
Record t : Type := mk {
  content : str;
  bounding_regions : option (list BoundingRegion.t);
  spans : list DocumentSpan.t }.
End DocumentParagraph.

Module DocumentTableCell.
Record t : Type := mk {
  row_index : Z;
  column_index : Z;
  row_span : option Z;
  column_span : option Z;
  content : str }.
End DocumentTableCell.

Module DocumentTable.
Record t : Type := mk {
  row_count : Z;
  column_count : Z;
  cells : list DocumentTableCell.t;
  bounding_regions : option (list BoundingRegion.t);
  spans : list DocumentSpan.t }.
End DocumentTable.

Module DocumentPage.
Record t : Type := mk {
  page_number : Z;
  lines : option (list DocumentLine.t) }.
End DocumentPage.

Module AnalyzeResult.
Record t : Type := mk {
  pages : list DocumentPage.t;
  paragraphs : list DocumentParagraph.t;
  tables : list DocumentTable.t }.
End AnalyzeResult.

(** What a page holds: the code tells the three classes apart with
    [isinstance]. *)
Inductive PageObject : Type :=
| Line (l : DocumentLine.t)
| Paragraph (p : DocumentParagraph.t)
| Table (t : DocumentTable.t).

Definition obj_spans (o : PageObject) : list DocumentSpan.t :=
  match o with
  | Line l => DocumentLine.spans l
  | Paragraph p => DocumentParagraph.spans p
  | Table t => DocumentTable.spans t
  end.

(** [x[0]] on an attribute that may be [None]. *)
Definition first_of {A} (xs : option (list A)) : result A :=
  match xs with
  | None => Raise TypeError
  | Some l => Py.index l 0
  end.

(** ** networkx: undirected graphs and their connected components

    The part of the external graph library that
    [get_rows_of_objects_by_page] calls. A graph keeps its nodes in the order
    they were first mentioned; a component is found by a breadth-first
    search from the first node not yet seen and lists its members in the
    order the search met them (the order in which Python enumerates the
    resulting set is not modelled). *)

Module networkx.

Record Graph : Type := mk { nodes : list nat; edges : list (nat * nat) }.

Definition empty : Graph := mk [] [].

Definition mem (v : nat) (l : list nat) : bool := existsb (Nat.eqb v) l.

Definition add_node (ns : list nat) (v : nat) : list nat :=
  if mem v ns then ns else ns ++ [v].

Definition add_edge (g : Graph) (e : nat * nat) : Graph :=
  mk (add_node (add_node (nodes g) (fst e)) (snd e)) (edges g ++ [e]).

Definition add_edges_from (g : Graph) (es : list (nat * nat)) : Graph :=
  fold_left add_edge es g.

(** [G.adj[v]]. *)
Definition neighbors (g : Graph) (v : nat) : list nat :=
  flat_map (fun e =>
    (if fst e =? v then [snd e] else []) ++
    (if snd e =? v then [fst e] else [])) (edges g).

Definition visit (acc : list nat * list nat) (w : nat)
  : list nat * list nat :=
  if mem w (fst acc) then acc else (fst acc ++ [w], snd acc ++ [w]).

Definition expand (g : Graph) (acc : list nat * list nat) (v : nat)
  : list nat * list nat :=
  fold_left visit (neighbors g v) acc.

(** [_plain_bfs]: [seen] grows level by level until a level adds nothing. *)
Fixpoint plain_bfs (fuel : nat) (g : Graph) (seen thislevel : list nat)
  : list nat :=
  match fuel with
  | O => seen
  | S f =>
      match thislevel with
      | [] => seen
      | _ =>
          let acc := fold_left (expand g) thislevel (seen, []) in
          plain_bfs f g (fst acc) (snd acc)
      end
  end.

Fixpoint components_go (g : Graph) (vs seen : list nat) : list (list nat) :=
  match vs with
  | [] => []
  | v :: vs' =>
      if mem v seen then components_go g vs' seen
      else
        let c := plain_bfs (List.length (nodes g)) g [v] [v] in
        c :: components_go g vs' (seen ++ c)
  end.

Definition connected_components (g : Graph) : list (list nat) :=
  components_go g (nodes g) [].

End networkx.

(** ** haystack/utils/azure_ocr_utils.py *)

Module azure_ocr_utils.

(** What [get_table_content] returns: CSV text, or the frame built from the
    first row as columns and the remaining rows as data. *)
Inductive TableContent : Type :=
| Csv (text : str)
| DataFrame (columns : list str) (data : list (list str)).

(** [xs[i] = v]. *)
Definition list_set {A} (xs : list A) (i : Z) (v : A) : result (list A) :=
  let j := if (i <? 0)%Z then (i + Py.len xs)%Z else i in
  if ((j <? 0) || (Py.len xs <=? j))%Z then Raise IndexError
  else Ok (firstn (Z.to_nat j) xs ++ v :: skipn (S (Z.to_nat j)) xs).

(** [range(n)] as offsets. *)
Definition range (n : Z) : list Z := map Z.of_nat (seq 0 (Z.to_nat n)).

(** [n if n else 1] on an attribute that may be [None]. *)
Definition span_or_one (n : option Z) : Z :=
  match n with
  | Some v => if (v =? 0)%Z then 1%Z else v
  | None => 1%Z
  end.

(** [table_list[i][j] = v]. *)
Definition set_cell (table_list : list (list str)) (i j : Z) (v : str)
  : result (list (list str)) :=
  row <- Py.index table_list i ;;
  row' <- list_set row j v ;;
  list_set table_list i row'.

Definition fill_cell (table_list : list (list str)) (cell : DocumentTableCell.t)
  : result (list (list str)) :=
  let column_span := span_or_one (DocumentTableCell.column_span cell) in
  for_each (fun tl c =>
    let row_span := span_or_one (DocumentTableCell.row_span cell) in
    for_each (fun tl' r =>
      set_cell tl' (DocumentTableCell.row_index cell + r)
        (DocumentTableCell.column_index cell + c)
        (DocumentTableCell.content cell))
      (range row_span) tl)
    (range column_span) table_list.

Section TableContent.

(** [pandas.DataFrame(data=rows).to_csv(header=False, index=False)]: the CSV
    writer of the external data-frame library. *)
Variable to_csv : list (list str) -> str.

Definition get_table_content (table : DocumentTable.t) (csv : bool)
  : result TableContent :=
  let table_list :=
    repeat (repeat ([] : str) (Z.to_nat (DocumentTable.column_count table)))
      (Z.to_nat (DocumentTable.row_count table)) in
  table_list <- for_each fill_cell (DocumentTable.cells table) table_list ;;
  if csv then Ok (Csv (to_csv table_list))
  else
    match table_list with
    | [] => Raise IndexError
    | columns :: data => Ok (DataFrame columns data)
    end.

(** The body of the innermost loop of
    [construct_text_from_rows_of_objects_by_page]: the object's text and a
    space are added, then [page_text = page_text[:-1]] runs, once per
    object. *)
Definition add_object (page_text : str) (obj : PageObject) : result str :=
  page_text <-
    match obj with
    | Table t =>
        c <- get_table_content t true ;;
        match c with
        | Csv table_content => Ok (page_text ++ table_content ++ [SP])
        | DataFrame _ _ => Raise TypeError
        end
    | Line l => Ok (page_text ++ DocumentLine.content l ++ [SP])
    | Paragraph p => Ok (page_text ++ DocumentParagraph.content p ++ [SP])
    end ;;
  Ok (Py.slice_to (-1) page_text).

Definition add_row (page_text : str) (row_of_objects : list PageObject)
  : result str :=
  page_text <- for_each add_object row_of_objects page_text ;;
  Ok (page_text ++ [LF]).

Definition page_text_of (rows_of_objects_by_page : Dict.t (list (list PageObject)))
  (page : DocumentPage.t) : result str :=
  for_each add_row
    (Dict.get_default rows_of_objects_by_page (DocumentPage.page_number page) [])
    [].

Definition construct_text_from_rows_of_objects_by_page
  (rows_of_objects_by_page : Dict.t (list (list PageObject)))
  (result : AnalyzeResult.t) : Py.result str :=
  texts <- map_m (page_text_of rows_of_objects_by_page)
             (AnalyzeResult.pages result) ;;
  Ok (Py.join [FF] texts).

End TableContent.

(** *** Table exclusion *)

Definition span0 (spans : list DocumentSpan.t) : result DocumentSpan.t :=
  Py.index spans 0.

(** The loop of [check_if_in_table], leaving at the first table whose span
    holds the object's offset. *)
Fixpoint check_if_in_table (tables_on_page : list DocumentTable.t)
  (line_or_paragraph : PageObject) : result bool :=
  match tables_on_page with
  | [] => Ok false
  | table :: rest =>
      table_span <- span0 (DocumentTable.spans table) ;;
      obj_span <- span0 (obj_spans line_or_paragraph) ;;
      let o := DocumentSpan.offset obj_span in
      let t0 := DocumentSpan.offset table_span in
      if ((t0 <=? o) && (o <=? t0 + DocumentSpan.length table_span))%Z
      then Ok true
      else check_if_in_table rest line_or_paragraph
  end.

(** The objects of one page that stay. *)
Fixpoint objects_without_tables (tables_on_page : list DocumentTable.t)
  (objects : list PageObject) : result (list PageObject) :=
  match objects with
  | [] => Ok []
  | obj :: rest =>
      in_table <- check_if_in_table tables_on_page obj ;;
      kept <- objects_without_tables tables_on_page rest ;;
      Ok (if in_table then kept else obj :: kept)
  end.

(** The result is a [defaultdict]: a page gets a key only when one of its
    objects is kept. *)
Fixpoint remove_objects_contained_within_tables
  (objects_by_page : Dict.t (list PageObject))
  (tables_by_page : Dict.t (list DocumentTable.t))
  : result (Dict.t (list PageObject)) :=
  match objects_by_page with
  | [] => Ok []
  | (page_number, objects) :: rest =>
      let tables_on_page := Dict.get_default tables_by_page page_number [] in
      kept <- objects_without_tables tables_on_page objects ;;
      others <- remove_objects_contained_within_tables rest tables_by_page ;;
      Ok (match kept with
          | [] => others
          | _ => (page_number, kept) :: others
          end)
  end.

Definition insert_tables_into_objects_by_page
  (objects_by_page : Dict.t (list PageObject))
  (tables_by_page : Dict.t (list DocumentTable.t))
  : Dict.t (list PageObject) :=
  map (fun kv =>
         (fst kv,
          snd kv ++ map Table (Dict.get_default tables_by_page (fst kv) [])))
      objects_by_page.

(** *** Geometry clustering and row sorting *)

Definition get_polygon (obj : PageObject) : result (option Polygon) :=
  match obj with
  | Line l => Ok (DocumentLine.polygon l)
  | Paragraph p =>
      r <- first_of (DocumentParagraph.bounding_regions p) ;;
      Ok (BoundingRegion.polygon r)
  | Table t =>
      r <- first_of (DocumentTable.bounding_regions t) ;;
      Ok (BoundingRegion.polygon r)
  end.

(** [left_up, _, _, _ = get_polygon(obj)]: the unpacking needs exactly four
    points. *)
Definition left_up (obj : PageObject) : result Point.t :=
  p <- get_polygon obj ;;
  match p with
  | Some [a; _; _; _] => Ok a
  | Some _ => Raise (ValueError "unpack")
  | None => Raise TypeError
  end.

(** [all(get_polygon(obj) is not None for obj in objects)], which stops at
    the first object without a polygon. *)
Fixpoint all_have_polygon (objects : list PageObject) : result bool :=
  match objects with
  | [] => Ok true
  | obj :: rest =>
      p <- get_polygon obj ;;
      match p with
      | None => Ok false
      | Some _ => all_have_polygon rest
      end
  end.

Definition close_on_y_axis (threshold_y : float) (left_upi left_upj : Point.t)
  : bool :=
  PrimFloat.ltb (PrimFloat.abs (PrimFloat.sub (Point.y left_upi) (Point.y left_upj)))
    threshold_y.

(** The inner loop over [j] in [range(i + 1, len(objects))]; [later] holds
    the objects from index [j] on. *)
Fixpoint pairs_with (threshold_y : float) (i : nat) (left_upi : Point.t)
  (j : nat) (later : list PageObject) : result (list (nat * nat)) :=
  match later with
  | [] => Ok []
  | objj :: rest =>
      left_upj <- left_up objj ;;
      more <- pairs_with threshold_y i left_upi (S j) rest ;;
      Ok (if close_on_y_axis threshold_y left_upi left_upj
          then (i, j) :: more else more)
  end.

(** The outer loop over [i]; [objects] holds the objects from index [i]
    on. *)
Fixpoint pairs_from (threshold_y : float) (i : nat) (objects : list PageObject)
  : result (list (nat * nat)) :=
  match objects with
  | [] => Ok []
  | obji :: rest =>
      left_upi <- left_up obji ;;
      row <- pairs_with threshold_y i left_upi (S i) rest ;;
      more <- pairs_from threshold_y (S i) rest ;;
      Ok ((i, i) :: row ++ more)
  end.

(** The pairs collected for one page. *)
Definition pairs_of_page (threshold_y : float) (objects : list PageObject)
  : result (list (nat * nat)) :=
  ok <- all_have_polygon objects ;;
  if ok then pairs_from threshold_y 0 objects
  else Ok (map (fun i => (i, i)) (seq 0 (List.length objects))).

(** [pairs_by_page] is a [defaultdict]: a page without objects gets no
    key. *)
Fixpoint pairs_by_page (threshold_y : float)
  (objects_by_page : Dict.t (list PageObject))
  : result (Dict.t (list (nat * nat))) :=
  match objects_by_page with
  | [] => Ok []
  | (page_number, objects) :: rest =>
      pairs <- pairs_of_page threshold_y objects ;;
      others <- pairs_by_page threshold_y rest ;;
      Ok (match pairs with
          | [] => others
          | _ => (page_number, pairs) :: others
          end)
  end.

Definition merged_pairs_by_page (pairs : Dict.t (list (nat * nat)))
  : Dict.t (list (list nat)) :=
  map (fun kv =>
         (fst kv,
          networkx.connected_components
            (networkx.add_edges_from networkx.empty (snd kv))))
      pairs.

(** [[objects[object_idx] for object_idx in row_of_objects]]. *)
Definition objects_in_row (objects : list PageObject) (row_of_objects : list nat)
  : result (list PageObject) :=
  map_m (fun object_idx => Py.index objects (Z.of_nat object_idx)) row_of_objects.

Definition rows_of_objects_by_page (merged : Dict.t (list (list nat)))
  (objects_by_page : Dict.t (list PageObject))
  : result (Dict.t (list (list PageObject))) :=
  map_m (fun kv =>
           rows <- map_m (objects_in_row (snd kv))
                     (Dict.get_default merged (fst kv) []) ;;
           Ok (fst kv, rows))
        objects_by_page.

(** [sorted(xs, key=...)]: Python's sort is stable and only asks [<] of the
    keys. *)
Fixpoint insert_by_key {K A} (ltb : K -> K -> bool) (k : K) (x : A)
  (sorted : list (K * A)) : list (K * A) :=
  match sorted with
  | [] => [(k, x)]
  | (k', x') :: rest =>
      if ltb k k' then (k, x) :: sorted
      else (k', x') :: insert_by_key ltb k x rest
  end.

Definition sort_keyed {K A} (ltb : K -> K -> bool) (keyed : list (K * A))
  : list A :=
  map snd
    (fold_left (fun acc kx => insert_by_key ltb (fst kx) (snd kx) acc) keyed []).

Definition sorted_by {K A} (ltb : K -> K -> bool) (key : A -> result K)
  (xs : list A) : result (list A) :=
  keyed <- map_m (fun x => k <- key x ;; Ok (k, x)) xs ;;
  Ok (sort_keyed ltb keyed).

(** [get_polygon(x)[0]]. *)
Definition polygon0 (obj : PageObject) : result Point.t :=
  p <- get_polygon obj ;;
  match p with
  | None => Raise TypeError
  | Some pts => Py.index pts 0
  end.

(** [lambda x: get_polygon(x)[0][0]]. *)
Definition key_x (obj : PageObject) : result float :=
  p <- polygon0 obj ;; Ok (Point.x p).

(** [lambda x: get_polygon(x[0])[0][1]]. *)
Definition key_y (row : list PageObject) : result float :=
  first <- Py.index row 0 ;;
  p <- polygon0 first ;; Ok (Point.y p).

Definition sort_page (rows : list (list PageObject))
  : result (list (list PageObject)) :=
  sorted_rows <- map_m (sorted_by PrimFloat.ltb key_x) rows ;;
  sorted_by PrimFloat.ltb key_y sorted_rows.

(** Both passes of [_get_sorted_rows_of_objects_per_page]: every row of
    every page by x first, then the rows of each page by y. *)
Definition _get_sorted_rows_of_objects_per_page
  (rows_of_objects_by_page : Dict.t (list (list PageObject)))
  : result (Dict.t (list (list PageObject))) :=
  x_sorted <- map_m (fun kv =>
                sorted_rows <- map_m (sorted_by PrimFloat.ltb key_x) (snd kv) ;;
                Ok (fst kv, sorted_rows))
              rows_of_objects_by_page ;;
  map_m (fun kv =>
           sorted_rows <- sorted_by PrimFloat.ltb key_y (snd kv) ;;
           Ok (fst kv, sorted_rows))
        x_sorted.

Definition get_rows_of_objects_by_page
  (objects_by_page : Dict.t (list PageObject)) (threshold_y : float)
  : result (Dict.t (list (list PageObject))) :=
  pairs <- pairs_by_page threshold_y objects_by_page ;;
  let merged := merged_pairs_by_page pairs in
  rows <- rows_of_objects_by_page merged objects_by_page ;;
  _get_sorted_rows_of_objects_per_page rows.

(** *** Grouping by page *)

(** [d[k].append(v)] on a [defaultdict(list)]. *)
Definition dict_append {V} (d : Dict.t (list V)) (k : Z) (v : V)
  : Dict.t (list V) :=
  Dict.set d k (Dict.get_default d k [] ++ [v]).

(** [sorted(d.keys())[-1]], or 1 when there is no key yet. *)
Definition current_last_page_number {V} (d : Dict.t V) : Z :=
  match Dict.keys d with
  | [] => 1%Z
  | k :: ks => fold_left Z.max ks k
  end.

(** The page an object goes to: that of its first bounding region, or the
    highest page populated so far. *)
Definition page_of {V} (bounding_regions : option (list BoundingRegion.t))
  (by_page : Dict.t V) : Z :=
  match bounding_regions with
  | Some (b :: _) => BoundingRegion.page_number b
  | _ => current_last_page_number by_page
  end.

Definition get_tables_per_page (result : AnalyzeResult.t)
  : Dict.t (list DocumentTable.t) :=
  fold_left (fun tables_by_page table =>
               dict_append tables_by_page
                 (page_of (DocumentTable.bounding_regions table) tables_by_page)
                 table)
            (AnalyzeResult.tables result) [].

Definition get_paragraphs_per_page (result : AnalyzeResult.t)
  : Dict.t (list PageObject) :=
  fold_left (fun paragraphs_by_pages paragraph =>
               dict_append paragraphs_by_pages
                 (page_of (DocumentParagraph.bounding_regions paragraph)
                    paragraphs_by_pages)
                 (Paragraph paragraph))
            (AnalyzeResult.paragraphs result) [].

Definition get_lines_per_page (result : AnalyzeResult.t)
  : Dict.t (list PageObject) :=
  fold_left (fun lines_by_page page =>
               let lines :=
                 match DocumentPage.lines page with
                 | Some l => l
                 | None => []
                 end in
               Dict.set lines_by_page (DocumentPage.page_number page)
                 (map Line lines))
            (AnalyzeResult.pages result) [].

End azure_ocr_utils.

(** ** haystack/dataclasses/document.py *)

(** A value a [meta] dictionary may hold. *)
Inductive PyVal : Type :=
| VNone
| VBool (b : bool)
| VInt (z : Z)
| VFloat (f : float)
| VStr (s : str)
| VList (l : list PyVal)
| VDict (d : list (str * PyVal)).

(** [Dict[str, Any]], in insertion order. *)
Definition Meta := list (str * PyVal).

Fixpoint meta_get (m : Meta) (k : str) : option PyVal :=
  match m with
  | [] => None
  | (k', v) :: m' => if Py.eqb_str k' k then Some v else meta_get m' k
  end.

(** [m[k] = v]. *)
Fixpoint meta_set (m : Meta) (k : str) (v : PyVal) : Meta :=
  match m with
  | [] => [(k, v)]
  | (k', v') :: m' =>
      if Py.eqb_str k' k then (k', v) :: m' else (k', v') :: meta_set m' k v
  end.

(** [{**m, k: v}]: a new dictionary. *)
Definition meta_with (m : Meta) (k : str) (v : PyVal) : Meta := meta_set m k v.

(** What Python's runtime supplies to [_create_id]: the text of a value in
    an f-string, the text of a [bytes] object, and
    [hashlib.sha256(data.encode("utf-8")).hexdigest()]. *)
Class Runtime : Type := {
  repr : PyVal -> str;
  repr_bytes : list Byte.byte -> str;
  sha256_hexdigest : str -> str }.

Module ByteStream.
Record t : Type := mk { data : list Byte.byte; mime_type : option str }.
End ByteStream.

(** Modelled from the spec: [haystack/dataclasses/sparse_embedding.py] is
    not among the sources; the spec gives a sparse embedding as indices and
    values, serialized for the id. *)
Module SparseEmbedding.
Record t : Type := mk { indices : list Z; values : list float }.

Definition to_dict (e : t) : PyVal :=
  VDict [(Py.lit "indices", VList (map VInt (indices e)));
         (Py.lit "values", VList (map VFloat (values e)))].
End SparseEmbedding.

Module Document.

(** The dataclass, over the representation [M] of its [meta] attribute: the
    dictionary itself where no caller mutates it, a reference into a store
    of dictionaries where one does. *)
Record t (M : Type) : Type := mk {
  id : str;
  content : option str;
  blob : option ByteStream.t;
  meta : M;
  score : option float;
  embedding : option (list float);
  sparse_embedding : option SparseEmbedding.t }.

Arguments mk {M}.
Arguments id {M}.
Arguments content {M}.
Arguments blob {M}.
Arguments meta {M}.
Arguments score {M}.
Arguments embedding {M}.
Arguments sparse_embedding {M}.

Section Id.

Context {rt : Runtime}.

Definition none : str := Py.lit "None".

(** [f"{x}"] for a string that may be [None]. *)
Definition fmt_opt_str (x : option str) : str :=
  match x with
  | Some s => s
  | None => none
  end.

(** The string that is hashed; [the_meta] is the dictionary [self.meta]
    denotes when the id is computed. *)
Definition id_data {M} (self : t M) (the_meta : Meta) : str :=
  let text :=
    match content self with
    | Some (c :: s) => Some (c :: s)
    | _ => None
    end in
  let blob_data :=
    match blob self with
    | Some b => repr_bytes (ByteStream.data b)
    | None => none
    end in
  let mime_type :=
    match blob self with
    | Some b => fmt_opt_str (ByteStream.mime_type b)
    | None => none
    end in
  let meta_text := repr (VDict the_meta) in
  let embedding_text :=
    match embedding self with
    | Some e => repr (VList (map VFloat e))
    | None => none
    end in
  let sparse_text :=
    match sparse_embedding self with
    | Some e => repr (SparseEmbedding.to_dict e)
    | None => []
    end in
  fmt_opt_str text ++ blob_data ++ mime_type ++ meta_text ++ embedding_text
    ++ sparse_text.

Definition _create_id {M} (self : t M) (the_meta : Meta) : str :=
  sha256_hexdigest (id_data self the_meta).

(** [self.id = self.id or self._create_id()]. *)
Definition __post_init__ {M} (self : t M) (the_meta : Meta) : t M :=
  match id self with
  | _ :: _ => self
  | [] =>
      mk (_create_id self the_meta) (content self) (blob self) (meta self)
         (score self) (embedding self) (sparse_embedding self)
  end.

(** [Document(id=..., content=..., ...)] holding its dictionary by value.
    The metaclass in front of the constructor remaps legacy keyword
    arguments and rejects a [content] that is neither a string nor [None];
    the typed arguments here leave it nothing to do. *)
Definition new (id : str) (content : option str) (blob : option ByteStream.t)
  (meta : Meta) (score : option float) (embedding : option (list float))
  (sparse_embedding : option SparseEmbedding.t) : t Meta :=
  __post_init__ (mk id content blob meta score embedding sparse_embedding) meta.

End Id.

End Document.

(** ** The store of [meta] dictionaries

    A location is an index into the store; a document that holds a location
    shares its dictionary with every other document holding the same one. *)

Definition loc := nat.
Definition Heap := list Meta.
Definition DocRef := Document.t loc.

Definition heap_get (h : Heap) (l : loc) : Meta := nth l h [].

Fixpoint heap_modify (h : Heap) (l : loc) (f : Meta -> Meta) : Heap :=
  match h, l with
  | [], _ => []
  | m :: h', O => f m :: h'
  | m :: h', S l' => m :: heap_modify h' l' f
  end.

(** ** haystack/components/preprocessors/recursive_chunker.py *)

(** Modelled from the spec: the sentence tokenizer
    ([haystack/components/preprocessors/sentence_tokenizer.py]) is not among
    the sources; the spec only says that the sentinel separator triggers
    sentence-boundary splitting. [split_sentences] gives the sentences with
    their spans. *)
Module SentenceSplitter.
Record sentence_span : Type := mk_span { sentence : str; start : Z; end_ : Z }.
Record t : Type := mk { split_sentences : str -> list sentence_span }.
End SentenceSplitter.

Module RecursiveChunker.

Record t : Type := mk {
  chunk_size : Z;
  chunk_overlap : Z;
  separators : list str;
  keep_separator : bool;
  is_separator_regex : bool;
  nltk_tokenizer : option SentenceSplitter.t }.

Definition sentence : str := Py.lit "sentence".

Definition _check_params (chunk_size chunk_overlap : Z) : result unit :=
  if (chunk_overlap <? 0)%Z
  then Raise (ValueError "Overlap must be greater than zero.")
  else if (chunk_overlap >=? chunk_size)%Z
  then Raise (ValueError "Overlap cannot be greater than or equal to the chunk size.")
  else Ok tt.

(** [except (LookupError, ModuleNotFoundError)]: the two classes and the
    subclasses of the first. *)
Definition nltk_is_missing (e : exn) : bool :=
  match e with
  | LookupError | IndexError | KeyError | ModuleNotFoundError => true
  | _ => false
  end.

Section Chunker.

(** What [_get_custom_sentence_tokenizer] asks of the environment: the
    import of [SentenceSplitter], and the call
    [SentenceSplitter(language)]; NLTK or its data may be missing, so either
    may raise. *)
Variable import_sentence_splitter : result unit.
Variable new_sentence_splitter : str -> result SentenceSplitter.t.

(** [re.split(pattern, text)] of Python's regular-expression library; a
    group that took no part in a match gives [None]. *)
Variable re_split : str -> str -> result (list (option str)).

(** The [try] holds the import alone: a [LookupError] or a
    [ModuleNotFoundError] of the import becomes the [Exception] with the
    advice to install NLTK, any other exception of the import and every
    exception of the constructor go through. *)
Definition _get_custom_sentence_tokenizer : result SentenceSplitter.t :=
  match import_sentence_splitter with
  | Ok _ => new_sentence_splitter (Py.lit "en")
  | Raise e =>
      if nltk_is_missing e
      then
        Raise
          (Exception
             "You need to install NLTK to use this function. You can install it via `pip install nltk`")
      else Raise e
  end.

Definition __init__ (chunk_size chunk_overlap : Z) (separators : list str)
  (keep_separator is_separator_regex : bool) : result t :=
  _ <- _check_params chunk_size chunk_overlap ;;
  if existsb (Py.eqb_str sentence) separators
  then
    tok <- _get_custom_sentence_tokenizer ;;
    Ok (mk chunk_size chunk_overlap separators keep_separator
          is_separator_regex (Some tok))
  else
    Ok (mk chunk_size chunk_overlap separators keep_separator
          is_separator_regex None).

Variable self : t.

(** [chunks[idx - 1][overlap_start:]]. *)
Definition overlap_of (previous : str) : str :=
  Py.slice_from (Z.max 0 (Py.len previous - chunk_overlap self)) previous.

(** The loop of [_apply_overlap] from index 1 on; [previous] is
    [chunks[idx - 1]], taken from the list as it came in. *)
Fixpoint overlap_rest (previous : str) (chunks : list str) : list str :=
  match chunks with
  | [] => []
  | chunk :: rest => (overlap_of previous ++ chunk) :: overlap_rest chunk rest
  end.

Definition _apply_overlap (chunks : list str) : list str :=
  match chunks with
  | [] => []
  | chunk :: rest => chunk :: overlap_rest chunk rest
  end.

(** [separator in "sentence"], the test that sends a separator to the
    sentence tokenizer. *)
Definition uses_sentence_tokenizer (separator : str) : bool :=
  Py.contains sentence separator.

(** The fragments a separator cuts the text into, before blank ones are
    dropped. *)
Definition raw_splits (separator text : str) : result (list (option str)) :=
  if uses_sentence_tokenizer separator
  then
    match nltk_tokenizer self with
    | None => Raise AttributeError
    | Some tok =>
        Ok (map (fun sp => Some (SentenceSplitter.sentence sp))
              (SentenceSplitter.split_sentences tok text))
    end
  else if is_separator_regex self then re_split separator text
  else
    parts <- Py.split text separator ;;
    Ok (map Some parts).

(** [[s for s in splits if s.strip()]]. *)
Fixpoint nonblank (splits : list (option str)) : result (list str) :=
  match splits with
  | [] => Ok []
  | None :: _ => Raise AttributeError
  | Some s :: rest =>
      kept <- nonblank rest ;;
      Ok (if Py.strip_nonempty s then s :: kept else kept)
  end.

(** State of the loop over the splits. *)
Record acc : Type := mk_acc {
  chunks : list str;
  current_chunk : list str;
  current_length : Z }.

Definition split_text_of (separator split : str) : str :=
  if keep_separator self && negb (Py.eqb_str separator sentence)
  then split ++ separator else split.

(** [if current_chunk: chunks.append("".join(current_chunk)); ...]. *)
Definition flush (a : acc) : acc :=
  match current_chunk a with
  | [] => a
  | _ => mk_acc (chunks a ++ [List.concat (current_chunk a)]) [] 0
  end.

(** One turn of the loop over the splits; [rec] is the recursive call. *)
Definition add_split (rec : str -> result (list str)) (separator : str)
  (a : acc) (split : str) : result acc :=
  let split_text := split_text_of separator split in
  if (current_length a + Py.len split_text >? chunk_size self)%Z
  then
    let a := flush a in
    if (Py.len split_text >? chunk_size self)%Z
    then
      sub <- rec split_text ;;
      Ok (mk_acc (chunks a ++ sub) (current_chunk a) (current_length a))
    else
      Ok (mk_acc (chunks a ++ [split_text]) (current_chunk a)
            (current_length a))
  else
    Ok (mk_acc (chunks a) (current_chunk a ++ [split_text])
          (current_length a + Py.len split_text)).

(** The chunks of one separator before the overlap step: the loop, then the
    last [if current_chunk:]. *)
Definition accumulate (rec : str -> result (list str)) (separator : str)
  (splits : list str) : result (list str) :=
  a <- for_each (add_split rec separator) splits (mk_acc [] [] 0) ;;
  Ok (chunks (flush a)).

(** The character-level fallback. *)
Definition fixed_width (text : str) : result (list str) :=
  starts <- Py.range_step (Py.len text) (chunk_size self - chunk_overlap self) ;;
  Ok (map (fun i => Py.slice i (i + chunk_size self) text) starts).

(** The loop over the separators. *)
Fixpoint try_separators (rec : str -> result (list str)) (text : str)
  (seps : list str) : result (list str) :=
  match seps with
  | [] => fixed_width text
  | separator :: rest =>
      raw <- raw_splits separator text ;;
      splits <- nonblank raw ;;
      if (Py.len splits =? 1)%Z then try_separators rec text rest
      else
        chunks <- accumulate rec separator splits ;;
        Ok (if (chunk_overlap self >? 0)%Z then _apply_overlap chunks
            else chunks)
  end.

(** [_chunk_text]; [depth] is the room left on the interpreter's call stack,
    and running out of it is Python's [RecursionError]. *)
Fixpoint _chunk_text (depth : nat) (text : str) : result (list str) :=
  match depth with
  | O => Raise RecursionError
  | S d =>
      if (Py.len text <=? chunk_size self)%Z then Ok [text]
      else try_separators (_chunk_text d) text (separators self)
  end.

(** *** Running on documents

    [_run_one] hands [doc.meta] itself to every new document and then
    writes into it, so the dictionaries live in a store and a document
    holds a reference. *)

Context {rt : Runtime}.

Definition original_id : str := Py.lit "original_id".

(** [Document(content=chunk, meta=doc.meta)] followed by
    [new_doc.meta["original_id"] = doc.id]. *)
Definition emit_chunk (doc : DocRef) (st : list DocRef * Heap) (chunk : str)
  : list DocRef * Heap :=
  let h := snd st in
  let new_doc :=
    Document.__post_init__
      (Document.mk [] (Some chunk) None (Document.meta doc) None None None)
      (heap_get h (Document.meta doc)) in
  (fst st ++ [new_doc],
   heap_modify h (Document.meta new_doc)
     (fun m => meta_set m original_id (VStr (Document.id doc)))).

Definition text_of (doc : DocRef) : str :=
  match Document.content doc with
  | Some s => s
  | None => []
  end.

Definition _run_one (depth : nat) (h : Heap) (doc : DocRef)
  : result (list DocRef) * Heap :=
  match _chunk_text depth (text_of doc) with
  | Raise e => (Raise e, h)
  | Ok chunks =>
      let st := fold_left (emit_chunk doc) chunks ([], h) in
      (Ok (fst st), snd st)
  end.

(** [not doc.content or doc.content == ""]. *)
Definition is_empty (doc : DocRef) : bool :=
  match Document.content doc with
  | Some (_ :: _) => false
  | _ => true
  end.

(** [run]: the new documents, or the exception, with the store as the call
    leaves it. *)
Fixpoint run (depth : nat) (h : Heap) (documents : list DocRef)
  : result (list DocRef) * Heap :=
  match documents with
  | [] => (Ok [], h)
  | doc :: rest =>
      if is_empty doc then run depth h rest
      else
        match _run_one depth h doc with
        | (Raise e, h') => (Raise e, h')
        | (Ok new_docs, h') =>
            match run depth h' rest with
            | (Raise e, h'') => (Raise e, h'')
            | (Ok more, h'') => (Ok (new_docs ++ more), h'')
            end
        end
  end.

End Chunker.

End RecursiveChunker.

(** ** haystack/components/preprocessors/document_token_truncater.py *)

Module DocumentTokenTruncater.

Inductive TruncationStrategy : Type := BEGINNING | END | EQUAL.

(** The tokenizer handed to the component: any object with [encode] and
    [decode]. *)
Record Tokenizer : Type := mk_tokenizer {
  encode : str -> list Z;
  decode : list Z -> str }.

Record t : Type := mk {
  tokenizer : Tokenizer;
  max_token_len : Z;
  strategy : TruncationStrategy;
  reserve_token_len : Z }.

Section Truncater.

Context {rt : Runtime}.

(** [TruncationStrategy(name)]; the message of the [ValueError] starts with
    the name as [repr] prints it. *)
Definition strategy_of (name : str) : result TruncationStrategy :=
  if Py.eqb_str name (Py.lit "beginning") then Ok BEGINNING
  else if Py.eqb_str name (Py.lit "end") then Ok END
  else if Py.eqb_str name (Py.lit "equal") then Ok EQUAL
  else
    Raise
      (ValueError
         (string_of_list_ascii
            (repr (VStr name) ++ Py.lit " is not a valid TruncationStrategy"))).

(** The strategy is given by name; the check that the transformers package
    is installed is taken to pass. *)
Definition __init__ (tokenizer : Tokenizer) (max_token_len : Z)
  (strategy : str) (reserve_token_len : Z) : result t :=
  st <- strategy_of strategy ;;
  Ok (mk tokenizer max_token_len st reserve_token_len).

Variable self : t.

Definition Doc := Document.t Meta.

Definition _get_token_len (text : str) : Z :=
  Py.len (encode (tokenizer self) text).

(** The message of the last branch ends in [{self.strategy}], which prints
    the member as [TruncationStrategy.EQUAL]; no other member reaches the
    branch. *)
Definition _truncate_text (text : str) (max_tokens : Z) : result str :=
  if (_get_token_len text <=? max_tokens)%Z then Ok text
  else
    let tokens := encode (tokenizer self) text in
    match strategy self with
    | END => Ok (decode (tokenizer self) (Py.slice_to max_tokens tokens))
    | BEGINNING =>
        Ok (decode (tokenizer self) (Py.slice_from (- max_tokens) tokens))
    | EQUAL =>
        Raise
          (ValueError
             "Invalid truncation strategy for single document: TruncationStrategy.EQUAL")
    end.

(** [doc.content] as a condition. *)
Definition has_content (doc : Doc) : bool :=
  match Document.content doc with
  | Some (_ :: _) => true
  | _ => false
  end.

Definition content_of (doc : Doc) : str :=
  match Document.content doc with
  | Some s => s
  | None => []
  end.

(** [Document(content=..., meta={**doc.meta, "truncated": True})]. *)
Definition truncated_doc (doc : Doc) (text : str) : Doc :=
  Document.new [] (Some text) None
    (meta_with (Document.meta doc) (Py.lit "truncated") (VBool true))
    None None None.

(** The loop of the equal strategy. *)
Fixpoint truncate_equally (tokens_per_doc : Z) (documents : list Doc)
  : result (list Doc) :=
  match documents with
  | [] => Ok []
  | doc :: rest =>
      if has_content doc
      then
        text <- _truncate_text (content_of doc) tokens_per_doc ;;
        more <- truncate_equally tokens_per_doc rest ;;
        Ok (truncated_doc doc text :: more)
      else
        more <- truncate_equally tokens_per_doc rest ;;
        Ok (doc :: more)
  end.

(** The loop of the beginning and end strategies, with its [break]s. *)
Fixpoint truncate_in_order (available_tokens current_tokens : Z)
  (documents : list Doc) : result (list Doc) :=
  match documents with
  | [] => Ok []
  | doc :: rest =>
      if has_content doc
      then
        let doc_tokens := _get_token_len (content_of doc) in
        if (current_tokens + doc_tokens <=? available_tokens)%Z
        then
          more <- truncate_in_order available_tokens
                    (current_tokens + doc_tokens) rest ;;
          Ok (doc :: more)
        else
          let remaining_tokens := (available_tokens - current_tokens)%Z in
          if (remaining_tokens <=? 0)%Z then Ok []
          else
            text <- _truncate_text (content_of doc) remaining_tokens ;;
            Ok [truncated_doc doc text]
      else
        more <- truncate_in_order available_tokens current_tokens rest ;;
        Ok (doc :: more)
  end.

Definition total_tokens (documents : list Doc) : Z :=
  fold_left Z.add
    (map (fun doc => _get_token_len (content_of doc))
       (filter has_content documents)) 0%Z.

Definition run (documents : list Doc) : result (list Doc) :=
  match documents with
  | [] => Ok []
  | _ =>
      let available_tokens := (max_token_len self - reserve_token_len self)%Z in
      if (available_tokens <=? 0)%Z
      then Raise (ValueError "No tokens available after reserving tokens")
      else
        let equal :=
          match strategy self with
          | EQUAL => (total_tokens documents >? available_tokens)%Z
          | _ => false
          end in
        if equal
        then
          let docs_with_content :=
            Py.len (filter has_content documents) in
          if (docs_with_content =? 0)%Z then Raise ZeroDivisionError
          else
            truncate_equally (available_tokens / docs_with_content) documents
        else truncate_in_order available_tokens 0 documents
  end.

End Truncater.

End DocumentTokenTruncater.

(** ** haystack/components/converters/azure.py *)

Module AzureOCRDocumentConverter.

Section Converter.

(** The service client and the secret holding its key belong to the cloud
    SDK. [make_client endpoint api_key analysis_features] stands for
    [azure_import.check()], the conversion of the feature names and the
    construction of [DocumentAnalysisClient], any of which may raise. *)
Variables Client Secret : Type.
Variable make_client : str -> Secret -> option (list str) -> result Client.

Record t : Type := mk {
  analysis_features : option (list str);
  document_analysis_client : Client;
  endpoint : str;
  model_id : str;
  api_key : Secret;
  preceding_context_len : Z;
  following_context_len : Z;
  merge_multiple_column_headers : bool;
  page_layout : str;
  threshold_y : option float;
  store_full_path : bool;
  table_format : str;
  extract_tables_separately : bool }.

Definition __init__ (endpoint : str) (api_key : Secret) (model_id : str)
  (preceding_context_len following_context_len : Z)
  (merge_multiple_column_headers : bool) (page_layout : str)
  (threshold_y : option float) (store_full_path : bool)
  (analysis_features : option (list str)) (table_format : str)
  (extract_tables_separately : bool) : result t :=
  client <- make_client endpoint api_key analysis_features ;;
  let threshold_y :=
    match threshold_y with
    | None =>
        if Py.eqb_str page_layout (Py.lit "single_column")
        then Some 0.05%float else None
    | Some v => Some v
    end in
  if extract_tables_separately && Py.eqb_str table_format (Py.lit "text")
  then
    Raise (ValueError
      "Table format 'text' is not supported when extracting tables separately. Choose 'csv'.")
  else
    Ok (mk analysis_features client endpoint model_id api_key
          preceding_context_len following_context_len
          merge_multiple_column_headers page_layout threshold_y
          store_full_path table_format extract_tables_separately).

Variable to_csv : list (list str) -> str.
Context {rt : Runtime}.
Variable self : t.

Import azure_ocr_utils.

(** The reconciliation of text objects with tables that both layouts start
    with. *)
Definition without_tables (objects_by_page : Dict.t (list PageObject))
  (tables_by_page : Dict.t (list DocumentTable.t))
  : result (Dict.t (list PageObject)) :=
  if extract_tables_separately self
  then remove_objects_contained_within_tables objects_by_page tables_by_page
  else if Py.eqb_str (table_format self) (Py.lit "csv")
  then
    objects_by_page <-
      remove_objects_contained_within_tables objects_by_page tables_by_page ;;
    Ok (insert_tables_into_objects_by_page objects_by_page tables_by_page)
  else Ok objects_by_page.

(** [_extract_text_doc_with_single_column_ordering] up to the rows it hands
    to the assembler. *)
Definition single_column_rows (result : AnalyzeResult.t) (object_type : str)
  (threshold_y : float) : Py.result (Dict.t (list (list PageObject))) :=
  let tables_by_page := get_tables_per_page result in
  let objects_by_page :=
    if Py.eqb_str object_type (Py.lit "line") then get_lines_per_page result
    else get_paragraphs_per_page result in
  objects_by_page <- without_tables objects_by_page tables_by_page ;;
  get_rows_of_objects_by_page objects_by_page threshold_y.

Definition _extract_text_doc_with_single_column_ordering
  (result : AnalyzeResult.t) (object_type : str) (meta : Meta)
  (threshold_y : float) : Py.result (Document.t Meta) :=
  rows_of_objects_by_page <- single_column_rows result object_type threshold_y ;;
  all_text <-
    construct_text_from_rows_of_objects_by_page to_csv rows_of_objects_by_page
      result ;;
  Ok (Document.new [] (Some all_text) None meta None None None).

(** [lambda x: x.spans[0].offset]. *)
Definition key_offset (obj : PageObject) : Py.result Z :=
  span <- span0 (obj_spans obj) ;;
  Ok (DocumentSpan.offset span).

(** The loop of [_extract_text_doc_with_natural_ordering] over
    [result.pages]: the objects of the page sorted by offset, each appended
    as a row of its own to the [defaultdict] of rows. *)
Definition natural_rows_of (paragraphs_by_page : Dict.t (list PageObject))
  (result : AnalyzeResult.t) : Py.result (Dict.t (list (list PageObject))) :=
  for_each
    (fun rows_of_objects_by_page page =>
       let paragraphs_on_page :=
         Dict.get_default paragraphs_by_page (DocumentPage.page_number page) [] in
       sorted_objects_on_page <-
         sorted_by Z.ltb key_offset paragraphs_on_page ;;
       Ok (fold_left
             (fun rows obj =>
                dict_append rows (DocumentPage.page_number page) [obj])
             sorted_objects_on_page rows_of_objects_by_page))
    (AnalyzeResult.pages result) [].

Definition _extract_text_doc_with_natural_ordering
  (result : AnalyzeResult.t) (meta : Meta) : Py.result (Document.t Meta) :=
  let tables_by_page := get_tables_per_page result in
  let paragraphs_by_page := get_paragraphs_per_page result in
  paragraphs_by_page <- without_tables paragraphs_by_page tables_by_page ;;
  rows_of_objects_by_page <- natural_rows_of paragraphs_by_page result ;;
  all_text <-
    construct_text_from_rows_of_objects_by_page to_csv rows_of_objects_by_page
      result ;;
  Ok (Document.new [] (Some all_text) None meta None None None).

(** *** Table documents *)

(** [next(page for page in result.pages if page.page_number == n)]; when no
    page has the number the generator runs out, which is [StopIteration],
    given here as an [Exception] of that name. *)
Definition page_numbered (result : AnalyzeResult.t) (n : Z)
  : Py.result DocumentPage.t :=
  match find (fun page => (DocumentPage.page_number page =? n)%Z)
          (AnalyzeResult.pages result) with
  | Some page => Ok page
  | None => Raise (Exception "StopIteration")
  end.

(** [[line.content for line in page.lines if test(line.spans[0].offset)]]
    when there is a page and it has lines, the empty list otherwise. *)
Definition lines_where (test : Z -> bool) (page : option DocumentPage.t)
  : Py.result (list str) :=
  match page with
  | Some p =>
      match DocumentPage.lines p with
      | Some (line :: lines) =>
          tested <-
            map_m (fun line =>
                     span <- span0 (DocumentLine.spans line) ;;
                     Ok (test (DocumentSpan.offset span),
                         DocumentLine.content line))
              (line :: lines) ;;
          Ok (map snd (filter fst tested))
      | _ => Ok []
      end
  | None => Ok []
  end.

(** One turn of the loop of [_extract_table_documents]: the document made
    for a table, with the lines around it in its metadata. The sort of the
    documents by page that follows the loop is not part of the model. *)
Definition table_document (result : AnalyzeResult.t) (meta : Meta)
  (table : DocumentTable.t) : Py.result (Document.t Meta) :=
  table_content <-
    get_table_content to_csv table
      (Py.eqb_str (table_format self) (Py.lit "csv")) ;;
  table_beginning_page <-
    match DocumentTable.bounding_regions table with
    | Some (b :: _) =>
        page <- page_numbered result (BoundingRegion.page_number b) ;;
        Ok (Some page)
    | _ => Ok None
    end ;;
  span <- span0 (DocumentTable.spans table) ;;
  let table_start_offset := DocumentSpan.offset span in
  preceding_lines <-
    lines_where (fun offset => (offset <? table_start_offset)%Z)
      table_beginning_page ;;
  let preceding_context :=
    Py.strip
      (Py.join [LF]
         (Py.slice_from (- preceding_context_len self) preceding_lines)) in
  table_end_page <-
    match DocumentTable.bounding_regions table with
    | Some [_] => Ok table_beginning_page
    | Some (b :: regions) =>
        page <- page_numbered result
                  (BoundingRegion.page_number (last regions b)) ;;
        Ok (Some page)
    | _ => Ok None
    end ;;
  let table_end_offset := (table_start_offset + DocumentSpan.length span)%Z in
  following_lines <-
    lines_where (fun offset => (table_end_offset <? offset)%Z)
      table_end_page ;;
  let following_context :=
    Py.join [LF]
      (Py.slice_to (following_context_len self) following_lines) in
  let table_meta :=
    meta_set
      (meta_set meta (Py.lit "preceding_context") (VStr preceding_context))
      (Py.lit "following_context") (VStr following_context) in
  let table_meta :=
    match DocumentTable.bounding_regions table with
    | Some (b :: _) =>
        meta_set table_meta (Py.lit "page")
          (VInt (BoundingRegion.page_number b))
    | _ => table_meta
    end in
  match table_content with
  | Csv text => Ok (Document.new [] (Some text) None table_meta None None None)
  | DataFrame _ _ =>
      Raise (ValueError "The `content` field must be a string or None.")
  end.

(** The loop of [_extract_table_documents] over [result.tables]:
    [converted_tables] as the sort by page finds it. *)
Definition converted_tables (result : AnalyzeResult.t) (meta : Meta)
  : Py.result (list (Document.t Meta)) :=
  map_m (table_document result meta) (AnalyzeResult.tables result).

End Converter.

End AzureOCRDocumentConverter.

(** ** Fixtures for the examples *)

Module Fixtures.

(** A runtime that prints every value as the empty dictionary and hashes by
    the identity. The theorems hold for every runtime; the examples need
    one. *)
Definition plain_runtime : Runtime :=
  {| repr := fun _ => Py.lit "{}";
     repr_bytes := fun _ => Py.lit "b''";
     sha256_hexdigest := fun data => data |}.

(** The tokenizer of the truncater's tests: one token per character here,
    each its code. *)
Definition char_tokenizer : DocumentTokenTruncater.Tokenizer :=
  DocumentTokenTruncater.mk_tokenizer
    (fun text => map (fun c => Z.of_nat (nat_of_ascii c)) text)
    (fun tokens => map (fun t => ascii_of_nat (Z.to_nat t)) tokens).

(** A sentence splitter that returns the text as one sentence. *)
Definition one_sentence : SentenceSplitter.t :=
  SentenceSplitter.mk
    (fun text => [SentenceSplitter.mk_span text 0 (Py.len text)]).

(** No regular-expression engine: every call raises. *)
Definition no_regex (pattern text : str) : result (list (option str)) :=
  Raise (Exception "re").

Definition point (x y : float) : Point.t := Point.mk x y.

(** A line with the given text, its upper-left corner at [(x, y)], and its
    span starting at [offset]. *)
Definition line_at (text : string) (x y : float) (offset : Z) : PageObject :=
  Line (DocumentLine.mk (Py.lit text)
          (Some [point x y; point x y; point x y; point x y])
          [DocumentSpan.mk offset (Py.len (Py.lit text))]).

Definition pages_of (numbers : list Z) : AnalyzeResult.t :=
  AnalyzeResult.mk (map (fun n => DocumentPage.mk n None) numbers) [] [].

(** A document with the given text and its dictionary at [l]. *)
Definition doc_at (ident text : string) (l : loc) : DocRef :=
  Document.mk (Py.lit ident) (Some (Py.lit text)) None l None None None.

(** The page of the specification's example: A, B and C at y = 0.0, 0.04 and
    0.08, from right to left. *)
Definition three_lines : list PageObject :=
  [line_at "A" 3 0.0 0; line_at "B" 2 0.04 2; line_at "C" 1 0.08 4].

(** A page with three lines and a table whose span [8, 18] holds the offset
    of the second line. *)
Definition table_on_page_1 : DocumentTable.t :=
  DocumentTable.mk 1 1 [DocumentTableCell.mk 0 0 None None (Py.lit "cell")]
    (Some [BoundingRegion.mk 1 (Some [point 0 1; point 1 1; point 1 2; point 0 2])])
    [DocumentSpan.mk 8 10].

Definition line_of (obj : PageObject) : list DocumentLine.t :=
  match obj with
  | Line l => [l]
  | _ => []
  end.

Definition page_with_table : AnalyzeResult.t :=
  AnalyzeResult.mk
    [DocumentPage.mk 1
       (Some (line_of (line_at "Title" 0 0 0) ++ line_of (line_at "cell" 0 1 10)
              ++ line_of (line_at "After" 0 3 30)))]
    [] [table_on_page_1].

(** A converter that extracts tables separately; the client and the key
    are left abstract. *)
Definition separate_tables : AzureOCRDocumentConverter.t unit unit :=
  AzureOCRDocumentConverter.mk None tt (Py.lit "https://endpoint")
    (Py.lit "prebuilt-read") tt 3 3 true (Py.lit "single_column_by_line")
    (Some 0.05%float) false (Py.lit "csv") true.

(** A document with an explicit id, a text and no metadata. *)
Definition text_doc (ident text : string) : DocumentTokenTruncater.Doc :=
  Document.mk (Py.lit ident) (Some (Py.lit text)) None [] None None None.

(** Truncaters over the character tokenizer with nothing reserved. *)
Definition truncater (max_token_len : Z)
  (strategy : DocumentTokenTruncater.TruncationStrategy)
  : DocumentTokenTruncater.t :=
  DocumentTokenTruncater.mk char_tokenizer max_token_len strategy 0.

(** A converter that leaves tables in the text as CSV. *)
Definition inline_tables : AzureOCRDocumentConverter.t unit unit :=
  AzureOCRDocumentConverter.mk None tt (Py.lit "https://endpoint")
    (Py.lit "prebuilt-read") tt 3 3 true (Py.lit "single_column_by_line")
    (Some 0.05%float) false (Py.lit "csv") false.

(** A table of two rows and two columns: a heading across both columns,
    and a last cell written twice. *)
Definition spanning_table : DocumentTable.t :=
  DocumentTable.mk 2 2
    [DocumentTableCell.mk 0 0 None (Some 2%Z) (Py.lit "head");
     DocumentTableCell.mk 1 0 None None (Py.lit "a");
     DocumentTableCell.mk 1 1 (Some 1%Z) (Some 0%Z) (Py.lit "b");
     DocumentTableCell.mk 1 1 None None (Py.lit "c")]
    None [DocumentSpan.mk 0 10].

(** A paragraph with the given text on the given page, its span starting
    at [offset]. *)
Definition paragraph_at (text : string) (page offset : Z) : DocumentParagraph.t :=
  DocumentParagraph.mk (Py.lit text)
    (Some [BoundingRegion.mk page None])
    [DocumentSpan.mk offset (Py.len (Py.lit text))].

(** Two pages of paragraphs, listed against the order of their offsets. *)
Definition two_pages_of_paragraphs : AnalyzeResult.t :=
  AnalyzeResult.mk
    [DocumentPage.mk 1 None; DocumentPage.mk 2 None]
    [paragraph_at "B" 1 5; paragraph_at "C" 2 9; paragraph_at "A" 1 0]
    [].

(** A converter that extracts tables separately and asks for no context
    around them. *)
Definition no_context : AzureOCRDocumentConverter.t unit unit :=
  AzureOCRDocumentConverter.mk None tt (Py.lit "https://endpoint")
    (Py.lit "prebuilt-read") tt 0 0 true (Py.lit "single_column_by_line")
    (Some 0.05%float) false (Py.lit "csv") true.

(** A converter that asks for tables as data frames. *)
Definition data_frames : AzureOCRDocumentConverter.t unit unit :=
  AzureOCRDocumentConverter.mk None tt (Py.lit "https://endpoint")
    (Py.lit "prebuilt-read") tt 3 3 true (Py.lit "single_column_by_line")
    (Some 0.05%float) false (Py.lit "dataframe") true.

(** A page with two lines before the table of [table_on_page_1], one
    inside it and one after it. *)
Definition page_with_heading_and_table : AnalyzeResult.t :=
  AnalyzeResult.mk
    [DocumentPage.mk 1
       (Some (line_of (line_at "Title" 0 0 0) ++ line_of (line_at "By" 0 0.5 6)
              ++ line_of (line_at "cell" 0 1 10)
              ++ line_of (line_at "After" 0 3 30)))]
    [] [table_on_page_1].

(** A table that begins on page 1 and goes on to page 2, its span
    [8, 18]. *)
Definition table_over_two_pages : DocumentTable.t :=
  DocumentTable.mk 1 1 [DocumentTableCell.mk 0 0 None None (Py.lit "cell")]
    (Some [BoundingRegion.mk 1 None; BoundingRegion.mk 2 None])
    [DocumentSpan.mk 8 10].

(** Two pages under that table: on each a line whose offset lies in the
    span of the table. *)
Definition two_pages_under_a_table : AnalyzeResult.t :=
  AnalyzeResult.mk
    [DocumentPage.mk 1
       (Some (line_of (line_at "Title" 0 0 0)
              ++ line_of (line_at "cellA" 0 1 10)));
     DocumentPage.mk 2
       (Some (line_of (line_at "cellB" 0 0 15)
              ++ line_of (line_at "After" 0 3 30)))]
    [] [table_over_two_pages].

End Fixtures.

(** * Notions used in the statements *)

(** ** The text of page objects *)

(** The text of a line or a paragraph. *)
Definition text_content (obj : PageObject) : option str :=
  match obj with
  | Line l => Some (DocumentLine.content l)
  | Paragraph p => Some (DocumentParagraph.content p)
  | Table _ => None
  end.

(** ** Chunks *)

Section ChunkNotions.

Import RecursiveChunker.

Variable self : t.

(** A chunk that fits. *)
Definition fits (chunk : str) : Prop := (Py.len chunk <= chunk_size self)%Z.

(** What the loop over the splits keeps true: the finished chunks fit, and
    so does the one being built, whose length is [current_length]. *)
Definition loop_ok (a : acc) : Prop :=
  Forall fits (chunks a)
  /\ current_length a = Py.len (List.concat (current_chunk a))
  /\ (current_length a <= chunk_size self)%Z.

End ChunkNotions.

Section SplitNotions.

Import RecursiveChunker.

Variable re_split : str -> str -> result (list (option str)).
Variable self : t.

(** The fragments a separator leaves of the text: what the split gives,
    without the blank ones. *)
Definition splits_of (separator text : str) : result (list str) :=
  raw <- raw_splits re_split self separator text ;;
  nonblank raw.

(** The separator does not split the text: it leaves exactly one
    fragment. *)
Definition leaves_one (text separator : str) : Prop :=
  exists fragment, splits_of separator text = Ok [fragment].

End SplitNotions.

(** The characters of a list of fragments, counted together. *)
Fixpoint total_len (l : list str) : nat :=
  match l with
  | [] => 0
  | f :: l' => List.length f + total_len l'
  end.

(** The last [k] elements of a list, all of it when it is shorter. *)
Definition last_n {A} (k : nat) (s : list A) : list A :=
  skipn (List.length s - k) s.

(** ** Graphs *)

Section GraphNotions.

Import networkx.

Variable g : Graph.

(** The graph is undirected: an edge joins its ends both ways. *)
Definition edge (a b : nat) : Prop :=
  In (a, b) (edges g) \/ In (b, a) (edges g).

(** Joined by a chain of edges. *)
Definition connected : nat -> nat -> Prop := clos_refl_trans nat edge.

(** The ends of every edge are nodes. *)
Definition well_formed : Prop :=
  forall a b, In (a, b) (edges g) -> In a (nodes g) /\ In b (nodes g).

Variable src : nat.

(** What the search keeps true from level to level. *)
Record search_inv (seen level : list nat) : Prop := {
  inv_level : incl level seen;
  inv_closed :
    forall u w, In u seen -> ~ In u level -> edge u w -> In w seen;
  inv_reach : forall u, In u seen -> connected src u;
  inv_nodup : NoDup seen;
  inv_nodes : incl seen (nodes g) }.

(** The graph built from a list of pairs. *)
Definition graph_of (pairs : list (nat * nat)) : Graph :=
  add_edges_from empty pairs.

End GraphNotions.

(** ** Sorted images *)

Section ImageNotions.

Variables K I A : Type.
Variable f : I -> A.

(** [f] applied under a key. *)
Definition on_snd (kx : K * I) : K * A := (fst kx, f (snd kx)).

End ImageNotions.

(** ** The rows of one page *)

Section RowNotions.

Import azure_ocr_utils.

Variable threshold_y : float.
Variable objects : list PageObject.

(** The upper-left corners of the objects at [i] and [j] are close on the y
    axis: the absolute difference of their y values is below the
    threshold. *)
Definition close_at (i j : nat) : Prop :=
  exists oi oj pi pj,
    nth_error objects i = Some oi /\ nth_error objects j = Some oj
    /\ left_up oi = Ok pi /\ left_up oj = Ok pj
    /\ close_on_y_axis threshold_y pi pj = true.

(** Two different objects are neighbours when they are close. *)
Definition near (i j : nat) : Prop := i <> j /\ close_at i j.

(** Joined by a chain of neighbours. *)
Definition chained : nat -> nat -> Prop := clos_refl_trans nat near.

(** The object has a polygon of four points. *)
Definition four_points (obj : PageObject) : Prop :=
  exists a b c d, get_polygon obj = Ok (Some [a; b; c; d]).

(** What [get_rows_of_objects_by_page] computes for one page. *)
Definition rows_of_page : result (list (list PageObject)) :=
  pairs <- pairs_of_page threshold_y objects ;;
  rows <- map_m (objects_in_row objects)
            (networkx.connected_components
               (networkx.add_edges_from networkx.empty pairs)) ;;
  sort_page rows.

(** An empty line, which stands for the object at an index out of range. *)
Definition no_object : PageObject := Line (DocumentLine.mk [] None []).

(** The object at an index. *)
Definition object_at (i : nat) : PageObject := nth i objects no_object.

End RowNotions.

(** *** The proximity of two objects, from their polygons *)

(** The polygon of an object as the service gives it: that of a line, and
    that of the first bounding region of a paragraph or of a table. *)
Definition polygon_of (obj : PageObject) : option Polygon :=
  match obj with
  | Line l => DocumentLine.polygon l
  | Paragraph p =>
      match DocumentParagraph.bounding_regions p with
      | Some (region :: _) => BoundingRegion.polygon region
      | _ => None
      end
  | Table t =>
      match DocumentTable.bounding_regions t with
      | Some (region :: _) => BoundingRegion.polygon region
      | _ => None
      end
  end.


(** The polygon is there and has four points. *)
Definition four_cornered (obj : PageObject) : Prop :=
  exists a b c d, polygon_of obj = Some [a; b; c; d].

Section ProximityNotions.

Variable threshold_y : float.
Variable objects : list PageObject.




End ProximityNotions.

(** ** Objects and tables *)

Section TableNotions.

Import azure_ocr_utils.

(** The object's offset lies within the table's span, both ends included;
    each is located by its first span. *)
Definition inside_table (table : DocumentTable.t) (obj : PageObject) : bool :=
  match hd_error (DocumentTable.spans table), hd_error (obj_spans obj) with
  | Some t, Some o =>
      ((DocumentSpan.offset t <=? DocumentSpan.offset o)
       && (DocumentSpan.offset o
           <=? DocumentSpan.offset t + DocumentSpan.length t))%Z
  | _, _ => false
  end.

(** The object is in a table: inside some table of the list. *)
Definition in_a_table (tables : list DocumentTable.t) (obj : PageObject)
  : bool :=
  existsb (fun table => inside_table table obj) tables.

(** The list of spans has a first span. *)
Definition has_span (spans : list DocumentSpan.t) : Prop := spans <> [].

Variable tables_by_page : Dict.t (list DocumentTable.t).

(** The objects kept on page [pn]. *)
Definition kept_on (pn : Z) (objects : list PageObject) : list PageObject :=
  filter (fun o => negb (in_a_table (Dict.get_default tables_by_page pn []) o))
    objects.

End TableNotions.

(** ** Writers of a shared dictionary *)

Section WriterNotions.

Import RecursiveChunker.

Variable re_split : str -> str -> result (list (option str)).
Variable self : t.
Context {rt : Runtime}.
Variable depth : nat.

(** The document gets at least one chunk. *)
Definition produces_chunk (doc : DocRef) : bool :=
  match _chunk_text re_split self depth (text_of doc) with
  | Ok (_ :: _) => true
  | _ => false
  end.

(** The document writes into the dictionary at [l]: it holds that
    dictionary, is not skipped, and gets a chunk. *)
Definition writes_at (l : loc) (doc : DocRef) : bool :=
  (Document.meta doc =? l) && negb (is_empty doc) && produces_chunk doc.

(** The chunks of the document's text, none when the call raises. *)
Definition chunks_of (doc : DocRef) : list str :=
  match _chunk_text re_split self depth (text_of doc) with
  | Ok chunks => chunks
  | Raise _ => []
  end.

(** The content and the dictionary of the new documents that come from a
    document: one for each chunk, holding the document's own dictionary;
    none for a document that is skipped. *)
Definition chunks_with_meta (doc : DocRef) : list (option str * loc) :=
  if is_empty doc then []
  else map (fun chunk => (Some chunk, Document.meta doc)) (chunks_of doc).

(** The last document of the list that writes at [l]. *)
Fixpoint last_writer (l : loc) (documents : list DocRef) : option DocRef :=
  match documents with
  | [] => None
  | doc :: rest =>
      match last_writer l rest with
      | Some w => Some w
      | None => if writes_at l doc then Some doc else None
      end
  end.

End WriterNotions.

(** ** The assembled text *)

Section TextNotions.

Variable to_csv : list (list str) -> str.

(** The text an object adds to its page: its content, or the CSV text of a
    table. *)
Definition object_text (obj : PageObject) : str :=
  match obj with
  | Line l => DocumentLine.content l
  | Paragraph p => DocumentParagraph.content p
  | Table t =>
      match azure_ocr_utils.get_table_content to_csv t true with
      | Ok (azure_ocr_utils.Csv text) => text
      | _ => []
      end
  end.

(** The object can be written out: a table needs its cells inside its
    grid. *)
Definition writable (obj : PageObject) : Prop :=
  match obj with
  | Table t => exists c, azure_ocr_utils.get_table_content to_csv t true = Ok c
  | _ => True
  end.

End TextNotions.

(** ** Grouping by page *)

Section GroupNotions.

Variables X V : Type.
Variable regions : X -> option (list BoundingRegion.t).
Variable val : X -> V.

(** One step of the loops of [get_tables_per_page] and
    [get_paragraphs_per_page]: the object goes to the page of its first
    bounding region, or to the highest page there is so far. *)
Definition group_step (d : Dict.t (list V)) (x : X) : Dict.t (list V) :=
  azure_ocr_utils.dict_append d (azure_ocr_utils.page_of (regions x) d) (val x).

End GroupNotions.

(** ** The grid of a table *)

(** The cell covers the position: the position lies in the rows and the
    columns the cell spans. *)
Definition covers (cell : DocumentTableCell.t) (i j : Z) : bool :=
  ((DocumentTableCell.row_index cell <=? i)
   && (i <? DocumentTableCell.row_index cell
            + azure_ocr_utils.span_or_one (DocumentTableCell.row_span cell))
   && (DocumentTableCell.column_index cell <=? j)
   && (j <? DocumentTableCell.column_index cell
            + azure_ocr_utils.span_or_one (DocumentTableCell.column_span cell)))%Z.

(** The text at a position: that of the last cell that covers it, the empty
    string when no cell does. *)
Definition text_at (cells : list DocumentTableCell.t) (i j : Z) : str :=
  fold_left (fun text cell =>
               if covers cell i j then DocumentTableCell.content cell else text)
    cells [].

Definition grid_of (table : DocumentTable.t) : list (list str) :=
  map (fun i =>
         map (fun j => text_at (DocumentTable.cells table) i j)
           (azure_ocr_utils.range (DocumentTable.column_count table)))
    (azure_ocr_utils.range (DocumentTable.row_count table)).

(** The cell lies inside the grid of the table. *)
Definition in_grid (table : DocumentTable.t) (cell : DocumentTableCell.t)
  : Prop :=
  (0 <= DocumentTableCell.row_index cell
   /\ DocumentTableCell.row_index cell
      + azure_ocr_utils.span_or_one (DocumentTableCell.row_span cell)
      <= DocumentTable.row_count table
   /\ 0 <= DocumentTableCell.column_index cell
   /\ DocumentTableCell.column_index cell
      + azure_ocr_utils.span_or_one (DocumentTableCell.column_span cell)
      <= DocumentTable.column_count table)%Z.

(** A grid given by the text at each position. *)
Definition grid (rows columns : Z) (f : Z -> Z -> str) : list (list str) :=
  map (fun i => map (fun j => f i j) (azure_ocr_utils.range columns))
    (azure_ocr_utils.range rows).

(** ** The natural reading order *)

(** The offset of the first span of an object. *)
Definition offset_of (obj : PageObject) : Z :=
  match obj_spans obj with
  | span :: _ => DocumentSpan.offset span
  | [] => 0%Z
  end.

(** The objects as [sorted(objects, key=lambda x: x.spans[0].offset)] gives
    them. *)
Definition by_offset (objects : list PageObject) : list PageObject :=
  match azure_ocr_utils.sorted_by Z.ltb AzureOCRDocumentConverter.key_offset
          objects with
  | Ok sorted_objects => sorted_objects
  | Raise _ => []
  end.

(** ** The lines around a table *)

(** The lines of a page; a page without lines has none. *)
Definition lines_of (page : DocumentPage.t) : list DocumentLine.t :=
  match DocumentPage.lines page with
  | Some lines => lines
  | None => []
  end.

(** The contents of the lines of a page whose offset passes the test, in
    the order of the page. *)
Definition contents_where (test : Z -> bool) (page : DocumentPage.t)
  : list str :=
  map DocumentLine.content
    (filter (fun line => test (offset_of (Line line))) (lines_of page)).

(** The page of the result with the given number, the first if several
    have it. *)
Definition page_with_number (result : AnalyzeResult.t) (n : Z)
  : option DocumentPage.t :=
  find (fun page => (DocumentPage.page_number page =? n)%Z)
    (AnalyzeResult.pages result).

(** ** The order of the rows *)

(** A place for every number among the floats that are not NaN: the sign
    class first (minus infinity, negative, zero, positive, plus infinity),
    then exponent and mantissa, both negated for negative numbers. *)
Definition rank (f : spec_float) : Z * Z * Z :=
  match f with
  | S754_zero _ => (0, 0, 0)
  | S754_infinity s => (if s then -2 else 2, 0, 0)
  | S754_nan => (0, 0, 0)
  | S754_finite s m e => if s then (-1, - e, Z.neg m) else (1, e, Z.pos m)
  end%Z.

(** The comparison of two ranks, one component after the other. *)
Definition compare_ranks (a b : Z * Z * Z) : comparison :=
  match (fst (fst a) ?= fst (fst b))%Z with
  | Eq =>
      match (snd (fst a) ?= snd (fst b))%Z with
      | Eq => (snd a ?= snd b)%Z
      | c => c
      end
  | c => c
  end.

(** The upper-left corner of an object: the first point of its polygon. *)
Definition corner (obj : PageObject) : Point.t :=
  match azure_ocr_utils.get_polygon obj with
  | Ok (Some (p :: _)) => p
  | _ => Point.mk 0 0
  end.

(** Both coordinates of the corner are numbers. *)
Definition proper_corner (obj : PageObject) : Prop :=
  PrimFloat.is_nan (Point.x (corner obj)) = false
  /\ PrimFloat.is_nan (Point.y (corner obj)) = false.

(** The x value of the corner of an object, and the y value of the corner of
    the first object of a row. *)
Definition corner_x (obj : PageObject) : float := Point.x (corner obj).

Definition row_y (row : list PageObject) : float :=
  match row with
  | obj :: _ => Point.y (corner obj)
  | [] => 0%float
  end.

(** ** The tables and the text objects of a page, from the analysis result *)

(** The page of the first bounding region. *)
Definition first_page (regions : option (list BoundingRegion.t)) : option Z :=
  match regions with
  | Some (region :: _) => Some (BoundingRegion.page_number region)
  | _ => None
  end.

(** The first bounding region is on page [pn]. *)
Definition begins_on (pn : Z) (regions : option (list BoundingRegion.t))
  : bool :=
  match first_page regions with
  | Some n => (n =? pn)%Z
  | None => false
  end.

(** Some bounding region is on page [pn]. *)
Definition touches (pn : Z) (regions : option (list BoundingRegion.t))
  : bool :=
  match regions with
  | Some l => existsb (fun region => (BoundingRegion.page_number region =? pn)%Z) l
  | None => false
  end.

(** The tables of the result that begin on page [pn]. *)
Definition tables_on (result : AnalyzeResult.t) (pn : Z)
  : list DocumentTable.t :=
  filter (fun t => begins_on pn (DocumentTable.bounding_regions t))
    (AnalyzeResult.tables result).

(** The paragraphs of the result that begin on page [pn]. *)
Definition paragraphs_on (result : AnalyzeResult.t) (pn : Z)
  : list PageObject :=
  map Paragraph
    (filter (fun p => begins_on pn (DocumentParagraph.bounding_regions p))
       (AnalyzeResult.paragraphs result)).

(** The lines of the page numbered [pn], the last page of that number if
    there are several. *)
Definition lines_on (result : AnalyzeResult.t) (pn : Z) : list PageObject :=
  match find (fun page => (DocumentPage.page_number page =? pn)%Z)
          (rev (AnalyzeResult.pages result)) with
  | Some page => map Line (lines_of page)
  | None => []
  end.

(** The text objects of page [pn] for an object type: its lines for "line",
    its paragraphs otherwise. *)
Definition text_objects_on (result : AnalyzeResult.t) (object_type : str)
  (pn : Z) : list PageObject :=
  if Py.eqb_str object_type (Py.lit "line") then lines_on result pn
  else paragraphs_on result pn.

(** All the text objects of the result for an object type. *)
Definition text_objects (result : AnalyzeResult.t) (object_type : str)
  : list PageObject :=
  if Py.eqb_str object_type (Py.lit "line")
  then flat_map (fun page => map Line (lines_of page))
         (AnalyzeResult.pages result)
  else map Paragraph (AnalyzeResult.paragraphs result).

(** ** The text that is hashed for an id *)

Section IdNotions.

Context {rt : Runtime}.

(** The fields as they are printed into the hashed text: an absent or empty
    content as "None"; the bytes of the blob followed by its mime type, each
    "None" when absent; the dictionary of the metadata; the list of the
    embedding, or "None"; the dictionary of the sparse embedding, or
    nothing. *)
Definition printed_content (content : option str) : str :=
  match content with
  | Some (c :: s) => c :: s
  | _ => Py.lit "None"
  end.

Definition printed_blob (blob : option ByteStream.t) : str :=
  match blob with
  | Some b =>
      repr_bytes (ByteStream.data b)
      ++ match ByteStream.mime_type b with
         | Some mime_type => mime_type
         | None => Py.lit "None"
         end
  | None => Py.lit "None" ++ Py.lit "None"
  end.

Definition printed_meta (meta : Meta) : str := repr (VDict meta).

Definition printed_embedding (embedding : option (list float)) : str :=
  match embedding with
  | Some e => repr (VList (map VFloat e))
  | None => Py.lit "None"
  end.

Definition printed_sparse_embedding (sparse : option SparseEmbedding.t)
  : str :=
  match sparse with
  | Some e =>
      repr (VDict [(Py.lit "indices",
                    VList (map VInt (SparseEmbedding.indices e)));
                   (Py.lit "values",
                    VList (map VFloat (SparseEmbedding.values e)))])
  | None => []
  end.

(** The concatenation of the five fields, in the order of the id. *)
Definition hashed_text (content : option str) (blob : option ByteStream.t)
  (meta : Meta) (embedding : option (list float))
  (sparse : option SparseEmbedding.t) : str :=
  printed_content content ++ printed_blob blob ++ printed_meta meta
  ++ printed_embedding embedding ++ printed_sparse_embedding sparse.

(** The digest tells the two texts apart, or they are one text. *)
Definition no_collision (a b : str) : Prop :=
  sha256_hexdigest a = sha256_hexdigest b -> a = b.

(** A content that is printed as "None". *)
Definition prints_none (content : option str) : Prop :=
  content = None \/ content = Some [] \/ content = Some (Py.lit "None").

End IdNotions.

(** * Construction (C8) *)

Section Construction.

Import RecursiveChunker.

Lemma check_params_ok (cs co : Z) :
  _check_params cs co = Ok tt <-> (0 <= co < cs)%Z.
Proof.
  unfold _check_params.
  destruct (Z.ltb_spec co 0); [split; [discriminate | lia] |].
  destruct (Z.geb_spec co cs); [split; [discriminate | lia] |].
  split; [lia | reflexivity].
Qed.

Lemma check_params_raises (cs co : Z) :
  (exists msg, _check_params cs co = Raise (ValueError msg))
  <-> (co < 0 \/ co >= cs \/ cs <= 0)%Z.
Proof.
  unfold _check_params.
  destruct (Z.ltb_spec co 0); [split; [lia | eauto] |].
  destruct (Z.geb_spec co cs); [split; [lia | eauto] |].
  split; [intros [msg H1]; discriminate | lia].
Qed.

(** The configuration is valid, its separators ask for the sentence
    tokenizer, and NLTK is missing: the construction raises. *)
Lemma valid_parameters_fail_without_nltk :
  (10 > 0 /\ 0 <= 0 < 10)%Z
  /\ __init__ (Raise ModuleNotFoundError) (fun _ => Ok Fixtures.one_sentence)
       10 0 [sentence] true false
     = Raise
         (Exception
            "You need to install NLTK to use this function. You can install it via `pip install nltk`").
Proof. split; [lia | reflexivity]. Qed.

Lemma in_separators (s : str) (seps : list str) :
  existsb (Py.eqb_str s) seps = true <-> In s seps.
Proof.
  rewrite existsb_exists. split.
  - intros [x [Hin E]]. unfold Py.eqb_str in E.
    destruct (list_eq_dec ascii_dec s x); [subst; exact Hin | discriminate].
  - intros Hin. exists s. split; [exact Hin |]. unfold Py.eqb_str.
    destruct (list_eq_dec ascii_dec s s); [reflexivity | contradiction].
Qed.

(** C8, as the code has it. [RecursiveChunker] raises the [ValueError] of
    [_check_params] at construction whenever [chunk_overlap < 0],
    [chunk_overlap >= chunk_size] or [chunk_size <= 0], before it looks at
    anything else. With [chunk_size > 0] and [0 <= chunk_overlap <
    chunk_size] it returns a chunker holding the parameters as given when
    the separators do not hold "sentence"; when they do, the outcome is
    that of obtaining the sentence tokenizer: the chunker with the
    tokenizer the environment builds, the [Exception] that asks for NLTK
    when the import fails with a [LookupError] or a [ModuleNotFoundError],
    and otherwise the exception of the import or of the constructor.
    [AzureOCRDocumentConverter] raises at construction whenever tables are
    extracted separately in the text format. *)
Theorem construction_fails_fast :
  forall (import_splitter : result unit)
         (new_splitter : str -> result SentenceSplitter.t)
         (cs co : Z) (seps : list str) (keep regex : bool),
    ((co < 0 \/ co >= cs \/ cs <= 0)%Z ->
     __init__ import_splitter new_splitter cs co seps keep regex
     = Raise
         (ValueError
            (if (co <? 0)%Z then "Overlap must be greater than zero."
             else "Overlap cannot be greater than or equal to the chunk size.")))
    /\
    ((cs > 0 /\ 0 <= co < cs)%Z ->
     (~ In sentence seps ->
      __init__ import_splitter new_splitter cs co seps keep regex
      = Ok (mk cs co seps keep regex None))
     /\ (In sentence seps ->
         __init__ import_splitter new_splitter cs co seps keep regex
         = match import_splitter with
           | Ok _ =>
               match new_splitter (Py.lit "en") with
               | Ok tokenizer =>
                   Ok (mk cs co seps keep regex (Some tokenizer))
               | Raise e => Raise e
               end
           | Raise e =>
               match e with
               | LookupError | IndexError | KeyError | ModuleNotFoundError =>
                   Raise
                     (Exception
                        "You need to install NLTK to use this function. You can install it via `pip install nltk`")
               | _ => Raise e
               end
           end))
    /\
    (forall c,
        __init__ import_splitter new_splitter cs co seps keep regex = Ok c ->
        (cs > 0 /\ 0 <= co < cs)%Z
        /\ chunk_size c = cs /\ chunk_overlap c = co
        /\ separators c = seps /\ keep_separator c = keep
        /\ is_separator_regex c = regex)
    /\
    (forall (Client Secret : Type)
            (make_client : str -> Secret -> option (list str) -> result Client)
            endpoint api_key model_id pre post merge layout threshold full
            features,
        raises (AzureOCRDocumentConverter.__init__ make_client endpoint api_key
                  model_id pre post merge layout threshold full features
                  (Py.lit "text") true)).
Proof.
  intros import_splitter new_splitter cs co seps keep regex.
  split; [| split; [| split]].
  - intros Hbad. unfold __init__, _check_params.
    destruct (Z.ltb_spec co 0); [reflexivity |].
    destruct (Z.geb_spec co cs); [reflexivity | lia].
  - intros Hgood.
    assert (Hp : _check_params cs co = Ok tt) by (apply check_params_ok; lia).
    split; intros Hs; unfold __init__; rewrite Hp; cbn [Py.bind].
    + destruct (existsb (Py.eqb_str sentence) seps) eqn:E; [| reflexivity].
      apply in_separators in E. contradiction.
    + rewrite (proj2 (in_separators sentence seps) Hs).
      unfold _get_custom_sentence_tokenizer.
      destruct import_splitter as [u | e].
      * destruct (new_splitter (Py.lit "en")); reflexivity.
      * destruct e; reflexivity.
  - intros c Hc. unfold __init__ in Hc.
    destruct (_check_params cs co) as [[] | e] eqn:Hp; [| discriminate].
    apply check_params_ok in Hp. cbn [Py.bind] in Hc.
    split; [lia |].
    destruct (existsb (Py.eqb_str sentence) seps).
    + destruct (_get_custom_sentence_tokenizer import_splitter new_splitter);
        [| discriminate].
      cbn [Py.bind] in Hc. inversion Hc. repeat split.
    + inversion Hc. repeat split.
  - intros. unfold AzureOCRDocumentConverter.__init__, raises.
    destruct (make_client endpoint api_key features); simpl; eauto.
Qed.

End Construction.

(** * Truncation without a token budget (C9) *)

Section NoBudget.

Import DocumentTokenTruncater.

(** C9, as the code has it. With no token left after the reserve, [run]
    raises a [ValueError] on every list that holds a document and returns no
    documents; the empty list is answered before the budget is looked
    at. *)
Theorem run_without_budget_raises :
  forall (rt : Runtime) (self : t) (documents : list Doc),
    documents <> [] ->
    (max_token_len self - reserve_token_len self <= 0)%Z ->
    exists msg, run self documents = Raise (ValueError msg).
Proof.
  intros rt self documents Hne Hle. unfold run.
  destruct documents as [| d ds]; [contradiction |].
  destruct (Z.leb_spec (max_token_len self - reserve_token_len self) 0);
    [eauto | lia].
Qed.

Lemma run_without_budget_raises_witness :
  exists msg,
    @run Fixtures.plain_runtime (mk Fixtures.char_tokenizer 5 END 6)
      [Document.mk (Py.lit "1") (Some (Py.lit "test")) None [] None None None]
    = Raise (ValueError msg).
Proof.
  apply (@run_without_budget_raises Fixtures.plain_runtime
           (mk Fixtures.char_tokenizer 5 END 6)); simpl; [discriminate | lia].
Defined.

(** The empty list is returned as it is, whatever the budget. *)
Lemma run_empty_list_returns :
  (forall (rt : Runtime) (self : t), run self [] = Ok [])
  /\ (max_token_len (mk Fixtures.char_tokenizer 0 END 0)
      - reserve_token_len (mk Fixtures.char_tokenizer 0 END 0) <= 0)%Z
  /\ @run Fixtures.plain_runtime (mk Fixtures.char_tokenizer 0 END 0) [] = Ok [].
Proof.
  repeat split. simpl. lia.
Qed.

End NoBudget.

(** * The sentence sentinel (C6) *)

Section Sentinel.

Import RecursiveChunker.

Lemma eqb_str_eq (a b : str) : Py.eqb_str a b = true <-> a = b.
Proof.
  unfold Py.eqb_str. destruct (list_eq_dec ascii_dec a b); split;
    congruence.
Qed.

(** The sentinel itself goes to the tokenizer. *)
Lemma sentinel_uses_tokenizer : uses_sentence_tokenizer sentence = true.
Proof. reflexivity. Qed.

(** C6 fails on the code: the test is [separator in "sentence"], so every
    substring of the sentinel reaches the sentence tokenizer, among them
    "e", "sent" and the empty string; a chunker built with the separator
    "e" has no tokenizer and raises where the claim has a literal split. *)
Theorem substrings_reach_sentence_tokenizer :
  uses_sentence_tokenizer (Py.lit "e") = true
  /\ uses_sentence_tokenizer (Py.lit "sent") = true
  /\ uses_sentence_tokenizer [] = true
  /\ uses_sentence_tokenizer (Py.lit " ") = false
  /\ (forall import_splitter new_splitter re_split,
        exists c,
          __init__ import_splitter new_splitter 3 0 [Py.lit "e"] true false
          = Ok c
          /\ _chunk_text re_split c 5 (Py.lit "one two three")
             = Raise AttributeError)
  /\ (forall splitter re_split,
        exists c,
          __init__ (Ok tt) (fun _ => Ok splitter) 3 0 [Py.lit "e"; sentence]
            true false = Ok c
          /\ raw_splits re_split c (Py.lit "e") (Py.lit "one two three")
             = Ok (map (fun sp => Some (SentenceSplitter.sentence sp))
                     (SentenceSplitter.split_sentences splitter
                        (Py.lit "one two three")))).
Proof.
  repeat split; try reflexivity.
  - intros. eexists. split; reflexivity.
  - intros. eexists. split; reflexivity.
Qed.

End Sentinel.

(** * The text assembler (C1) *)

Section Assembler.

Import azure_ocr_utils.

Variable to_csv : list (list str) -> str.

Lemma slice_to_drops_last {A} (s : list A) (c : A) :
  Py.slice_to (-1) (s ++ [c]) = s.
Proof.
  unfold Py.slice_to.
  assert (E : Py.clamp (Py.len (s ++ [c])) (-1) = Z.of_nat (List.length s)).
  { unfold Py.clamp, Py.len. rewrite length_app.
    replace (-1 <? 0)%Z with true by reflexivity.
    change (List.length [c]) with 1. lia. }
  rewrite E, Nat2Z.id, firstn_app, Nat.sub_diag, firstn_all. simpl.
  apply app_nil_r.
Qed.

(** After one object the space that was added is gone again. *)
Lemma add_object_text (page_text : str) (obj : PageObject) (c : str) :
  text_content obj = Some c ->
  add_object to_csv page_text obj = Ok (page_text ++ c).
Proof.
  destruct obj; simpl; intros H; inversion H; subst; unfold add_object;
    simpl; rewrite !app_assoc, slice_to_drops_last; reflexivity.
Qed.

(** A row of lines or paragraphs contributes their texts with nothing
    between them, then a newline. *)
Lemma add_row_text (row : list PageObject) (cs : list str) :
  forall page_text,
    map text_content row = map Some cs ->
    add_row to_csv page_text row = Ok (page_text ++ List.concat cs ++ [LF]).
Proof.
  unfold add_row. revert cs.
  induction row as [| obj row IH]; intros cs page_text H.
  - destruct cs; [| discriminate]. reflexivity.
  - destruct cs as [| c cs]; [discriminate |]. simpl in H. inversion H.
    simpl. rewrite add_object_text with (c := c) by assumption. simpl.
    specialize (IH cs (page_text ++ c) H2).
    destruct (for_each (add_object to_csv) row (page_text ++ c)) eqn:E;
      simpl in *; [| discriminate].
    inversion IH as [H3]. rewrite H3, <- !app_assoc. reflexivity.
Qed.

(** The example of the specification: two pages, one row with one object
    each. *)
Lemma two_pages_joined_by_form_feed :
  construct_text_from_rows_of_objects_by_page to_csv
    [(1%Z, [[Fixtures.line_at "A" 0 0 0]]); (2%Z, [[Fixtures.line_at "B" 0 0 2]])]
    (Fixtures.pages_of [1%Z; 2%Z])
  = Ok (Py.lit "A" ++ [LF; FF] ++ Py.lit "B" ++ [LF]).
Proof. reflexivity. Qed.

(** C1 fails on the code: [page_text = page_text[:-1]] runs after every
    object instead of once at the end of the row, so the space that should
    separate two objects of a row is removed as soon as it is added. A row
    holding "A" and "B" is assembled as "AB" and a newline, where the claim
    has "A B" and a newline. *)
Theorem row_objects_run_together :
  construct_text_from_rows_of_objects_by_page to_csv
    [(1%Z, [[Fixtures.line_at "A" 0 0 0; Fixtures.line_at "B" 1 0 2]])]
    (Fixtures.pages_of [1%Z])
  = Ok (Py.lit "AB" ++ [LF]).
Proof. reflexivity. Qed.

End Assembler.

(** * Document ids (C7) *)

Section DocumentId.

Import Document.

Context {rt : Runtime}.

(** The id of a document built without one is the digest of its data. *)
Lemma new_id_is_digest content blob meta score embedding sparse :
  id (new [] content blob meta score embedding sparse)
  = sha256_hexdigest
      (id_data (mk [] content blob meta score embedding sparse) meta).
Proof. reflexivity. Qed.

(** An absent content, the empty content and the content "None" give the
    same data. *)
Lemma id_data_conflates_content blob (meta : Meta) score embedding sparse :
  id_data (mk [] None blob meta score embedding sparse) meta
  = id_data (mk [] (Some (Py.lit "None")) blob meta score embedding sparse) meta
  /\ id_data (mk [] None blob meta score embedding sparse) meta
     = id_data (mk [] (Some []) blob meta score embedding sparse) meta.
Proof. split; reflexivity. Qed.

End DocumentId.

(** C7 fails on the code: [text = self.content or None] prints both an
    absent and an empty content as "None", so a document without content and
    one whose content is the string "None" differ in their content and
    still get the same id, under every hash function. *)
Lemma content_change_keeps_id :
  (forall (rt : Runtime),
      Document.id (Document.new [] None None [] None None None)
      = Document.id (Document.new [] (Some (Py.lit "None")) None [] None None None))
  /\ (None : option str) <> Some (Py.lit "None").
Proof.
  split; [intros rt; reflexivity | discriminate].
Qed.

Section IdOfFields.

Context {rt : Runtime}.

Lemma new_id_is_digest_of_hashed_text content blob (meta : Meta) score
  embedding sparse :
  Document.id (Document.new [] content blob meta score embedding sparse)
  = sha256_hexdigest (hashed_text content blob meta embedding sparse).
Proof.
  unfold Document.new, Document.__post_init__. cbn [Document.id].
  unfold Document._create_id, Document.id_data, hashed_text.
  cbn [Document.content Document.blob Document.embedding
       Document.sparse_embedding].
  f_equal.
  destruct content as [[| c s] |], blob as [b |];
    cbn [printed_content printed_blob Document.fmt_opt_str];
    rewrite <- ?app_assoc; reflexivity.
Qed.

(** Equal contents are printed alike, and so is whatever is printed as
    "None"; nothing else is. *)
Lemma printed_content_eq (c c' : option str) :
  printed_content c = printed_content c'
  <-> c = c' \/ (prints_none c /\ prints_none c').
Proof.
  unfold prints_none. split.
  - destruct c as [[| a s] |], c' as [[| a' s'] |]; cbn [printed_content];
      intros H; try (right; split; tauto);
      try (left; congruence);
      right; split; try tauto; right; right; congruence.
  - intros [-> | [H H']]; [reflexivity |].
    destruct H as [-> | [-> | ->]], H' as [-> | [-> | ->]]; reflexivity.
Qed.

End IdOfFields.

(** C7, as the code has it. The generated id is the digest of the printed
    content, blob bytes, blob mime type, meta, embedding and sparse
    embedding, in that order; so documents equal in those five fields share
    their id whatever their score, and an id that is supplied and not empty
    is kept. When one of the five fields is changed and the others are
    kept, the hashed text changes exactly when the printed form of that
    field does, and the id with it unless the digest collides on the two
    texts. Two contents are printed alike only when they are equal or both
    among the absent content, the empty content and the content "None". *)
Theorem document_id_is_digest_of_fields :
  forall (rt : Runtime) content blob (meta : Meta) score embedding sparse,
    (forall score',
        Document.id (Document.new [] content blob meta score' embedding sparse)
        = sha256_hexdigest (hashed_text content blob meta embedding sparse))
    /\ (forall c supplied,
          Document.id
            (Document.new (c :: supplied) content blob meta score embedding
               sparse)
          = c :: supplied)
    /\ (forall content',
          no_collision (hashed_text content blob meta embedding sparse)
            (hashed_text content' blob meta embedding sparse) ->
          (Document.id
             (Document.new [] content blob meta score embedding sparse)
           = Document.id
               (Document.new [] content' blob meta score embedding sparse)
           <-> printed_content content = printed_content content'))
    /\ (forall blob',
          no_collision (hashed_text content blob meta embedding sparse)
            (hashed_text content blob' meta embedding sparse) ->
          (Document.id
             (Document.new [] content blob meta score embedding sparse)
           = Document.id
               (Document.new [] content blob' meta score embedding sparse)
           <-> printed_blob blob = printed_blob blob'))
    /\ (forall meta',
          no_collision (hashed_text content blob meta embedding sparse)
            (hashed_text content blob meta' embedding sparse) ->
          (Document.id
             (Document.new [] content blob meta score embedding sparse)
           = Document.id
               (Document.new [] content blob meta' score embedding sparse)
           <-> printed_meta meta = printed_meta meta'))
    /\ (forall embedding',
          no_collision (hashed_text content blob meta embedding sparse)
            (hashed_text content blob meta embedding' sparse) ->
          (Document.id
             (Document.new [] content blob meta score embedding sparse)
           = Document.id
               (Document.new [] content blob meta score embedding' sparse)
           <-> printed_embedding embedding = printed_embedding embedding'))
    /\ (forall sparse',
          no_collision (hashed_text content blob meta embedding sparse)
            (hashed_text content blob meta embedding sparse') ->
          (Document.id
             (Document.new [] content blob meta score embedding sparse)
           = Document.id
               (Document.new [] content blob meta score embedding sparse')
           <-> printed_sparse_embedding sparse
               = printed_sparse_embedding sparse'))
    /\ (forall content',
          printed_content content = printed_content content'
          <-> content = content'
              \/ (prints_none content /\ prints_none content')).
Proof.
  intros rt content blob meta score embedding sparse.
  assert (Hid : forall (a b : str) (P : Prop),
             no_collision a b -> (a = b <-> P) ->
             (sha256_hexdigest a = sha256_hexdigest b <-> P)).
  { intros a b P Hn [H1 H2]. split.
    - intros E. exact (H1 (Hn E)).
    - intros HP. rewrite (H2 HP). reflexivity. }
  repeat split; try (intros; apply new_id_is_digest_of_hashed_text);
    try reflexivity; try (apply printed_content_eq; fail).
  all: try (intros E; rewrite !new_id_is_digest_of_hashed_text in E; revert E).
  all: try (intros E; rewrite !new_id_is_digest_of_hashed_text; revert E).
  all: unfold hashed_text in *.
  all: try match goal with
           | H : no_collision _ _ |- _ =>
               apply (Hid _ _ _ H); clear; unfold hashed_text; split;
                 intros E
           end.
  all: repeat (apply app_inv_head in E); repeat (apply app_inv_tail in E);
    try exact E; try (rewrite E; reflexivity).
Qed.

(** With the identity for a digest, two contents give two ids. *)
Lemma document_id_is_digest_of_fields_witness :
  Py.eqb_str
    (@Document.id Meta
       (@Document.new Fixtures.plain_runtime [] (Some (Py.lit "a")) None []
          None None None))
    (@Document.id Meta
       (@Document.new Fixtures.plain_runtime [] (Some (Py.lit "b")) None []
          None None None))
  = false.
Proof.
  destruct (@document_id_is_digest_of_fields Fixtures.plain_runtime
              (Some (Py.lit "a")) None [] None None None)
    as [_ [_ [Hcontent _]]].
  destruct (Py.eqb_str _ _) eqn:E; [| reflexivity].
  apply eqb_str_eq in E.
  apply (Hcontent (Some (Py.lit "b"))) in E; [discriminate |].
  intros Hsame. exact Hsame.
Defined.

(** * The size of the chunks (C5) *)

Section ChunkSize.

Import RecursiveChunker.

Variable re_split : str -> str -> result (list (option str)).
Variable self : t.

Lemma len_app {A} (a b : list A) : Py.len (a ++ b) = (Py.len a + Py.len b)%Z.
Proof. unfold Py.len. rewrite length_app. lia. Qed.

Lemma len_nonneg {A} (a : list A) : (0 <= Py.len a)%Z.
Proof. unfold Py.len. lia. Qed.

(** A slice of width [w] holds at most [w] elements. *)
Lemma slice_length {A} (i w : Z) (s : list A) :
  (0 <= w)%Z -> (Py.len (Py.slice i (i + w) s) <= w)%Z.
Proof.
  intros Hw. unfold Py.slice.
  set (n := Py.len s). assert (Hn : (0 <= n)%Z) by apply len_nonneg.
  unfold Py.len at 1.
  pose proof (firstn_le_length
                (Z.to_nat (Py.clamp n (i + w) - Py.clamp n i))
                (skipn (Z.to_nat (Py.clamp n i)) s)) as Hf.
  assert (Py.clamp n (i + w) - Py.clamp n i <= w)%Z; [| lia].
  unfold Py.clamp.
  destruct (Z.ltb_spec (i + w) 0); destruct (Z.ltb_spec i 0); lia.
Qed.

Hypothesis size_positive : (0 < chunk_size self)%Z.

Lemma flush_ok (a : acc) : loop_ok self a -> loop_ok self (flush a).
Proof.
  intros [Hc [Hl Hb]]. unfold flush.
  destruct (current_chunk a) eqn:E; [repeat split; rewrite ?E; assumption |].
  split; [| split; [reflexivity | simpl; lia]].
  cbn [chunks]. apply Forall_app. split; [assumption |].
  constructor; [| constructor]. unfold fits. rewrite <- Hl. assumption.
Qed.

Lemma add_split_ok (rec : str -> result (list str)) (separator : str)
  (a a' : acc) (split : str) :
  (forall t r, rec t = Ok r -> Forall (fits self) r) ->
  loop_ok self a ->
  add_split self rec separator a split = Ok a' ->
  loop_ok self a'.
Proof.
  intros Hrec Ha. unfold add_split.
  set (st := split_text_of self separator split).
  destruct (Z.gtb_spec (current_length a + Py.len st) (chunk_size self)).
  - pose proof (flush_ok Ha) as [Hc [Hl Hb]].
    destruct (Z.gtb_spec (Py.len st) (chunk_size self)).
    + destruct (rec st) as [sub |] eqn:Er; simpl; [| discriminate].
      intros E. inversion E; subst. repeat split; simpl; try assumption.
      apply Forall_app. split; [assumption | eauto].
    + intros E. inversion E; subst. repeat split; simpl; try assumption.
      apply Forall_app. split; [assumption |].
      constructor; [assumption | constructor].
  - destruct Ha as [Hc [Hl Hb]].
    intros E. inversion E; subst. unfold loop_ok.
    cbn [chunks current_chunk current_length].
    split; [assumption |]. split; [| lia].
    rewrite concat_app, len_app. cbn [List.concat]. rewrite app_nil_r. lia.
Qed.

Lemma for_each_ok (rec : str -> result (list str)) (separator : str)
  (splits : list str) :
  (forall t r, rec t = Ok r -> Forall (fits self) r) ->
  forall a a',
    loop_ok self a ->
    for_each (add_split self rec separator) splits a = Ok a' ->
    loop_ok self a'.
Proof.
  intros Hrec. induction splits as [| s splits IH]; intros a a' Ha; simpl.
  - intros E. inversion E; subst. assumption.
  - destruct (add_split self rec separator a s) as [a1 |] eqn:E1; simpl;
      [| discriminate].
    apply IH. eapply add_split_ok; eassumption.
Qed.

Lemma accumulate_fits (rec : str -> result (list str)) (separator : str)
  (splits chunks : list str) :
  (forall t r, rec t = Ok r -> Forall (fits self) r) ->
  accumulate self rec separator splits = Ok chunks ->
  Forall (fits self) chunks.
Proof.
  intros Hrec. unfold accumulate.
  destruct (for_each _ splits _) as [a |] eqn:E; simpl; [| discriminate].
  intros E'. inversion E'; subst.
  apply flush_ok. eapply for_each_ok; try eassumption.
  repeat split; simpl; [constructor | lia].
Qed.

Lemma fixed_width_fits (text : str) (chunks : list str) :
  fixed_width self text = Ok chunks -> Forall (fits self) chunks.
Proof.
  unfold fixed_width.
  destruct (Py.range_step _ _) as [starts |]; simpl; [| discriminate].
  intros E. inversion E; subst. apply Forall_forall.
  intros c Hc. apply in_map_iff in Hc. destruct Hc as [i [Hi _]]. subst.
  apply slice_length. lia.
Qed.

Hypothesis no_overlap : chunk_overlap self = 0%Z.

Lemma try_separators_fits (rec : str -> result (list str)) (text : str) :
  (forall t r, rec t = Ok r -> Forall (fits self) r) ->
  forall seps chunks,
    try_separators re_split self rec text seps = Ok chunks ->
    Forall (fits self) chunks.
Proof.
  intros Hrec. induction seps as [| separator seps IH]; intros chunks; simpl.
  - apply fixed_width_fits.
  - destruct (raw_splits re_split self separator text); simpl; [| discriminate].
    destruct (nonblank a) as [splits |]; simpl; [| discriminate].
    destruct (Py.len splits =? 1)%Z; [apply IH |].
    destruct (accumulate self rec separator splits) as [cs |] eqn:E; simpl;
      [| discriminate].
    rewrite no_overlap. simpl. intros E'. inversion E'; subst.
    eapply accumulate_fits; eassumption.
Qed.

Lemma chunk_text_fits (depth : nat) :
  forall text chunks,
    _chunk_text re_split self depth text = Ok chunks -> Forall (fits self) chunks.
Proof.
  induction depth as [| d IH]; intros text chunks; simpl; [discriminate |].
  destruct (Z.leb_spec (Py.len text) (chunk_size self)).
  - intros E. inversion E; subst. constructor; [assumption | constructor].
  - apply try_separators_fits. exact IH.
Qed.

End ChunkSize.

(** * Literal separators: the chunker returns *)

Section SplitLength.

Lemma startswith_length (p s : str) :
  Py.startswith p s = true -> List.length p <= List.length s.
Proof.
  revert s. induction p as [| a p IH]; intros [| b s]; simpl; try lia;
    try discriminate.
  intros H. apply andb_prop in H. destruct H as [_ H]. apply IH in H. lia.
Qed.

Lemma split_go_nonempty (sep s : str) (skip : nat) (cur : str) :
  Py.split_go sep s skip cur <> [].
Proof.
  revert skip cur. induction s as [| c s IH]; intros skip cur; simpl;
    [discriminate |].
  destruct skip; [| apply IH].
  destruct (Py.startswith sep (c :: s)); [discriminate | apply IH].
Qed.

(** The fragments and the separators between them make up the text. *)
Lemma split_go_length (sep : str) :
  sep <> [] ->
  forall s skip cur,
    skip <= List.length s ->
    total_len (Py.split_go sep s skip cur)
    + (List.length (Py.split_go sep s skip cur) - 1) * List.length sep + skip
    = List.length cur + List.length s.
Proof.
  intros Hsep. induction s as [| c s IH]; intros skip cur Hskip; simpl in *.
  - rewrite length_rev. lia.
  - destruct skip as [| k].
    + destruct (Py.startswith sep (c :: s)) eqn:E.
      * apply startswith_length in E. simpl in E.
        assert (Hl : List.length sep <> 0)
          by (destruct sep; [contradiction | discriminate]).
        specialize (IH (List.length sep - 1) [] ltac:(lia)).
        pose proof (@split_go_nonempty sep s (List.length sep - 1) []) as Hne.
        destruct (Py.split_go sep s (List.length sep - 1) []) as [| f fs];
          [contradiction |].
        simpl in *. rewrite length_rev. nia.
      * specialize (IH 0 (c :: cur) ltac:(lia)). simpl in IH. lia.
    + specialize (IH k cur ltac:(lia)). lia.
Qed.

Lemma strip_nonempty_length (s : str) :
  Py.strip_nonempty s = true -> 1 <= List.length s.
Proof. destruct s; simpl; [discriminate | lia]. Qed.

Lemma in_total_len (l : list str) (f : str) :
  In f l -> List.length f <= total_len l /\ 1 <= List.length l.
Proof.
  induction l as [| x l IH]; simpl; [contradiction |].
  intros [-> | Hin]; [lia | apply IH in Hin; lia].
Qed.

(** Among two or more fragments that are not blank, each leaves room for
    another. *)
Lemma two_nonblank_fragments (l : list str) (f : str) :
  In f (filter Py.strip_nonempty l) ->
  List.length (filter Py.strip_nonempty l) <> 1 ->
  List.length f + 1 <= total_len l /\ 2 <= List.length l.
Proof.
  induction l as [| g l IH]; simpl; [contradiction |].
  destruct (Py.strip_nonempty g) eqn:Eg; simpl.
  - intros [Hf | Hf] Hn.
    + subst g. destruct (filter Py.strip_nonempty l) as [| h t] eqn:El;
        [simpl in Hn; lia |].
      assert (Hh : In h (filter Py.strip_nonempty l))
        by (rewrite El; left; reflexivity).
      apply filter_In in Hh. destruct Hh as [Hin Hh].
      apply strip_nonempty_length in Hh.
      apply in_total_len in Hin. lia.
    + apply strip_nonempty_length in Eg.
      assert (Hin : In f l) by (apply filter_In in Hf; tauto).
      apply in_total_len in Hin. lia.
  - intros Hf Hn. destruct (IH Hf Hn). lia.
Qed.

(** With at least two fragments that are not blank, a fragment and the
    separator together are shorter than the text. *)
Lemma fragment_shorter (sep text f : str) :
  sep <> [] ->
  In f (filter Py.strip_nonempty (Py.split_go sep text 0 [])) ->
  List.length (filter Py.strip_nonempty (Py.split_go sep text 0 [])) <> 1 ->
  List.length f + List.length sep < List.length text.
Proof.
  intros Hsep Hf Hn.
  pose proof (@split_go_length sep Hsep text 0 [] ltac:(lia)) as Hlen.
  destruct (two_nonblank_fragments _ _ Hf Hn) as [H1 H2].
  simpl in Hlen. nia.
Qed.

End SplitLength.

Section LiteralSeparators.

Import RecursiveChunker.

Variable re_split : str -> str -> result (list (option str)).
Variable self : t.

Hypothesis valid : (0 <= chunk_overlap self < chunk_size self)%Z.
Hypothesis literal : is_separator_regex self = false.
Hypothesis no_sentence :
  Forall (fun sep => uses_sentence_tokenizer sep = false) (separators self).

Lemma nonblank_map_some (l : list str) :
  nonblank (map Some l) = Ok (filter Py.strip_nonempty l).
Proof.
  induction l as [| s l IH]; simpl; [reflexivity |].
  rewrite IH. simpl. destruct (Py.strip_nonempty s); reflexivity.
Qed.

Lemma not_sentence_nonempty (sep : str) :
  uses_sentence_tokenizer sep = false -> sep <> [].
Proof. intros H ->. discriminate. Qed.

Lemma split_text_length (separator split : str) :
  List.length (split_text_of self separator split)
  <= List.length split + List.length separator.
Proof.
  unfold split_text_of.
  destruct (keep_separator self && negb (Py.eqb_str separator sentence));
    [rewrite length_app |]; lia.
Qed.

(** The loop over the splits returns when the recursive call does on every
    piece it is handed. *)
Lemma for_each_returns (rec : str -> result (list str)) (separator : str)
  (bound : nat) (splits : list str) :
  (forall t, List.length t < bound -> exists r, rec t = Ok r) ->
  (forall f, In f splits -> List.length f + List.length separator < bound) ->
  forall a, exists a', for_each (add_split self rec separator) splits a = Ok a'.
Proof.
  intros Hrec. induction splits as [| s splits IH]; intros Hin a; simpl;
    [eauto |].
  assert (E : exists a1, add_split self rec separator a s = Ok a1).
  { unfold add_split.
    destruct (_ >? _)%Z; [| eauto].
    destruct (_ >? _)%Z; [| eauto].
    destruct (Hrec (split_text_of self separator s)) as [r Hr].
    - pose proof (split_text_length separator s).
      specialize (Hin s (or_introl eq_refl)). lia.
    - rewrite Hr. simpl. eauto. }
  destruct E as [a1 E]. rewrite E. simpl.
  apply IH. intros f Hf. apply Hin. right. assumption.
Qed.

Lemma fixed_width_returns (text : str) :
  exists chunks, fixed_width self text = Ok chunks.
Proof.
  unfold fixed_width, Py.range_step.
  destruct (Z.eqb_spec (chunk_size self - chunk_overlap self) 0); [lia |].
  destruct (Z.ltb_spec (chunk_size self - chunk_overlap self) 0); [lia |].
  simpl. eauto.
Qed.

Lemma try_separators_returns (rec : str -> result (list str)) (text : str) :
  (forall t, List.length t < List.length text -> exists r, rec t = Ok r) ->
  forall seps,
    Forall (fun sep => uses_sentence_tokenizer sep = false) seps ->
    exists chunks, try_separators re_split self rec text seps = Ok chunks.
Proof.
  intros Hrec. induction seps as [| separator seps IH]; intros Hseps; simpl.
  - apply fixed_width_returns.
  - inversion Hseps as [| ? ? Hsep Hrest]; subst.
    unfold raw_splits. rewrite Hsep, literal.
    pose proof (not_sentence_nonempty Hsep) as Hne.
    unfold Py.split. destruct separator as [| c sep]; [contradiction |].
    simpl Py.bind. rewrite nonblank_map_some. simpl Py.bind.
    set (frags := filter Py.strip_nonempty (Py.split_go (c :: sep) text 0 [])).
    destruct (Z.eqb_spec (Py.len frags) 1); [apply IH; assumption |].
    unfold accumulate.
    destruct (@for_each_returns rec (c :: sep) (List.length text) frags Hrec)
      with (a := mk_acc [] [] 0) as [a' Ha'].
    + intros f Hf. apply fragment_shorter; [discriminate | exact Hf |].
      fold frags. unfold Py.len in n. lia.
    + rewrite Ha'. simpl. eauto.
Qed.

(** With literal separators [_chunk_text] returns as soon as the call stack
    has more room than the text has characters. *)
Lemma chunk_text_returns (depth : nat) :
  forall text,
    List.length text < depth ->
    exists chunks, _chunk_text re_split self depth text = Ok chunks.
Proof.
  induction depth as [| d IH]; intros text Hd; [lia |]. simpl.
  destruct (_ <=? _)%Z; [eauto |].
  apply try_separators_returns; [| exact no_sentence].
  intros t Ht. apply IH. lia.
Qed.

End LiteralSeparators.

(** C5. Without overlap every chunk that [_chunk_text] returns is at most
    [chunk_size] long, on every path: the greedy accumulation, the
    recursion into a fragment that is too long, and the fixed-width
    fallback. *)
Theorem chunks_fit_chunk_size :
  forall (import_splitter : result unit)
         (new_splitter : str -> result SentenceSplitter.t)
         (re_split : str -> str -> result (list (option str)))
         (chunk_size : Z) (separators : list str) (keep regex : bool)
         (self : RecursiveChunker.t) (depth : nat) (text : str)
         (chunks : list str),
    RecursiveChunker.__init__ import_splitter new_splitter chunk_size 0
      separators keep regex
    = Ok self ->
    RecursiveChunker._chunk_text re_split self depth text = Ok chunks ->
    Forall (fun chunk => (Py.len chunk <= chunk_size)%Z) chunks.
Proof.
  intros import_splitter new_splitter re_split cs seps keep regex self depth
    text chunks Hinit Hrun.
  unfold RecursiveChunker.__init__ in Hinit.
  destruct (RecursiveChunker._check_params cs 0) as [[] |] eqn:E;
    [| discriminate].
  apply check_params_ok in E.
  assert (Hself : RecursiveChunker.chunk_size self = cs
                  /\ RecursiveChunker.chunk_overlap self = 0%Z).
  { cbn [Py.bind] in Hinit.
    destruct (existsb _ seps);
      [destruct (RecursiveChunker._get_custom_sentence_tokenizer
                   import_splitter new_splitter); [| discriminate] |];
      cbn [Py.bind] in Hinit; inversion Hinit; split; reflexivity. }
  destruct Hself as [Hsize Hov]. rewrite <- Hsize.
  apply (chunk_text_fits re_split self) with (depth := depth) (text := text);
    [lia | assumption | assumption].
Qed.

Lemma chunks_fit_chunk_size_witness :
  Forall (fun chunk => (Py.len chunk <= 10)%Z)
    [Py.lit "one two "; Py.lit "three "; Py.lit "four five "].
Proof.
  apply (@chunks_fit_chunk_size (Ok tt) (fun _ => Ok Fixtures.one_sentence)
           Fixtures.no_regex 10
           [Py.lit " "] true false
           (RecursiveChunker.mk 10 0 [Py.lit " "] true false None) 5
           (Py.lit "one two three four five"));
    reflexivity.
Defined.

(** * Overlap between adjacent chunks (C4) *)

Section Overlap.

Import RecursiveChunker.

Variable re_split : str -> str -> result (list (option str)).
Variable self : t.

Lemma startswith_app (p rest : str) : Py.startswith p (p ++ rest) = true.
Proof.
  induction p as [| a p IH]; simpl; [reflexivity |].
  rewrite Ascii.eqb_refl. exact IH.
Qed.

Hypothesis overlap_nonneg : (0 <= chunk_overlap self)%Z.

(** [overlap_of] takes the last [chunk_overlap] characters. *)
Lemma overlap_of_last (previous : str) :
  overlap_of self previous = last_n (Z.to_nat (chunk_overlap self)) previous.
Proof.
  unfold overlap_of, Py.slice_from, last_n, Py.clamp, Py.len.
  f_equal.
  destruct (Z.ltb_spec (Z.max 0 (Z.of_nat (List.length previous)
                                 - chunk_overlap self)) 0); lia.
Qed.

(** The overlap step on a list that is cut anywhere: the chunk after the cut
    gets the tail of the chunk before it, as that chunk came in. *)
Lemma overlap_rest_adjacent (chunks : list str) :
  forall previous l1 a b l2,
    previous :: chunks = l1 ++ a :: b :: l2 ->
    exists o1 o2,
      overlap_rest self previous chunks = o1 ++ (overlap_of self a ++ b) :: o2
      /\ List.length o1 = List.length l1.
Proof.
  induction chunks as [| c chunks IH]; intros previous l1 a b l2 H.
  - destruct l1 as [| x [| y l1]]; discriminate.
  - destruct l1 as [| x l1]; simpl in H; inversion H; subst.
    + exists [], (overlap_rest self b l2). split; reflexivity.
    + destruct (IH c l1 a b l2 H2) as [o1 [o2 [Ho Hl]]].
      exists ((overlap_of self x ++ c) :: o1), o2. simpl. rewrite Ho, Hl.
      split; reflexivity.
Qed.

Lemma apply_overlap_adjacent (chunks l1 l2 : list str) (a b : str) :
  chunks = l1 ++ a :: b :: l2 ->
  exists o1 o2,
    _apply_overlap self chunks = o1 ++ (overlap_of self a ++ b) :: o2
    /\ List.length o1 = S (List.length l1).
Proof.
  intros H. destruct chunks as [| c chunks];
    [destruct l1; discriminate |].
  destruct (@overlap_rest_adjacent chunks c l1 a b l2 H) as [o1 [o2 [Ho Hl]]].
  exists (c :: o1), o2. simpl. rewrite Ho, Hl. split; reflexivity.
Qed.

Lemma apply_overlap_first (chunks : list str) :
  hd_error (_apply_overlap self chunks) = hd_error chunks.
Proof. destruct chunks; reflexivity. Qed.

Lemma apply_overlap_length (chunks : list str) :
  List.length (_apply_overlap self chunks) = List.length chunks.
Proof.
  destruct chunks as [| c chunks]; [reflexivity |]. simpl. f_equal.
  revert c. induction chunks as [| d chunks IH]; intros c; simpl;
    [reflexivity | f_equal; apply IH].
Qed.

End Overlap.

Section Windows.

Import RecursiveChunker.

Variable self : t.

Hypothesis valid : (0 <= chunk_overlap self < chunk_size self)%Z.

Lemma range_go_adjacent (stop step : Z) :
  (0 < step)%Z ->
  forall fuel i l1 x y l2,
    Py.range_go fuel i stop step = l1 ++ x :: y :: l2 ->
    (y = x + step /\ i <= x /\ y < stop)%Z.
Proof.
  intros Hstep. induction fuel as [| f IH]; intros i l1 x y l2; simpl.
  - destruct l1; discriminate.
  - destruct (Z.ltb_spec i stop); [| destruct l1; discriminate].
    destruct l1 as [| z l1]; simpl; intros H'; injection H' as Hi Hrest;
      subst.
    + destruct f as [| f']; simpl in Hrest; [discriminate |].
      destruct (Z.ltb_spec (x + step) stop); [| discriminate].
      injection Hrest as Hy _. lia.
    + apply IH in Hrest. lia.
Qed.

(** A slice that starts inside the text, as a prefix of what follows its
    start. *)
Lemma slice_window {A} (x w : Z) (s : list A) :
  (0 <= x <= Py.len s)%Z -> (0 <= w)%Z ->
  Py.slice x (x + w) s = firstn (Z.to_nat w) (skipn (Z.to_nat x) s).
Proof.
  intros Hx Hw. unfold Py.slice, Py.clamp, Py.len in *.
  destruct (Z.ltb_spec (x + w) 0); [lia |].
  destruct (Z.ltb_spec x 0); [lia |].
  replace (Z.min x (Z.of_nat (List.length s))) with x by lia.
  destruct (Z.le_gt_cases (x + w) (Z.of_nat (List.length s))).
  - f_equal. lia.
  - rewrite !firstn_all2; try reflexivity; rewrite length_skipn; lia.
Qed.

(** Two windows of the fallback that follow each other: when the later one
    has at least [chunk_overlap] characters it begins with the last
    [chunk_overlap] characters of the earlier one. *)
Lemma window_overlap (text : str) (x : Z) :
  (0 <= x)%Z ->
  let y := (x + (chunk_size self - chunk_overlap self))%Z in
  (y < Py.len text)%Z ->
  (chunk_overlap self <= Py.len (Py.slice y (y + chunk_size self) text))%Z ->
  Py.startswith
    (overlap_of self (Py.slice x (x + chunk_size self) text))
    (Py.slice y (y + chunk_size self) text) = true.
Proof.
  intros Hx y Hy Hlen.
  rewrite overlap_of_last by lia.
  rewrite slice_window in * by lia.
  rewrite slice_window by lia.
  set (K := Z.to_nat (chunk_overlap self)).
  set (CS := Z.to_nat (chunk_size self)) in *.
  set (X := Z.to_nat x).
  assert (HY : Z.to_nat y = (CS - K) + X) by (unfold y, CS, K, X; lia).
  rewrite HY in *.
  unfold Py.len in Hlen, Hy. rewrite length_firstn, length_skipn in Hlen.
  assert (HK : K <= CS) by (unfold K, CS; lia).
  unfold last_n. rewrite length_firstn, length_skipn.
  replace (Nat.min CS (List.length text - X) - K) with (CS - K) by lia.
  rewrite skipn_firstn_comm, skipn_skipn.
  replace (CS - (CS - K)) with K by lia.
  set (L := skipn (CS - K + X) text).
  rewrite <- (firstn_skipn K (firstn CS L)).
  rewrite firstn_firstn. replace (Nat.min K CS) with K by lia.
  apply startswith_app.
Qed.

(** The same for any two neighbours in the list the fallback returns. *)
Lemma fixed_width_adjacent (text : str) (out l1 l2 : list str) (a b : str) :
  fixed_width self text = Ok out ->
  out = l1 ++ a :: b :: l2 ->
  (chunk_overlap self <= Py.len b)%Z ->
  Py.startswith (overlap_of self a) b = true.
Proof.
  unfold fixed_width, Py.range_step.
  destruct (Z.eqb_spec (chunk_size self - chunk_overlap self) 0); [lia |].
  destruct (Z.ltb_spec (chunk_size self - chunk_overlap self) 0); [lia |].
  simpl. intros E Hout Hb. inversion E as [E']. clear E. rewrite Hout in E'.
  apply map_eq_app in E'. destruct E' as [s1 [s2 [Hs [_ E2]]]].
  apply map_eq_cons in E2. destruct E2 as [x [s3 [Hs2 [Ha E3]]]].
  apply map_eq_cons in E3. destruct E3 as [y [s4 [Hs3 [Hb' _]]]].
  subst s2 s3. apply range_go_adjacent in Hs; [| lia].
  destruct Hs as [Hy [Hx Hstop]]. subst y a b.
  apply window_overlap; assumption || lia.
Qed.

End Windows.

Section OverlapPaths.

Import RecursiveChunker.

Variable re_split : str -> str -> result (list (option str)).
Variable self : t.

(** What [try_separators] returns is either the fallback's list or the
    chunks of one separator, with the overlap step when there is an
    overlap. *)
Lemma try_separators_paths (rec : str -> result (list str)) (text : str) :
  forall seps out,
    try_separators re_split self rec text seps = Ok out ->
    fixed_width self text = Ok out
    \/ exists separator splits chunks,
         In separator seps
         /\ accumulate self rec separator splits = Ok chunks
         /\ out = if (chunk_overlap self >? 0)%Z
                  then _apply_overlap self chunks else chunks.
Proof.
  induction seps as [| separator seps IH]; intros out; simpl; [tauto |].
  destruct (raw_splits re_split self separator text) as [raw |]; simpl;
    [| discriminate].
  destruct (nonblank raw) as [splits |]; simpl; [| discriminate].
  destruct (Py.len splits =? 1)%Z.
  - intros H. apply IH in H. destruct H as [H | [s [sp [ch [Hin H]]]]];
      [tauto |].
    right. exists s, sp, ch. tauto.
  - destruct (accumulate self rec separator splits) as [chunks |] eqn:E;
      simpl; [| discriminate].
    intros H. inversion H. right. exists separator, splits, chunks. tauto.
Qed.

End OverlapPaths.

(** C4 fails on the code for the fixed-width fallback: with chunk size 5
    and overlap 3 the text "abcdefg" is cut into "abcde", "cdefg", "efg"
    and "g", and "g" does not begin with "efg", the last three characters
    of the chunk before it. *)
Lemma short_last_window_lacks_overlap :
  RecursiveChunker.__init__ (Ok tt) (fun _ => Ok Fixtures.one_sentence) 5 3
    [Py.lit " "] true false
  = Ok (RecursiveChunker.mk 5 3 [Py.lit " "] true false None)
  /\ RecursiveChunker._chunk_text Fixtures.no_regex
       (RecursiveChunker.mk 5 3 [Py.lit " "] true false None) 5
       (Py.lit "abcdefg")
     = Ok [Py.lit "abcde"; Py.lit "cdefg"; Py.lit "efg"; Py.lit "g"]
  /\ last_n 3 (Py.lit "efg") = Py.lit "efg"
  /\ Py.startswith (Py.lit "efg") (Py.lit "g") = false.
Proof. repeat split. Qed.

Section SeparatorChoice.

Import RecursiveChunker.

Variable re_split : str -> str -> result (list (option str)).
Variable self : t.

(** The loop over the separators passes every separator that leaves one
    fragment and stops at the first that does not. *)
Lemma try_separators_first (rec : str -> result (list str)) (text : str)
  (separator : str) (after : list str) (splits : list str) :
  forall before,
    Forall (leaves_one re_split self text) before ->
    splits_of re_split self separator text = Ok splits ->
    List.length splits <> 1 ->
    try_separators re_split self rec text (before ++ separator :: after)
    = (chunks <- accumulate self rec separator splits ;;
       Ok (if (chunk_overlap self >? 0)%Z then _apply_overlap self chunks
           else chunks)).
Proof.
  intros before Hbefore Hsplits Hlen.
  induction Hbefore as [| s before [one Hone] _ IH]; cbn [app try_separators].
  - unfold splits_of in Hsplits.
    destruct (raw_splits re_split self separator text) as [raw |];
      [| discriminate].
    cbn [Py.bind] in *. rewrite Hsplits. cbn [Py.bind].
    destruct (Z.eqb_spec (Py.len splits) 1) as [E | _]; [| reflexivity].
    unfold Py.len in E. lia.
  - unfold splits_of in Hone.
    destruct (raw_splits re_split self s text) as [raw |]; [| discriminate].
    cbn [Py.bind] in *. rewrite Hone. cbn [Py.bind].
    change (Py.len [one] =? 1)%Z with true. cbv iota. exact IH.
Qed.

(** When no separator splits the text the fallback answers. *)
Lemma try_separators_none (rec : str -> result (list str)) (text : str) :
  forall seps,
    Forall (leaves_one re_split self text) seps ->
    try_separators re_split self rec text seps = fixed_width self text.
Proof.
  induction 1 as [| s seps [one Hone] _ IH]; cbn [try_separators];
    [reflexivity |].
  unfold splits_of in Hone.
  destruct (raw_splits re_split self s text) as [raw |]; [| discriminate].
  cbn [Py.bind] in *. rewrite Hone. cbn [Py.bind].
  change (Py.len [one] =? 1)%Z with true. cbv iota. exact IH.
Qed.

End SeparatorChoice.

(** C4, as the code has it. With an overlap [k > 0], a text that fits the
    chunk size comes back as the one chunk. A longer text is answered by the
    first separator of the list that does not leave exactly one fragment:
    the list returned is the overlap step applied to the chunks made of the
    fragments of that separator (those of a recursive call among them), so
    it has as many chunks, the first chunk is unchanged, and every later
    chunk is the last [k] characters of the chunk before it, as that chunk
    was before the step, followed by its own content. When every separator
    leaves exactly one fragment the fixed-width fallback answers and no
    overlap step runs: a window begins with the last [k] characters of the
    window before it whenever it has at least [k] characters. *)
Theorem overlap_between_adjacent_chunks :
  forall (re_split : str -> str -> result (list (option str)))
         (self : RecursiveChunker.t) (d : nat) (text : str)
         (out : list str),
    (0 < RecursiveChunker.chunk_overlap self
       < RecursiveChunker.chunk_size self)%Z ->
    RecursiveChunker._chunk_text re_split self (S d) text = Ok out ->
    let k := Z.to_nat (RecursiveChunker.chunk_overlap self) in
    ((Py.len text <= RecursiveChunker.chunk_size self)%Z -> out = [text])
    /\ (forall before separator after splits,
          (RecursiveChunker.chunk_size self < Py.len text)%Z ->
          RecursiveChunker.separators self = before ++ separator :: after ->
          Forall (leaves_one re_split self text) before ->
          splits_of re_split self separator text = Ok splits ->
          List.length splits <> 1 ->
          exists chunks,
            RecursiveChunker.accumulate self
              (RecursiveChunker._chunk_text re_split self d) separator splits
            = Ok chunks
            /\ out = RecursiveChunker._apply_overlap self chunks
            /\ List.length out = List.length chunks
            /\ hd_error out = hd_error chunks
            /\ forall l1 a b l2,
                 chunks = l1 ++ a :: b :: l2 ->
                 exists o1 o2,
                   out = o1 ++ (last_n k a ++ b) :: o2
                   /\ List.length o1 = S (List.length l1))
    /\ ((RecursiveChunker.chunk_size self < Py.len text)%Z ->
        Forall (leaves_one re_split self text)
          (RecursiveChunker.separators self) ->
        RecursiveChunker.fixed_width self text = Ok out
        /\ forall l1 a b l2,
             out = l1 ++ a :: b :: l2 ->
             k <= List.length b ->
             Py.startswith (last_n k a) b = true).
Proof.
  intros re_split self d text out Hk Hrun k.
  cbn [RecursiveChunker._chunk_text] in Hrun.
  split; [| split].
  - intros Hfit.
    destruct (Z.leb_spec (Py.len text) (RecursiveChunker.chunk_size self));
      [| lia].
    inversion Hrun. reflexivity.
  - intros before separator after splits Hlong Hseps Hbefore Hsplits Hlen.
    destruct (Z.leb_spec (Py.len text) (RecursiveChunker.chunk_size self));
      [lia |].
    rewrite Hseps in Hrun.
    rewrite (@try_separators_first re_split self _ text separator after splits
               before Hbefore Hsplits Hlen) in Hrun.
    destruct (RecursiveChunker.accumulate self
                (RecursiveChunker._chunk_text re_split self d) separator
                splits) as [chunks |]; [| discriminate].
    cbn [Py.bind] in Hrun.
    destruct (Z.gtb_spec (RecursiveChunker.chunk_overlap self) 0); [| lia].
    inversion Hrun; subst out. exists chunks.
    split; [reflexivity |]. split; [reflexivity |].
    split; [apply apply_overlap_length |].
    split; [apply apply_overlap_first |].
    intros l1 a b l2 Hcut.
    destruct (@apply_overlap_adjacent self chunks l1 l2 a b Hcut)
      as [o1 [o2 [Ho Hl]]].
    exists o1, o2. unfold k. rewrite <- (@overlap_of_last self) by lia.
    split; assumption.
  - intros Hlong Hnone.
    destruct (Z.leb_spec (Py.len text) (RecursiveChunker.chunk_size self));
      [lia |].
    rewrite (@try_separators_none re_split self _ text _ Hnone) in Hrun.
    split; [exact Hrun |]. intros l1 a b l2 Hcut Hb.
    rewrite <- (@overlap_of_last self) by lia.
    apply (@fixed_width_adjacent self) with (text := text) (out := out)
      (l1 := l1) (l2 := l2); try assumption; [lia |].
    unfold Py.len, k in *. lia.
Qed.

(** The text of five words at chunk size 10 and overlap 3: the blank splits
    it, and the three chunks come back with the overlap in front of the
    second and the third. *)
Lemma overlap_between_adjacent_chunks_witness :
  exists chunks,
    RecursiveChunker.accumulate
      (RecursiveChunker.mk 10 3 [Py.lit " "] true false None)
      (RecursiveChunker._chunk_text Fixtures.no_regex
         (RecursiveChunker.mk 10 3 [Py.lit " "] true false None) 4)
      (Py.lit " ") (map Py.lit ["one"; "two"; "three"; "four"; "five"]%string)
    = Ok chunks
    /\ [Py.lit "one two "; Py.lit "wo three "; Py.lit "ee four five "]
       = RecursiveChunker._apply_overlap
           (RecursiveChunker.mk 10 3 [Py.lit " "] true false None) chunks
    /\ 3 = List.length chunks
    /\ Some (Py.lit "one two ") = hd_error chunks
    /\ forall l1 a b l2,
         chunks = l1 ++ a :: b :: l2 ->
         exists o1 o2,
           [Py.lit "one two "; Py.lit "wo three "; Py.lit "ee four five "]
           = o1 ++ (last_n 3 a ++ b) :: o2
           /\ List.length o1 = S (List.length l1).
Proof.
  destruct (@overlap_between_adjacent_chunks Fixtures.no_regex
              (RecursiveChunker.mk 10 3 [Py.lit " "] true false None) 4
              (Py.lit "one two three four five")
              [Py.lit "one two "; Py.lit "wo three "; Py.lit "ee four five "])
    as [_ [Hsplit _]]; [simpl; lia | reflexivity |].
  apply (Hsplit [] (Py.lit " ") []
           (map Py.lit ["one"; "two"; "three"; "four"; "five"]%string)).
  - vm_compute. reflexivity.
  - reflexivity.
  - constructor.
  - reflexivity.
  - simpl. lia.
Defined.

(** * Connected components *)

Section Components.

Import networkx.

Variable g : Graph.

Lemma mem_In (v : nat) (l : list nat) : mem v l = true <-> In v l.
Proof.
  unfold mem. rewrite existsb_exists. split.
  - intros [x [Hx E]]. apply Nat.eqb_eq in E. subst. assumption.
  - intros H. exists v. split; [assumption | apply Nat.eqb_refl].
Qed.

Lemma edge_sym (a b : nat) : edge g a b -> edge g b a.
Proof. unfold edge. tauto. Qed.

Lemma connected_sym (a b : nat) : connected g a b -> connected g b a.
Proof.
  induction 1 as [x y H | x | x y z _ IH1 _ IH2].
  - apply rt_step. apply edge_sym. assumption.
  - apply rt_refl.
  - eapply rt_trans; eassumption.
Qed.

Lemma neighbors_spec (v w : nat) : In w (neighbors g v) <-> edge g v w.
Proof.
  unfold neighbors, edge. rewrite in_flat_map. split.
  - intros [[a b] [He Hw]]. simpl in Hw. apply in_app_or in Hw.
    destruct Hw as [Hw | Hw].
    + destruct (Nat.eqb_spec a v); [| contradiction].
      destruct Hw as [<- | []]. subst. left. assumption.
    + destruct (Nat.eqb_spec b v); [| contradiction].
      destruct Hw as [<- | []]. subst. right. assumption.
  - intros [H | H].
    + exists (v, w). split; [assumption |]. simpl. rewrite Nat.eqb_refl.
      left. reflexivity.
    + exists (w, v). split; [assumption |]. simpl. rewrite Nat.eqb_refl.
      apply in_or_app. right. left. reflexivity.
Qed.

(** Visiting a list of nodes appends those not seen before, once each, to
    both the seen nodes and the next level. *)
Lemma visit_fold (ws : list nat) :
  forall s n,
  exists added,
    fold_left visit ws (s, n) = (s ++ added, n ++ added)
    /\ (forall x, In x added -> In x ws /\ ~ In x s)
    /\ (forall x, In x ws -> In x (s ++ added))
    /\ (NoDup s -> NoDup (s ++ added)).
Proof.
  induction ws as [| w ws IH]; intros s n; simpl.
  - exists []. rewrite !app_nil_r.
    repeat split; simpl in *; try tauto; try contradiction.
  - unfold visit at 2. simpl. destruct (mem w s) eqn:E.
    + apply mem_In in E. destruct (IH s n) as [added [H1 [H2 [H3 H4]]]].
      exists added. repeat split; try assumption.
      * right. apply H2. assumption.
      * apply H2. assumption.
      * intros x [<- | Hx]; [apply in_or_app; tauto | auto].
    + assert (Hw : ~ In w s) by (rewrite <- mem_In; congruence).
      destruct (IH (s ++ [w]) (n ++ [w])) as [added [H1 [H2 [H3 H4]]]].
      exists (w :: added). rewrite H1, <- !app_assoc. simpl.
      repeat split.
      * destruct H as [<- | H]; [left; reflexivity | right; apply H2, H].
      * destruct H as [<- | H]; [assumption |].
        intros Hs. apply (proj2 (H2 x H)). apply in_or_app. tauto.
      * intros x [<- | Hx].
        -- apply in_or_app. right. left. reflexivity.
        -- specialize (H3 x Hx). rewrite <- app_assoc in H3. exact H3.
      * intros Hs. rewrite <- app_assoc in H4. apply H4.
        apply NoDup_app; [assumption | repeat constructor; tauto |].
        intros x Hx [<- | []]. contradiction.
Qed.

(** The same for a whole level: the nodes added are the neighbours of the
    level that were not seen. *)
Lemma expand_fold (vs : list nat) :
  forall s n,
  exists added,
    fold_left (expand g) vs (s, n) = (s ++ added, n ++ added)
    /\ (forall x, In x added -> (exists v, In v vs /\ edge g v x) /\ ~ In x s)
    /\ (forall v x, In v vs -> edge g v x -> In x (s ++ added))
    /\ (NoDup s -> NoDup (s ++ added)).
Proof.
  induction vs as [| v vs IH]; intros s n; simpl.
  - exists []. rewrite !app_nil_r.
    repeat split; simpl in *; try tauto; try contradiction.
  - unfold expand at 2.
    destruct (visit_fold (neighbors g v) s n) as [a1 [E1 [A1 [A2 A3]]]].
    rewrite E1.
    destruct (IH (s ++ a1) (n ++ a1)) as [a2 [E2 [B1 [B2 B3]]]].
    exists (a1 ++ a2). rewrite E2, <- !app_assoc. repeat split.
    + apply in_app_or in H. destruct H as [H | H].
      * exists v. split; [left; reflexivity |].
        apply neighbors_spec. apply A1. assumption.
      * destruct (proj1 (B1 x H)) as [u [Hu He]]. exists u. tauto.
    + apply in_app_or in H. destruct H as [H | H].
      * apply A1. assumption.
      * intros Hs. apply (proj2 (B1 x H)). apply in_or_app. tauto.
    + intros u x [<- | Hu] He.
      * apply neighbors_spec in He. apply A2 in He.
        rewrite app_assoc. apply in_or_app. left. assumption.
      * specialize (B2 u x Hu He). rewrite <- app_assoc in B2. exact B2.
    + intros Hs. rewrite app_assoc. apply B3. apply A3. assumption.
Qed.

End Components.

Section Search.

Import networkx.

Variable g : Graph.
Hypothesis wf : well_formed g.
Variable src : nat.

Lemma edge_nodes (a b : nat) : edge g a b -> In b (nodes g).
Proof. intros [H | H]; apply wf in H; tauto. Qed.

Lemma search_step (seen level : list nat) :
  search_inv g src seen level ->
  let acc := fold_left (expand g) level (seen, []) in
  search_inv g src (fst acc) (snd acc)
  /\ List.length (fst acc) = List.length seen + List.length (snd acc)
  /\ incl seen (fst acc).
Proof.
  intros [Hl Hc Hr Hn Hg].
  destruct (expand_fold g level seen []) as [added [E [A1 [A2 A3]]]].
  simpl. rewrite E. simpl. split; [| split].
  - constructor.
    + intros x Hx. apply in_or_app. tauto.
    + intros u w Hu Hnot He. apply in_app_or in Hu.
      destruct Hu as [Hu | Hu]; [| contradiction].
      destruct (in_dec Nat.eq_dec u level) as [Hin | Hout].
      * eapply A2; eassumption.
      * apply in_or_app. left. eapply Hc; eassumption.
    + intros u Hu. apply in_app_or in Hu. destruct Hu as [Hu | Hu]; [auto |].
      destruct (proj1 (A1 u Hu)) as [v [Hv He]].
      eapply rt_trans; [apply Hr, Hl, Hv | apply rt_step, He].
    + auto.
    + intros u Hu. apply in_app_or in Hu. destruct Hu as [Hu | Hu]; [auto |].
      destruct (proj1 (A1 u Hu)) as [v [Hv He]]. eapply edge_nodes, He.
  - apply length_app.
  - intros x Hx. apply in_or_app. tauto.
Qed.

(** With enough fuel the search stops on a set that is closed under the
    edges. *)
Lemma search_closed (fuel : nat) :
  forall seen level,
    search_inv g src seen level ->
    List.length (nodes g) + (match level with [] => 0 | _ => 1 end)
    <= fuel + List.length seen ->
    let r := plain_bfs fuel g seen level in
    incl seen r
    /\ (forall u w, In u r -> edge g u w -> In w r)
    /\ (forall u, In u r -> connected g src u).
Proof.
  induction fuel as [| f IH]; intros seen level Hinv Hfuel.
  - assert (Hlen : List.length seen <= List.length (nodes g)).
    { apply NoDup_incl_length; [apply (inv_nodup Hinv) | apply (inv_nodes Hinv)]. }
    destruct level as [| v level]; [| simpl in Hfuel; lia].
    simpl. split; [apply incl_refl | split].
    + intros u w Hu. apply (inv_closed Hinv); auto.
    + apply (inv_reach Hinv).
  - destruct level as [| v level].
    + simpl. split; [apply incl_refl | split].
      * intros u w Hu. apply (inv_closed Hinv); auto.
      * apply (inv_reach Hinv).
    + destruct (search_step Hinv) as [Hinv' [Hlen Hincl]].
      set (acc := fold_left (expand g) (v :: level) (seen, [])) in *.
      destruct (IH (fst acc) (snd acc) Hinv') as [H1 [H2 H3]].
      { rewrite Hlen. simpl in Hfuel. destruct (snd acc); simpl; lia. }
      change (plain_bfs (S f) g seen (v :: level))
        with (plain_bfs f g (fst acc) (snd acc)).
      split; [| split]; try assumption.
      intros x Hx. apply H1, Hincl, Hx.
Qed.

End Search.

Section ComponentsOfGraph.

Import networkx.

Variable g : Graph.
Hypothesis wf : well_formed g.

(** The search from a node finds exactly the nodes connected to it. *)
Lemma plain_bfs_component (v : nat) :
  In v (nodes g) ->
  forall w,
    In w (plain_bfs (List.length (nodes g)) g [v] [v]) <-> connected g v w.
Proof.
  intros Hv w.
  assert (Hinv : search_inv g v [v] [v]).
  { constructor.
    - apply incl_refl.
    - intros u x Hu Hnot. contradiction.
    - intros u [<- | []]. apply rt_refl.
    - repeat constructor. intros [].
    - intros u [<- | []]. assumption. }
  destruct (@search_closed g wf v (List.length (nodes g)) [v] [v] Hinv)
    as [H1 [H2 H3]]; [simpl; lia |].
  split; [apply H3 |].
  intros Hc. apply clos_rt_rtn1 in Hc.
  induction Hc as [| y z He _ IH].
  - apply H1. left. reflexivity.
  - eapply H2; eassumption.
Qed.

(** The components found while walking a list of nodes: each is the class
    of a node of the list, and every node of the list is in one of them or
    was seen before. *)
Lemma components_go_spec (vs : list nat) :
  forall seen,
    incl vs (nodes g) ->
    (forall c, In c (components_go g vs seen) ->
       exists v, In v vs /\ forall w, In w c <-> connected g v w)
    /\ (forall v, In v vs ->
          In v seen
          \/ exists c, In c (components_go g vs seen) /\ In v c).
Proof.
  induction vs as [| v vs IH]; intros seen Hvs; simpl.
  - split; intros ? [].
  - assert (Hvs' : incl vs (nodes g)) by (intros x Hx; apply Hvs; right; exact Hx).
    destruct (mem v seen) eqn:E.
    + destruct (IH seen Hvs') as [H1 H2]. split.
      * intros c Hc. destruct (H1 c Hc) as [u [Hu Hw]]. exists u. tauto.
      * intros u [<- | Hu]; [left; apply mem_In; exact E | auto].
    + set (c0 := plain_bfs (List.length (nodes g)) g [v] [v]).
      destruct (IH (seen ++ c0) Hvs') as [H1 H2]. split.
      * intros c [<- | Hc].
        -- exists v. split; [left; reflexivity |].
           apply plain_bfs_component. apply Hvs. left. reflexivity.
        -- destruct (H1 c Hc) as [u [Hu Hw]]. exists u. tauto.
      * intros u [<- | Hu].
        -- right. exists c0. split; [left; reflexivity |].
           apply plain_bfs_component; [apply Hvs; left; reflexivity |].
           apply rt_refl.
        -- destruct (H2 u Hu) as [Hs | [c [Hc Hin]]].
           ++ apply in_app_or in Hs. destruct Hs as [Hs | Hs]; [tauto |].
              right. exists c0. split; [left; reflexivity | assumption].
           ++ right. exists c. split; [right; assumption | assumption].
Qed.

(** [connected_components] returns the classes of the relation "joined by a
    chain of edges": two nodes share a component exactly when they are
    connected, and every node is in a component. *)
Lemma connected_components_spec :
  (forall v, In v (nodes g) ->
     exists c, In c (connected_components g) /\ In v c)
  /\ (forall c v, In c (connected_components g) -> In v c -> In v (nodes g))
  /\ (forall a b, In a (nodes g) ->
        (exists c, In c (connected_components g) /\ In a c /\ In b c)
        <-> connected g a b).
Proof.
  unfold connected_components.
  destruct (@components_go_spec (nodes g) [] (incl_refl _)) as [H1 H2].
  assert (Hnodes : forall a b, In a (nodes g) -> connected g a b -> In b (nodes g)).
  { intros a b Ha Hc. apply clos_rt_rtn1 in Hc.
    induction Hc as [| y z He _ IH]; [assumption |].
    eapply (@edge_nodes g wf); eassumption. }
  split; [| split].
  - intros v Hv. destruct (H2 v Hv) as [[] | Hc]. exact Hc.
  - intros c v Hc Hin. destruct (H1 c Hc) as [u [Hu Hw]].
    apply Hw in Hin. eapply Hnodes; eassumption.
  - intros a b Ha. split.
    + intros [c [Hc [Hac Hbc]]]. destruct (H1 c Hc) as [u [Hu Hw]].
      apply Hw in Hac. apply Hw in Hbc.
      eapply rt_trans; [apply connected_sym; eassumption | assumption].
    + intros Hab. destruct (H2 a Ha) as [[] | [c [Hc Hac]]].
      exists c. repeat split; try assumption.
      destruct (H1 c Hc) as [u [Hu Hw]]. apply Hw.
      eapply rt_trans; [apply Hw; eassumption | assumption].
Qed.

End ComponentsOfGraph.

(** * Lists built with a fallible function *)

Section MapM.

Variables A B : Type.
Variable f : A -> result B.

Lemma map_m_ok (l : list A) (l' : list B) :
  map_m f l = Ok l' <-> Forall2 (fun x y => f x = Ok y) l l'.
Proof.
  revert l'. induction l as [| x l IH]; intros l'; simpl.
  - split; intros H; inversion H; constructor.
  - destruct (f x) as [y |] eqn:E; simpl.
    + destruct (map_m f l) as [ys |] eqn:E'; simpl.
      * split; intros H; inversion H; subst.
        -- constructor; [assumption | apply IH; reflexivity].
        -- rewrite E in H2. inversion H2; subst.
           apply IH in H4. inversion H4. reflexivity.
      * split; intros H; [discriminate |]. inversion H; subst.
        apply IH in H4. discriminate.
    + split; intros H; [discriminate |]. inversion H; subst.
      rewrite E in H2. discriminate.
Qed.

Lemma map_m_total (l : list A) :
  (forall x, In x l -> exists y, f x = Ok y) ->
  exists l', map_m f l = Ok l'.
Proof.
  induction l as [| x l IH]; intros H; simpl; [eauto |].
  destruct (H x (or_introl eq_refl)) as [y E]. rewrite E. simpl.
  destruct IH as [l' E']; [intros z Hz; apply H; right; exact Hz |].
  rewrite E'. simpl. eauto.
Qed.

(** When [f] is [g] in disguise on the elements of the list. *)
Lemma map_m_pure (g : A -> B) (l : list A) :
  (forall x, In x l -> f x = Ok (g x)) -> map_m f l = Ok (map g l).
Proof.
  induction l as [| x l IH]; intros H; simpl; [reflexivity |].
  rewrite (H x (or_introl eq_refl)). simpl.
  rewrite IH; [reflexivity |]. intros z Hz. apply H. right. exact Hz.
Qed.

End MapM.

Lemma Forall2_with_In {A B} (R : A -> B -> Prop) (l : list A) (l' : list B) :
  Forall2 R l l' -> Forall2 (fun x y => In x l /\ R x y) l l'.
Proof.
  induction 1 as [| x y l l' H _ IH]; constructor.
  - split; [left; reflexivity | assumption].
  - eapply Forall2_impl; [| exact IH]. simpl. intros a b [Ha Hr].
    split; [right; assumption | assumption].
Qed.

Lemma Forall2_through {A B C} (P : A -> B -> Prop) (Q : B -> C -> Prop)
  (l : list A) (l'' : list C) :
  Forall2 (fun x z => exists y, P x y /\ Q y z) l l'' ->
  exists l', Forall2 P l l' /\ Forall2 Q l' l''.
Proof.
  induction 1 as [| x z l l'' [y [Hp Hq]] _ [l' [H1 H2]]].
  - exists []. split; constructor.
  - exists (y :: l'). split; constructor; assumption.
Qed.

Lemma Forall2_In_l {A B} (R : A -> B -> Prop) (l : list A) (l' : list B) x :
  Forall2 R l l' -> In x l -> exists y, In y l' /\ R x y.
Proof.
  induction 1 as [| a b l l' H _ IH]; intros Hin; [contradiction |].
  destruct Hin as [<- | Hin].
  - exists b. split; [left; reflexivity | assumption].
  - destruct (IH Hin) as [y [Hy Hr]]. exists y. split; [right |]; assumption.
Qed.

Lemma Forall2_In_r {A B} (R : A -> B -> Prop) (l : list A) (l' : list B) y :
  Forall2 R l l' -> In y l' -> exists x, In x l /\ R x y.
Proof.
  induction 1 as [| a b l l' H _ IH]; intros Hin; [contradiction |].
  destruct Hin as [<- | Hin].
  - exists a. split; [left; reflexivity | assumption].
  - destruct (IH Hin) as [x [Hx Hr]]. exists x. split; [right |]; assumption.
Qed.

(** * Sorting by key *)

Section Sorting.

Variables K A : Type.
Variable ltb : K -> K -> bool.

Lemma insert_by_key_perm (k : K) (x : A) (sorted : list (K * A)) :
  Permutation (azure_ocr_utils.insert_by_key ltb k x sorted) ((k, x) :: sorted).
Proof.
  induction sorted as [| [k' x'] rest IH]; simpl; [apply Permutation_refl |].
  destruct (ltb k k'); [apply Permutation_refl |].
  eapply Permutation_trans; [apply perm_skip, IH | apply perm_swap].
Qed.

Lemma sort_fold_perm (keyed acc : list (K * A)) :
  Permutation
    (fold_left
       (fun acc kx => azure_ocr_utils.insert_by_key ltb (fst kx) (snd kx) acc)
       keyed acc)
    (keyed ++ acc).
Proof.
  revert acc. induction keyed as [| [k x] keyed IH]; intros acc; simpl;
    [apply Permutation_refl |].
  eapply Permutation_trans; [apply IH |].
  eapply Permutation_trans;
    [apply Permutation_app_head, insert_by_key_perm |].
  apply Permutation_sym, Permutation_middle.
Qed.

(** Sorting rearranges. *)
Lemma sort_keyed_perm (keyed : list (K * A)) :
  Permutation (azure_ocr_utils.sort_keyed ltb keyed) (map snd keyed).
Proof.
  unfold azure_ocr_utils.sort_keyed. apply Permutation_map.
  rewrite <- (app_nil_r keyed) at 2. apply sort_fold_perm.
Qed.

End Sorting.

Section SortingImages.

Variables K I A : Type.
Variable ltb : K -> K -> bool.
Variable f : I -> A.

Lemma insert_by_key_map (k : K) (i : I) (sorted : list (K * I)) :
  azure_ocr_utils.insert_by_key ltb k (f i) (map (on_snd f) sorted)
  = map (on_snd f) (azure_ocr_utils.insert_by_key ltb k i sorted).
Proof.
  induction sorted as [| [k' i'] rest IH]; simpl; [reflexivity |].
  destruct (ltb k k'); simpl; [reflexivity |]. rewrite <- IH. reflexivity.
Qed.

(** Sorting the images of a list by keys is sorting the list by the same
    keys and taking the images. *)
Lemma sort_keyed_map (keyed : list (K * I)) :
  azure_ocr_utils.sort_keyed ltb (map (on_snd f) keyed)
  = map f (azure_ocr_utils.sort_keyed ltb keyed).
Proof.
  unfold azure_ocr_utils.sort_keyed.
  assert (H : forall acc,
    fold_left
      (fun acc kx => azure_ocr_utils.insert_by_key ltb (fst kx) (snd kx) acc)
      (map (on_snd f) keyed) (map (on_snd f) acc)
    = map (on_snd f)
        (fold_left
           (fun acc kx => azure_ocr_utils.insert_by_key ltb (fst kx) (snd kx) acc)
           keyed acc)).
  { induction keyed as [| [k i] keyed IH]; intros acc; simpl; [reflexivity |].
    rewrite insert_by_key_map. apply IH. }
  specialize (H []). simpl in H. rewrite H, !map_map. reflexivity.
Qed.

(** A sort of images that returns, returns the images of a rearrangement. *)
Lemma sorted_by_map (key : A -> result K) (l : list I) (out : list A) :
  azure_ocr_utils.sorted_by ltb key (map f l) = Ok out ->
  exists l', out = map f l' /\ Permutation l' l.
Proof.
  unfold azure_ocr_utils.sorted_by.
  destruct (map_m _ (map f l)) as [keyed |] eqn:E; simpl; [| discriminate].
  intros H. inversion H; subst. clear H.
  assert (Hk : exists keyed', keyed = map (on_snd f) keyed' /\ map snd keyed' = l).
  { clear -E. revert keyed E. induction l as [| i l IH]; intros keyed E;
      simpl in E.
    - inversion E. exists []. split; reflexivity.
    - destruct (key (f i)) as [k |]; simpl in E; [| discriminate].
      destruct (map_m _ (map f l)) as [ks |] eqn:E'; simpl in E;
        [| discriminate].
      inversion E; subst. destruct (IH ks eq_refl) as [keyed' [H1 H2]].
      exists ((k, i) :: keyed'). simpl. rewrite H1, H2. split; reflexivity. }
  destruct Hk as [keyed' [-> Hl]].
  exists (azure_ocr_utils.sort_keyed ltb keyed'). split.
  - apply sort_keyed_map.
  - rewrite <- Hl. apply sort_keyed_perm.
Qed.

(** A sort returns when every key can be computed. *)
Lemma sorted_by_total (key : A -> result K) (l : list A) :
  (forall x, In x l -> exists k, key x = Ok k) ->
  exists out, azure_ocr_utils.sorted_by ltb key l = Ok out.
Proof.
  intros H. unfold azure_ocr_utils.sorted_by.
  destruct (@map_m_total A (K * A) (fun x => k <- key x ;; Ok (k, x)) l)
    as [keyed E].
  - intros x Hx. destruct (H x Hx) as [k Ek]. rewrite Ek. simpl. eauto.
  - rewrite E. simpl. eauto.
Qed.

End SortingImages.

(** * The graph of a page *)

Section GraphOfPairs.

Import networkx.

Lemma add_node_In (ns : list nat) (u v : nat) :
  In v (add_node ns u) <-> In v ns \/ v = u.
Proof.
  unfold add_node. destruct (mem u ns) eqn:E.
  - apply mem_In in E. split; [tauto |]. intros [H | ->]; assumption.
  - rewrite in_app_iff. simpl. intuition congruence.
Qed.

Lemma add_edges_from_spec (es : list (nat * nat)) :
  forall g,
    edges (add_edges_from g es) = edges g ++ es
    /\ forall v,
         In v (nodes (add_edges_from g es))
         <-> In v (nodes g) \/ exists a b, In (a, b) es /\ (v = a \/ v = b).
Proof.
  induction es as [| [a b] es IH]; intros g; simpl.
  - rewrite app_nil_r. split; [reflexivity |]. intros v. split; [tauto |].
    intros [H | [x [y [[] _]]]]. assumption.
  - destruct (IH (add_edge g (a, b))) as [He Hn]. split.
    + rewrite He. simpl. rewrite <- app_assoc. reflexivity.
    + intros v. rewrite Hn. simpl. rewrite !add_node_In. split.
      * intros [[[H | ->] | ->] | [x [y [Hin Hv]]]].
        -- tauto.
        -- right. exists a, b. tauto.
        -- right. exists a, b. tauto.
        -- right. exists x, y. tauto.
      * intros [H | [x [y [[E | Hin] Hv]]]].
        -- tauto.
        -- inversion E; subst. left. tauto.
        -- right. exists x, y. tauto.
Qed.

Lemma graph_of_edges (pairs : list (nat * nat)) : edges (graph_of pairs) = pairs.
Proof. apply (add_edges_from_spec pairs empty). Qed.

Lemma graph_of_nodes (pairs : list (nat * nat)) (v : nat) :
  In v (nodes (graph_of pairs))
  <-> exists a b, In (a, b) pairs /\ (v = a \/ v = b).
Proof.
  unfold graph_of. rewrite (proj2 (add_edges_from_spec pairs empty)). simpl.
  tauto.
Qed.

Lemma graph_of_well_formed (pairs : list (nat * nat)) :
  well_formed (graph_of pairs).
Proof.
  intros a b H. rewrite graph_of_edges in H. rewrite !graph_of_nodes.
  split; exists a, b; tauto.
Qed.

End GraphOfPairs.

Lemma Forall2_nth_error_r {A B} (R : A -> B -> Prop) (l : list A)
  (l' : list B) :
  Forall2 R l l' ->
  forall i y, nth_error l' i = Some y ->
  exists x, nth_error l i = Some x /\ R x y.
Proof.
  induction 1 as [| a b l l' H _ IH]; intros [| i] y E; simpl in *;
    try discriminate.
  - inversion E; subst. eauto.
  - eauto.
Qed.

Lemma Forall2_nth_error_l {A B} (R : A -> B -> Prop) (l : list A)
  (l' : list B) :
  Forall2 R l l' ->
  forall i x, nth_error l i = Some x ->
  exists y, nth_error l' i = Some y /\ R x y.
Proof.
  induction 1 as [| a b l l' H _ IH]; intros [| i] x E; simpl in *;
    try discriminate.
  - inversion E; subst. eauto.
  - eauto.
Qed.

Section PairsOfPage.

Import azure_ocr_utils.

Variable threshold_y : float.

Lemma pairs_with_spec (i : nat) (left_upi : Point.t) :
  forall later j pts,
    map_m left_up later = Ok pts ->
    exists row,
      pairs_with threshold_y i left_upi j later = Ok row
      /\ forall a b,
           In (a, b) row
           <-> a = i
               /\ exists m pj,
                    b = j + m /\ nth_error pts m = Some pj
                    /\ close_on_y_axis threshold_y left_upi pj = true.
Proof.
  induction later as [| objj rest IH]; intros j pts Hpts; simpl in *.
  - inversion Hpts; subst. exists []. split; [reflexivity |].
    intros a b. split; [intros [] |].
    intros [_ [[| m] [pj [_ [E _]]]]]; discriminate.
  - destruct (left_up objj) as [pj0 |]; simpl in *; [| discriminate].
    destruct (map_m left_up rest) as [pts' |] eqn:E; simpl in *;
      [| discriminate].
    inversion Hpts; subst. clear Hpts.
    destruct (IH (S j) pts' eq_refl) as [more [Hm Hspec]].
    rewrite Hm. simpl. eexists. split; [reflexivity |].
    intros a b. split.
    + intros Hin.
      assert (Hcase : (a = i /\ b = j
                       /\ close_on_y_axis threshold_y left_upi pj0 = true)
                      \/ In (a, b) more).
      { destruct (close_on_y_axis threshold_y left_upi pj0) eqn:Ec;
          [destruct Hin as [Hin | Hin]; [inversion Hin; subst |] |]; tauto. }
      destruct Hcase as [[-> [-> Hc]] | Hin'].
      * split; [reflexivity |]. exists 0, pj0. repeat split; [lia | exact Hc].
      * apply Hspec in Hin'. destruct Hin' as [-> [m [pj [-> [En Hc]]]]].
        split; [reflexivity |]. exists (S m), pj. repeat split;
          [lia | exact En | exact Hc].
    + intros [-> [[| m] [pj [-> [En Hc]]]]]; simpl in En.
      * inversion En; subst. rewrite Hc. left. f_equal. lia.
      * assert (Hin : In (i, S j + m) more).
        { apply Hspec. split; [reflexivity |]. exists m, pj. tauto. }
        replace (j + S m) with (S j + m) by lia.
        destruct (close_on_y_axis threshold_y left_upi pj0);
          [right |]; exact Hin.
Qed.

Lemma pairs_from_spec :
  forall objects i pts,
    map_m left_up objects = Ok pts ->
    exists pairs,
      pairs_from threshold_y i objects = Ok pairs
      /\ forall a b,
           In (a, b) pairs
           <-> exists m pa,
                 a = i + m /\ nth_error pts m = Some pa
                 /\ (b = a
                     \/ exists m' pb,
                          m < m' /\ b = i + m' /\ nth_error pts m' = Some pb
                          /\ close_on_y_axis threshold_y pa pb = true).
Proof.
  induction objects as [| obji rest IH]; intros i pts Hpts; simpl in *.
  - inversion Hpts; subst. exists []. split; [reflexivity |].
    intros a b. split; [intros [] |].
    intros [[| m] [pa [_ [E _]]]]; discriminate.
  - destruct (left_up obji) as [p0 |]; simpl in *; [| discriminate].
    destruct (map_m left_up rest) as [pts' |] eqn:E; simpl in *;
      [| discriminate].
    inversion Hpts; subst. clear Hpts.
    destruct (@pairs_with_spec i p0 rest (S i) pts' E) as [row [Hr Hrow]].
    destruct (IH (S i) pts' eq_refl) as [more [Hm Hmore]].
    rewrite Hr. simpl. rewrite Hm. simpl. eexists. split; [reflexivity |].
    intros a b. simpl. rewrite in_app_iff, Hrow, Hmore. split.
    + intros [Heq | [[-> [m [pj [-> [En Hc]]]]] | [m [pa [-> [En Hb]]]]]].
      * inversion Heq; subst. exists 0, p0. repeat split; [lia | tauto].
      * exists 0, p0. repeat split; [lia |]. right.
        exists (S m), pj. repeat split; [lia | lia | exact En | exact Hc].
      * exists (S m), pa. repeat split; [lia | exact En |].
        destruct Hb as [-> | [m' [pb [Hlt [-> [En' Hc]]]]]]; [left; lia |].
        right. exists (S m'), pb. repeat split; [lia | lia | exact En' | exact Hc].
    + intros [[| m] [pa [-> [En Hb]]]]; simpl in En.
      * inversion En; subst.
        destruct Hb as [-> | [[| m'] [pb [Hlt [-> [En' Hc]]]]]];
          [left; f_equal; lia | lia |].
        right. left. split; [lia |]. exists m', pb. simpl in En'.
        repeat split; [lia | exact En' | exact Hc].
      * right. right. exists m, pa. repeat split; [lia | exact En |].
        destruct Hb as [-> | [[| m'] [pb [Hlt [-> [En' Hc]]]]]];
          [left; lia | lia |].
        right. exists m', pb. simpl in En'.
        repeat split; [lia | lia | exact En' | exact Hc].
Qed.

End PairsOfPage.

Section ComponentsNonEmpty.

Import networkx.

Lemma connected_components_nonempty (g : Graph) :
  well_formed g ->
  forall c, In c (connected_components g) -> c <> [].
Proof.
  intros wf c Hc. unfold connected_components in Hc.
  destruct (@components_go_spec g wf (nodes g) [] (incl_refl _)) as [H1 _].
  destruct (H1 c Hc) as [v [_ Hw]].
  intros ->. apply (proj2 (Hw v)). apply rt_refl.
Qed.

(** A component holds everything connected to one of its members. *)
Lemma connected_components_closed (g : Graph) :
  well_formed g ->
  forall c a b,
    In c (connected_components g) -> In a c -> connected g a b -> In b c.
Proof.
  intros wf c a b Hc Ha Hab. unfold connected_components in Hc.
  destruct (@components_go_spec g wf (nodes g) [] (incl_refl _)) as [H1 _].
  destruct (H1 c Hc) as [v [_ Hw]].
  apply Hw. eapply rt_trans; [apply Hw; exact Ha | exact Hab].
Qed.

End ComponentsNonEmpty.

(** * The distance of two y values does not depend on their order *)

Section FloatDistance.

Lemma SFabs_binary_round (prec emax : Z) (sx sy : bool) (m : positive) (e : Z) :
  SFabs (binary_round prec emax sx m e) = SFabs (binary_round prec emax sy m e).
Proof.
  unfold binary_round. destruct (shl_align m e _) as [mz ez].
  unfold binary_round_aux.
  destruct (shr_fexp prec emax (Z.pos mz) ez loc_Exact) as [mrs' e'].
  destruct (shr_fexp prec emax _ e' loc_Exact) as [mrs'' e''].
  destruct (shr_m mrs''); try reflexivity.
  destruct (e'' <=? emax - prec)%Z; reflexivity.
Qed.

Lemma SFabs_binary_normalize_opp (prec emax m e : Z) :
  SFabs (binary_normalize prec emax (- m) e false)
  = SFabs (binary_normalize prec emax m e false).
Proof.
  destruct m; simpl; [reflexivity | |]; apply SFabs_binary_round.
Qed.

Lemma SFabs_sub_comm (prec emax : Z) (x y : spec_float) :
  SFabs (SFsub prec emax x y) = SFabs (SFsub prec emax y x).
Proof.
  destruct x as [sx | sx | | sx mx ex], y as [sy | sy | | sy my ey];
    try reflexivity; try (destruct sx, sy; reflexivity).
  unfold SFsub. rewrite (Z.min_comm ey ex).
  set (a := cond_Zopp sx _). set (b := cond_Zopp sy _).
  replace (b - a)%Z with (- (a - b))%Z by lia.
  symmetry. apply SFabs_binary_normalize_opp.
Qed.

(** [abs(a - b) < t] and [abs(b - a) < t] are the same test in binary64
    arithmetic. *)
Lemma close_on_y_axis_sym (threshold_y : float) (p q : Point.t) :
  azure_ocr_utils.close_on_y_axis threshold_y p q
  = azure_ocr_utils.close_on_y_axis threshold_y q p.
Proof.
  unfold azure_ocr_utils.close_on_y_axis.
  rewrite !ltb_spec, !abs_spec, !sub_spec. unfold SF64sub.
  rewrite SFabs_sub_comm. reflexivity.
Qed.

End FloatDistance.

(** * The rows of one page *)

Section RowsOfPage.

Import azure_ocr_utils.

Variable threshold_y : float.
Variable objects : list PageObject.

Lemma close_at_sym (i j : nat) :
  close_at threshold_y objects i j -> close_at threshold_y objects j i.
Proof.
  intros [oi [oj [pi [pj [Ei [Ej [Hi [Hj Hc]]]]]]]].
  exists oj, oi, pj, pi. rewrite close_on_y_axis_sym. tauto.
Qed.

Lemma index_nth {A} (l : list A) (i : nat) (d : A) :
  i < List.length l -> Py.index l (Z.of_nat i) = Ok (nth i l d).
Proof.
  intros H. unfold Py.index.
  destruct (Z.ltb_spec (Z.of_nat i) 0); [lia |].
  destruct (Z.ltb_spec (Z.of_nat i) 0); [lia |].
  rewrite Nat2Z.id, (nth_error_nth' l d H). reflexivity.
Qed.

Lemma objects_in_row_at (row : list nat) :
  (forall i, In i row -> i < List.length objects) ->
  objects_in_row objects row = Ok (map (object_at objects) row).
Proof.
  intros H. unfold objects_in_row. apply map_m_pure.
  intros i Hi. apply index_nth. apply H. exact Hi.
Qed.

Lemma four_points_keys (obj : PageObject) :
  four_points obj ->
  exists p, left_up obj = Ok p /\ polygon0 obj = Ok p
            /\ key_x obj = Ok (Point.x p).
Proof.
  intros [a [b [c [d H]]]]. exists a.
  unfold key_x, polygon0, left_up. rewrite H. simpl. repeat split.
Qed.

Hypothesis polygons : Forall four_points objects.

Lemma object_at_four_points (i : nat) :
  i < List.length objects -> four_points (object_at objects i).
Proof.
  intros H. eapply Forall_forall; [exact polygons |].
  apply nth_In. exact H.
Qed.

Lemma left_up_all :
  exists pts, map_m left_up objects = Ok pts.
Proof.
  apply map_m_total. intros obj Hobj.
  destruct (@four_points_keys obj) as [p [Hp _]]; [| eauto].
  eapply Forall_forall; eassumption.
Qed.

Lemma all_have_polygon_true : all_have_polygon objects = Ok true.
Proof.
  clear -polygons. induction objects as [| obj l IH]; simpl; [reflexivity |].
  inversion polygons as [| ? ? [a [b [c [d H]]]] Hl]; subst.
  rewrite H. simpl. apply IH. exact Hl.
Qed.

(** The pairs of the page: every index with itself, and every two
    neighbours, the earlier first. *)
Lemma pairs_of_page_spec :
  exists pairs,
    pairs_of_page threshold_y objects = Ok pairs
    /\ forall a b,
         In (a, b) pairs
         <-> (a < List.length objects /\ b = a)
             \/ (a < b /\ close_at threshold_y objects a b).
Proof.
  destruct left_up_all as [pts Hpts].
  destruct (@pairs_from_spec threshold_y objects 0 pts Hpts) as [pairs [Hp Hs]].
  exists pairs. unfold pairs_of_page. rewrite all_have_polygon_true. simpl.
  split; [exact Hp |].
  pose proof (proj1 (map_m_ok _ _ _) Hpts) as HF.
  pose proof (Forall2_length HF) as Hlen.
  intros a b. rewrite Hs. split.
  - intros [m [pa [-> [En Hb]]]]. simpl.
    destruct (Forall2_nth_error_r HF _ En) as [oa [Eoa Hoa]].
    destruct Hb as [-> | [m' [pb [Hlt [-> [En' Hc]]]]]].
    + left. split; [| reflexivity].
      apply nth_error_Some. congruence.
    + right. split; [simpl; lia |].
      destruct (Forall2_nth_error_r HF _ En') as [ob [Eob Hob]].
      exists oa, ob, pa, pb. simpl. tauto.
  - intros [[Ha ->] | [Hlt [oa [ob [pa [pb [Eoa [Eob [Hoa [Hob Hc]]]]]]]]]].
    + destruct (nth_error objects a) as [oa |] eqn:Eoa;
        [| apply nth_error_None in Eoa; lia].
      destruct (Forall2_nth_error_l HF _ Eoa) as [pa [En _]].
      exists a, pa. simpl. tauto.
    + destruct (Forall2_nth_error_l HF _ Eoa) as [pa' [En Hpa]].
      destruct (Forall2_nth_error_l HF _ Eob) as [pb' [En' Hpb]].
      assert (pa' = pa) by congruence. assert (pb' = pb) by congruence.
      subst. exists a, pa. simpl. repeat split; try assumption.
      right. exists b, pb. tauto.
Qed.

End RowsOfPage.

Section RowsOfPageSpec.

Import azure_ocr_utils.

Variable threshold_y : float.
Variable objects : list PageObject.
Hypothesis polygons : Forall four_points objects.

Lemma close_at_bounds (i j : nat) :
  close_at threshold_y objects i j ->
  i < List.length objects /\ j < List.length objects.
Proof.
  intros [oi [oj [pi [pj [Ei [Ej _]]]]]].
  split; apply nth_error_Some; congruence.
Qed.

Section WithPairs.

Variable pairs : list (nat * nat).
Hypothesis pairs_spec :
  forall a b,
    In (a, b) pairs
    <-> (a < List.length objects /\ b = a)
        \/ (a < b /\ close_at threshold_y objects a b).

Lemma page_nodes (v : nat) :
  In v (networkx.nodes (graph_of pairs)) <-> v < List.length objects.
Proof.
  rewrite graph_of_nodes. split.
  - intros [a [b [Hin Hv]]]. apply pairs_spec in Hin.
    destruct Hin as [[Ha ->] | [_ Hc]].
    + destruct Hv; subst; assumption.
    + apply close_at_bounds in Hc. destruct Hv; subst; tauto.
  - intros Hv. exists v, v. split; [apply pairs_spec |]; tauto.
Qed.

(** Connected in the graph of the page is chained through neighbours. *)
Lemma page_connected (a b : nat) :
  connected (graph_of pairs) a b <-> chained threshold_y objects a b.
Proof.
  split.
  - induction 1 as [x y He | x | x y z _ IH1 _ IH2].
    + unfold edge in He. rewrite graph_of_edges in He.
      destruct He as [He | He]; apply pairs_spec in He;
        destruct He as [[_ ->] | [Hlt Hc]];
        try apply rt_refl; apply rt_step; unfold near.
      * split; [lia | exact Hc].
      * split; [lia | apply close_at_sym; exact Hc].
    + apply rt_refl.
    + eapply rt_trans; eassumption.
  - induction 1 as [x y Hn | x | x y z _ IH1 _ IH2].
    + apply rt_step. unfold edge. rewrite graph_of_edges.
      destruct Hn as [Hne Hc].
      destruct (Nat.lt_ge_cases x y) as [Hlt | Hge].
      * left. apply pairs_spec. tauto.
      * right. apply pairs_spec. right. split; [lia |].
        apply close_at_sym. exact Hc.
    + apply rt_refl.
    + eapply rt_trans; eassumption.
Qed.

End WithPairs.

Lemma key_x_at (i : nat) :
  i < List.length objects -> exists k, key_x (object_at objects i) = Ok k.
Proof.
  intros Hi.
  destruct (four_points_keys (object_at_four_points polygons Hi))
    as [p [_ [_ Hk]]].
  eauto.
Qed.

Lemma key_y_at (row : list nat) :
  row <> [] -> (forall i, In i row -> i < List.length objects) ->
  exists k, key_y (map (object_at objects) row) = Ok k.
Proof.
  intros Hne Hrow. destruct row as [| i row]; [contradiction |].
  unfold key_y. simpl.
  destruct (four_points_keys
              (object_at_four_points polygons (Hrow i (or_introl eq_refl))))
    as [p [_ [Hp _]]].
  change (Py.index (object_at objects i :: map (object_at objects) row) 0)
    with (Ok (object_at objects i)).
  simpl. rewrite Hp. simpl. eauto.
Qed.

(** Sorting every row by x rearranges every row. *)
Lemma sort_rows_x (comps : list (list nat)) :
  (forall c i, In c comps -> In i c -> i < List.length objects) ->
  exists comps',
    map_m (sorted_by PrimFloat.ltb key_x) (map (map (object_at objects)) comps)
    = Ok (map (map (object_at objects)) comps')
    /\ Forall2 (fun c c' => Permutation c' c) comps comps'.
Proof.
  induction comps as [| c comps IH]; intros Hn; simpl.
  - exists []. split; [reflexivity | constructor].
  - destruct (@sorted_by_total float PageObject PrimFloat.ltb key_x
                (map (object_at objects) c))
      as [out Hout].
    { intros x Hx. apply in_map_iff in Hx. destruct Hx as [i [<- Hi]].
      apply key_x_at. eapply Hn; [left; reflexivity | exact Hi]. }
    destruct (sorted_by_map _ _ _ _ Hout) as [c' [-> Hperm]].
    destruct IH as [comps' [E HF]].
    { intros c0 i Hc0. apply Hn. right. exact Hc0. }
    exists (c' :: comps'). rewrite Hout. simpl. rewrite E. simpl.
    split; [reflexivity | constructor; assumption].
Qed.

(** Sorting the rows by y rearranges the rows. *)
Lemma sort_rows_y (comps : list (list nat)) :
  (forall c, In c comps -> c <> []) ->
  (forall c i, In c comps -> In i c -> i < List.length objects) ->
  exists comps',
    sorted_by PrimFloat.ltb key_y (map (map (object_at objects)) comps)
    = Ok (map (map (object_at objects)) comps')
    /\ Permutation comps' comps.
Proof.
  intros Hne Hn.
  destruct (@sorted_by_total float (list PageObject) PrimFloat.ltb key_y
              (map (map (object_at objects)) comps)) as [out Hout].
  { intros x Hx. apply in_map_iff in Hx. destruct Hx as [c [<- Hc]].
    apply key_y_at; [apply Hne, Hc | intros i Hi; eapply Hn; eassumption]. }
  destruct (sorted_by_map _ _ _ _ Hout) as [comps' [-> Hperm]].
  exists comps'. split; assumption.
Qed.

End RowsOfPageSpec.

Section RowsAreComponents.

Import azure_ocr_utils.

Variable threshold_y : float.
Variable objects : list PageObject.
Hypothesis polygons : Forall four_points objects.

(** The rows of a page whose objects all have a four-point polygon: the
    call returns; its rows are the objects at the indices of [idx_rows];
    every index is in a row; and two indices share a row exactly when they
    are chained. *)
Lemma rows_of_page_spec :
  exists idx_rows,
    rows_of_page threshold_y objects
    = Ok (map (map (object_at objects)) idx_rows)
    /\ (forall r i, In r idx_rows -> In i r -> i < List.length objects)
    /\ (forall i, i < List.length objects ->
          exists r, In r idx_rows /\ In i r)
    /\ (forall i j, i < List.length objects ->
          (exists r, In r idx_rows /\ In i r /\ In j r)
          <-> chained threshold_y objects i j)
    /\ (forall r i j, In r idx_rows -> In i r ->
          chained threshold_y objects i j -> In j r).
Proof.
  destruct (pairs_of_page_spec threshold_y polygons) as [pairs [Hp Hs]].
  unfold rows_of_page. rewrite Hp. simpl.
  fold (graph_of pairs).
  pose proof (graph_of_well_formed pairs) as wf.
  destruct (connected_components_spec wf) as [Hcov [Hmem Hconn]].
  pose proof (connected_components_nonempty wf) as Hne.
  set (comps := networkx.connected_components (graph_of pairs)) in *.
  assert (Hidx : forall c i, In c comps -> In i c -> i < List.length objects).
  { intros c i Hc Hi. eapply page_nodes; [exact Hs |]. eapply Hmem; eassumption. }
  rewrite (@map_m_pure _ _ (objects_in_row objects)
             (map (object_at objects)) comps).
  2:{ intros c Hc. apply objects_in_row_at. intros i Hi. eapply Hidx; eassumption. }
  simpl. unfold sort_page.
  destruct (sort_rows_x polygons comps Hidx) as [comps' [Ex HF]].
  rewrite Ex. simpl.
  assert (Hback : forall c', In c' comps' ->
            exists c, In c comps /\ Permutation c' c).
  { intros c' Hc'. eapply Forall2_In_r in Hc'; [| exact HF]. exact Hc'. }
  assert (Hforth : forall c, In c comps ->
            exists c', In c' comps' /\ Permutation c' c).
  { intros c Hc. eapply Forall2_In_l in Hc; [| exact HF]. exact Hc. }
  destruct (sort_rows_y polygons comps') as [rows [Ey Hperm]].
  { intros c' Hc' ->. destruct (Hback [] Hc') as [c [Hc Hp']].
    apply Permutation_nil in Hp'. apply (Hne c Hc). assumption. }
  { intros c' i Hc' Hi. destruct (Hback c' Hc') as [c [Hc Hp']].
    eapply Hidx; [exact Hc |]. eapply Permutation_in; eassumption. }
  exists rows. split; [exact Ey |].
  assert (Hrows_back : forall r, In r rows ->
            exists c, In c comps /\ Permutation r c).
  { intros r Hr. apply Hback. eapply Permutation_in; eassumption. }
  assert (Hrows_forth : forall c, In c comps ->
            exists r, In r rows /\ Permutation r c).
  { intros c Hc. destruct (Hforth c Hc) as [c' [Hc' Hp']].
    exists c'. split; [| assumption].
    eapply Permutation_in; [apply Permutation_sym |]; eassumption. }
  split; [| split; [| split]].
  - intros r i Hr Hi. destruct (Hrows_back r Hr) as [c [Hc Hp']].
    eapply Hidx; [exact Hc |]. eapply Permutation_in; eassumption.
  - intros i Hi.
    destruct (Hcov i) as [c [Hc Hic]]; [eapply page_nodes; eassumption |].
    destruct (Hrows_forth c Hc) as [r [Hr Hp']].
    exists r. split; [assumption |].
    eapply Permutation_in; [apply Permutation_sym |]; eassumption.
  - intros i j Hi. rewrite <- (@page_connected threshold_y objects pairs Hs).
    rewrite <- Hconn by (eapply page_nodes; eassumption).
    split.
    + intros [r [Hr [Hir Hjr]]]. destruct (Hrows_back r Hr) as [c [Hc Hp']].
      exists c. repeat split; try assumption;
        eapply Permutation_in; eassumption.
    + intros [c [Hc [Hic Hjc]]]. destruct (Hrows_forth c Hc) as [r [Hr Hp']].
      exists r. repeat split; try assumption;
        (eapply Permutation_in; [apply Permutation_sym |]; eassumption).
  - intros r i j Hr Hir Hij. destruct (Hrows_back r Hr) as [c [Hc Hp']].
    eapply Permutation_in; [apply Permutation_sym; exact Hp' |].
    apply (connected_components_closed wf) with (a := i); try assumption.
    + eapply Permutation_in; eassumption.
    + apply (@page_connected threshold_y objects pairs Hs). exact Hij.
Qed.

End RowsAreComponents.

(** * From the pages to the dictionary *)

Section DictFacts.

Variable V : Type.

Lemma dict_get_not_key (d : Dict.t V) (k : Z) :
  ~ In k (Dict.keys d) -> Dict.get d k = None.
Proof.
  induction d as [| [k' v] d IH]; simpl; [reflexivity |].
  intros H. destruct (Z.eqb_spec k' k); [tauto |]. apply IH. tauto.
Qed.

Lemma dict_get_in (d : Dict.t V) (k : Z) (v : V) :
  NoDup (Dict.keys d) -> In (k, v) d -> Dict.get d k = Some v.
Proof.
  induction d as [| [k' v'] d IH]; simpl; [contradiction |].
  intros Hnd [E | Hin].
  - inversion E; subst. rewrite Z.eqb_refl. reflexivity.
  - inversion Hnd as [| ? ? Hk Hnd']; subst.
    destruct (Z.eqb_spec k' k) as [-> | _]; [| apply IH; assumption].
    exfalso. apply Hk. apply (in_map fst) in Hin. exact Hin.
Qed.

Lemma dict_get_some_in (d : Dict.t V) (k : Z) (v : V) :
  Dict.get d k = Some v -> In (k, v) d.
Proof.
  induction d as [| [k' v'] d IH]; simpl; [discriminate |].
  destruct (Z.eqb_spec k' k) as [-> | _].
  - intros E. inversion E. left. reflexivity.
  - intros E. right. apply IH. exact E.
Qed.

Lemma dict_get_map {W} (h : Z -> V -> W) (d : Dict.t V) (k : Z) :
  Dict.get (map (fun kv => (fst kv, h (fst kv) (snd kv))) d) k
  = option_map (h k) (Dict.get d k).
Proof.
  induction d as [| [k' v] d IH]; simpl; [reflexivity |].
  destruct (Z.eqb_spec k' k) as [-> | _]; [reflexivity | exact IH].
Qed.

End DictFacts.

Section Pagewise.

Import azure_ocr_utils.

Variable threshold_y : float.

(** The components [merged_pairs_by_page] holds for a page are those of the
    page's pairs, also for a page without pairs, which has no key. *)
Lemma pairs_by_page_ok (d : Dict.t (list PageObject)) :
  (forall kv, In kv d -> exists pairs,
      pairs_of_page threshold_y (snd kv) = Ok pairs) ->
  exists P,
    pairs_by_page threshold_y d = Ok P
    /\ incl (Dict.keys P) (Dict.keys d)
    /\ (NoDup (Dict.keys d) ->
        forall pn objs pairs,
          In (pn, objs) d ->
          pairs_of_page threshold_y objs = Ok pairs ->
          Dict.get_default (merged_pairs_by_page P) pn []
          = networkx.connected_components (graph_of pairs)).
Proof.
  induction d as [| [k o] d IH]; intros Hall; simpl.
  - exists []. split; [reflexivity |]. split; [apply incl_refl |].
    intros _ pn objs pairs [].
  - destruct (Hall (k, o) (or_introl eq_refl)) as [pk Hk]. simpl in Hk.
    rewrite Hk. simpl.
    destruct IH as [P' [HP' [Hincl Hget]]];
      [intros kv Hkv; apply Hall; right; exact Hkv |].
    rewrite HP'. simpl. eexists. split; [reflexivity |].
    assert (Hmiss : ~ In k (Dict.keys d) ->
              Dict.get_default (merged_pairs_by_page P') k [] = []).
    { intros Hk'. unfold Dict.get_default, merged_pairs_by_page.
      rewrite (dict_get_map (fun _ v =>
                 networkx.connected_components
                   (networkx.add_edges_from networkx.empty v))).
      rewrite dict_get_not_key; [reflexivity |].
      intros Hin. apply Hk'. apply Hincl. exact Hin. }
    split.
    + destruct pk; simpl; [apply incl_tl; exact Hincl |].
      intros x [<- | Hx]; [left; reflexivity | right; apply Hincl; exact Hx].
    + intros Hnd pn objs pairs Hin Hpairs.
      inversion Hnd as [| ? ? Hknew Hnd']; subst.
      destruct Hin as [E | Hin].
      * inversion E; subst. rewrite Hk in Hpairs. inversion Hpairs; subst.
        destruct pairs as [| p pairs]; [rewrite Hmiss by assumption;
                                        reflexivity |].
        unfold Dict.get_default. simpl. rewrite Z.eqb_refl. reflexivity.
      * assert (Hne : k <> pn).
        { intros ->. apply Hknew. apply (in_map fst) in Hin. exact Hin. }
        specialize (Hget Hnd' pn objs pairs Hin Hpairs).
        destruct pk; [exact Hget |].
        unfold Dict.get_default in *. simpl.
        destruct (Z.eqb_spec k pn); [contradiction | exact Hget].
Qed.

(** [get_rows_of_objects_by_page] gives every page the rows of that page,
    under the page's number and in the order of the pages. *)
Lemma get_rows_pagewise (d : Dict.t (list PageObject))
  (R : Dict.t (list (list PageObject))) :
  NoDup (Dict.keys d) ->
  Forall2 (fun kv kr =>
             fst kr = fst kv /\ rows_of_page threshold_y (snd kv) = Ok (snd kr))
          d R ->
  get_rows_of_objects_by_page d threshold_y = Ok R.
Proof.
  intros Hnd HF. unfold get_rows_of_objects_by_page.
  destruct (pairs_by_page_ok d) as [P [HP [_ Hget]]].
  { intros kv Hkv. destruct (Forall2_In_l kv HF Hkv) as [kr [_ [_ Hr]]].
    unfold rows_of_page in Hr.
    destruct (pairs_of_page threshold_y (snd kv)); [eauto | discriminate]. }
  rewrite HP. simpl. specialize (Hget Hnd).
  set (merged := merged_pairs_by_page P) in *.
  set (G := fun kv : Z * list PageObject =>
              rows <- map_m (objects_in_row (snd kv))
                        (Dict.get_default merged (fst kv) []) ;;
              Ok (fst kv, rows)).
  set (SX := fun kv : Z * list (list PageObject) =>
               sorted_rows <- map_m (sorted_by PrimFloat.ltb key_x) (snd kv) ;;
               Ok (fst kv, sorted_rows)).
  set (SY := fun kv : Z * list (list PageObject) =>
               sorted_rows <- sorted_by PrimFloat.ltb key_y (snd kv) ;;
               Ok (fst kv, sorted_rows)).
  assert (Hchain :
    Forall2 (fun kv kr =>
               exists y, G kv = Ok y
                         /\ exists z, SX y = Ok z /\ SY z = Ok kr) d R).
  { eapply Forall2_impl; [| apply Forall2_with_In, HF].
    intros [k o] [k' r] [Hin [Hk Hr]]. simpl in *. subst k'.
    unfold rows_of_page in Hr.
    destruct (pairs_of_page threshold_y o) as [pairs |] eqn:Ep; simpl in Hr;
      [| discriminate].
    fold (graph_of pairs) in Hr.
    destruct (map_m (objects_in_row o)
                (networkx.connected_components (graph_of pairs)))
      as [rows0 |] eqn:E0; simpl in Hr; [| discriminate].
    unfold sort_page in Hr.
    destruct (map_m (sorted_by PrimFloat.ltb key_x) rows0) as [rows1 |] eqn:E1;
      simpl in Hr; [| discriminate].
    exists (k, rows0). split.
    - unfold G. simpl. rewrite (Hget k o pairs Hin Ep), E0. reflexivity.
    - exists (k, rows1). unfold SX, SY. simpl. rewrite E1. simpl.
      rewrite Hr. split; reflexivity. }
  apply Forall2_through in Hchain. destruct Hchain as [R0 [H0 Hrest]].
  apply Forall2_through in Hrest. destruct Hrest as [R1 [H1 H2]].
  apply map_m_ok in H0. apply map_m_ok in H1. apply map_m_ok in H2.
  unfold rows_of_objects_by_page. fold G. rewrite H0. simpl.
  unfold _get_sorted_rows_of_objects_per_page. fold SX. rewrite H1. simpl.
  fold SY. exact H2.
Qed.

End Pagewise.

(** * Row clustering (C2) *)

Section Clustering.

Import azure_ocr_utils.

Variable threshold_y : float.

Lemma pages_total (d : Dict.t (list PageObject)) :
  (forall kv, In kv d -> exists r, rows_of_page threshold_y (snd kv) = Ok r) ->
  exists R,
    Forall2 (fun kv kr =>
               fst kr = fst kv
               /\ rows_of_page threshold_y (snd kv) = Ok (snd kr)) d R.
Proof.
  induction d as [| kv d IH]; intros H.
  - exists []. constructor.
  - destruct (H kv (or_introl eq_refl)) as [r Hr].
    destruct IH as [R HR]; [intros x Hx; apply H; right; exact Hx |].
    exists ((fst kv, r) :: R). constructor; [split; [reflexivity | exact Hr] |].
    exact HR.
Qed.

Lemma pagewise_keys (d : Dict.t (list PageObject))
  (R : Dict.t (list (list PageObject))) :
  Forall2 (fun kv kr =>
             fst kr = fst kv
             /\ rows_of_page threshold_y (snd kv) = Ok (snd kr)) d R ->
  Dict.keys R = Dict.keys d.
Proof.
  induction 1 as [| kv kr d R [Hk _] _ IH]; simpl; [reflexivity |].
  rewrite Hk, IH. reflexivity.
Qed.

Lemma pagewise_get (d : Dict.t (list PageObject))
  (R : Dict.t (list (list PageObject))) (pn : Z) (objs : list PageObject) :
  Forall2 (fun kv kr =>
             fst kr = fst kv
             /\ rows_of_page threshold_y (snd kv) = Ok (snd kr)) d R ->
  NoDup (Dict.keys d) ->
  In (pn, objs) d ->
  exists rows,
    Dict.get R pn = Some rows /\ rows_of_page threshold_y objs = Ok rows.
Proof.
  intros HF Hnd Hin.
  destruct (Forall2_In_l (pn, objs) HF Hin) as [[k rows] [HinR [Hk Hr]]].
  simpl in *. subst k. exists rows. split; [| exact Hr].
  apply dict_get_in; [| exact HinR].
  rewrite (pagewise_keys HF). exact Hnd.
Qed.

End Clustering.


(** The specification's example: A at 0.0, B at 0.04 and C at 0.08 with the
    threshold 0.05 make one row of three, read from the left; A and C alone
    are not neighbours. *)
Lemma three_lines_one_row :
  azure_ocr_utils.get_rows_of_objects_by_page [(1%Z, Fixtures.three_lines)] 0.05
  = Ok [(1%Z, [[Fixtures.line_at "C" 1 0.08 4; Fixtures.line_at "B" 2 0.04 2;
                Fixtures.line_at "A" 3 0.0 0]])]
  /\ azure_ocr_utils.close_on_y_axis 0.05
       (Fixtures.point 3 0.0) (Fixtures.point 2 0.04) = true
  /\ azure_ocr_utils.close_on_y_axis 0.05
       (Fixtures.point 2 0.04) (Fixtures.point 1 0.08) = true
  /\ azure_ocr_utils.close_on_y_axis 0.05
       (Fixtures.point 3 0.0) (Fixtures.point 1 0.08) = false.
Proof. repeat split. Qed.

Section Proximity.

Import azure_ocr_utils.

Lemma four_cornered_four_points (obj : PageObject) :
  four_cornered obj -> four_points obj.
Proof.
  intros [a [b [c [d H]]]]. exists a, b, c, d.
  destruct obj as [l | p | t]; simpl in *.
  - rewrite H. reflexivity.
  - destruct (DocumentParagraph.bounding_regions p) as [[| r rs] |];
      try discriminate.
    change (first_of (Some (r :: rs))) with (Ok r). simpl. rewrite H.
    reflexivity.
  - destruct (DocumentTable.bounding_regions t) as [[| r rs] |];
      try discriminate.
    change (first_of (Some (r :: rs))) with (Ok r). simpl. rewrite H.
    reflexivity.
Qed.


Variable threshold_y : float.
Variable objects : list PageObject.
Hypothesis polygons : Forall four_cornered objects.




End Proximity.




(** * Table exclusion (C3) *)

Section TableExclusion.

Import azure_ocr_utils.

Lemma span0_hd (spans : list DocumentSpan.t) :
  has_span spans -> exists s, span0 spans = Ok s /\ hd_error spans = Some s.
Proof.
  destruct spans as [| s spans]; [intros H; contradiction H; reflexivity |].
  intros _. exists s. split; reflexivity.
Qed.

Lemma check_if_in_table_spec (tables : list DocumentTable.t)
  (obj : PageObject) :
  Forall (fun t => has_span (DocumentTable.spans t)) tables ->
  has_span (obj_spans obj) ->
  check_if_in_table tables obj = Ok (in_a_table tables obj).
Proof.
  intros Ht Ho. induction Ht as [| t tables Hs _ IH]; simpl; [reflexivity |].
  destruct (span0_hd Hs) as [ts [E1 E2]].
  destruct (span0_hd Ho) as [os [E3 E4]].
  rewrite E1. simpl. rewrite E3. simpl.
  unfold inside_table at 1. rewrite E2, E4.
  destruct (_ && _)%bool; [reflexivity | exact IH].
Qed.

(** The objects of a page that stay are those not in a table, in their
    order. *)
Lemma objects_without_tables_spec (tables : list DocumentTable.t)
  (objects : list PageObject) :
  Forall (fun t => has_span (DocumentTable.spans t)) tables ->
  Forall (fun o => has_span (obj_spans o)) objects ->
  objects_without_tables tables objects
  = Ok (filter (fun o => negb (in_a_table tables o)) objects).
Proof.
  intros Ht Ho. induction Ho as [| o objects Hs _ IH]; simpl; [reflexivity |].
  rewrite (@check_if_in_table_spec tables o Ht Hs). simpl. rewrite IH. simpl.
  destruct (in_a_table tables o); reflexivity.
Qed.

Variable tables_by_page : Dict.t (list DocumentTable.t).

Hypothesis table_spans :
  forall pn tables, In (pn, tables) tables_by_page ->
    Forall (fun t => has_span (DocumentTable.spans t)) tables.

Lemma tables_on_page_spans (pn : Z) :
  Forall (fun t => has_span (DocumentTable.spans t))
    (Dict.get_default tables_by_page pn []).
Proof.
  unfold Dict.get_default.
  destruct (Dict.get tables_by_page pn) as [ts |] eqn:E; [| constructor].
  apply dict_get_some_in in E. eapply table_spans. exact E.
Qed.

(** [remove_objects_contained_within_tables] returns, and keeps on every
    page the objects that are in no table of that page; a page that keeps
    nothing has no key. *)
Lemma remove_objects_spec (objects_by_page : Dict.t (list PageObject)) :
  (forall pn objs, In (pn, objs) objects_by_page ->
     Forall (fun o => has_span (obj_spans o)) objs) ->
  exists kept,
    remove_objects_contained_within_tables objects_by_page tables_by_page
    = Ok kept
    /\ incl (Dict.keys kept) (Dict.keys objects_by_page)
    /\ (forall pn objs, In (pn, objs) kept ->
          exists all, In (pn, all) objects_by_page
                      /\ objs = kept_on tables_by_page pn all)
    /\ (NoDup (Dict.keys objects_by_page) ->
        NoDup (Dict.keys kept)
        /\ forall pn,
             Dict.get_default kept pn []
             = kept_on tables_by_page pn
                 (Dict.get_default objects_by_page pn [])).
Proof.
  induction objects_by_page as [| [k objs] d IH]; intros Hspans; simpl.
  - exists []. split; [reflexivity |]. split; [apply incl_refl |].
    split; [intros pn objs [] |]. intros _. split; [constructor |].
    reflexivity.
  - rewrite (@objects_without_tables_spec _ objs (tables_on_page_spans k)
               (Hspans k objs (or_introl eq_refl))).
    simpl. fold (kept_on tables_by_page k objs).
    destruct IH as [kept' [E [Hincl [Hfrom Hget]]]];
      [intros pn o Hin; apply (Hspans pn o); right; exact Hin |].
    rewrite E. simpl. eexists. split; [reflexivity |].
    split; [| split].
    + destruct (kept_on tables_by_page k objs); simpl;
        [apply incl_tl; exact Hincl |].
      intros x [<- | Hx]; [left; reflexivity | right; apply Hincl; exact Hx].
    + intros pn o Hin.
      assert (Hcase : (pn = k /\ o = kept_on tables_by_page k objs)
                      \/ In (pn, o) kept').
      { destruct (kept_on tables_by_page k objs) eqn:Ek; [right; exact Hin |].
        destruct Hin as [Heq | Hin]; [left; inversion Heq; tauto | tauto]. }
      destruct Hcase as [[-> ->] | Hin'].
      * exists objs. split; [left |]; reflexivity.
      * destruct (Hfrom pn o Hin') as [all [Hall Ho]]. exists all.
        split; [right |]; assumption.
    + intros Hnd. inversion Hnd as [| ? ? Hk Hnd']; subst.
      destruct (Hget Hnd') as [Hnd'' Hlook].
      assert (Hmiss : Dict.get kept' k = None).
      { apply dict_get_not_key. intros Hin. apply Hk, Hincl, Hin. }
      split.
      * destruct (kept_on tables_by_page k objs); simpl; [exact Hnd'' |].
        constructor; [| exact Hnd'']. intros Hin. apply Hk, Hincl, Hin.
      * intros pn. unfold Dict.get_default at 2. simpl.
        destruct (Z.eqb_spec k pn) as [-> | Hne].
        -- destruct (kept_on tables_by_page pn objs) eqn:Ek.
           ++ unfold Dict.get_default. rewrite Hmiss. reflexivity.
           ++ unfold Dict.get_default. simpl. rewrite Z.eqb_refl.
              reflexivity.
        -- specialize (Hlook pn). unfold Dict.get_default in Hlook at 2.
           rewrite <- Hlook.
           destruct (kept_on tables_by_page k objs); [reflexivity |].
           unfold Dict.get_default. simpl.
           destruct (Z.eqb_spec k pn); [contradiction | reflexivity].
Qed.

End TableExclusion.

Section KeysOfGroupedPages.

Variable V : Type.

Lemma dict_get_none (d : Dict.t V) (k : Z) :
  Dict.get d k = None -> ~ In k (Dict.keys d).
Proof.
  induction d as [| [k' v] d IH]; simpl; [tauto |].
  destruct (Z.eqb_spec k' k); [discriminate |].
  intros H [E | Hin]; [contradiction | apply IH; assumption].
Qed.

Lemma dict_set_keys (d : Dict.t V) (k : Z) (v : V) :
  Dict.keys (Dict.set d k v)
  = if existsb (Z.eqb k) (Dict.keys d) then Dict.keys d
    else Dict.keys d ++ [k].
Proof.
  induction d as [| [k' v'] d IH]; simpl; [reflexivity |].
  rewrite (Z.eqb_sym k k').
  destruct (Z.eqb_spec k' k); simpl; [reflexivity |].
  rewrite IH. destruct (existsb (Z.eqb k) (Dict.keys d)); reflexivity.
Qed.

Lemma dict_set_nodup (d : Dict.t V) (k : Z) (v : V) :
  NoDup (Dict.keys d) -> NoDup (Dict.keys (Dict.set d k v)).
Proof.
  intros H. rewrite dict_set_keys.
  destruct (existsb (Z.eqb k) (Dict.keys d)) eqn:E; [exact H |].
  apply NoDup_app; [exact H | repeat constructor; intros [] |].
  intros x Hx [<- | []].
  assert (existsb (Z.eqb k) (Dict.keys d) = true); [| congruence].
  apply existsb_exists. exists k. split; [exact Hx | apply Z.eqb_refl].
Qed.

Lemma fold_set_nodup {X} (step : Dict.t V -> X -> Dict.t V) (xs : list X) :
  (forall d x, NoDup (Dict.keys d) -> NoDup (Dict.keys (step d x))) ->
  forall d, NoDup (Dict.keys d) -> NoDup (Dict.keys (fold_left step xs d)).
Proof.
  intros Hstep. induction xs as [| x xs IH]; intros d Hd; simpl;
    [exact Hd | apply IH, Hstep, Hd].
Qed.

End KeysOfGroupedPages.

Lemma get_lines_per_page_nodup (result : AnalyzeResult.t) :
  NoDup (Dict.keys (azure_ocr_utils.get_lines_per_page result)).
Proof.
  unfold azure_ocr_utils.get_lines_per_page.
  apply fold_set_nodup; [| constructor].
  intros d page Hd. apply dict_set_nodup. exact Hd.
Qed.

Lemma get_paragraphs_per_page_nodup (result : AnalyzeResult.t) :
  NoDup (Dict.keys (azure_ocr_utils.get_paragraphs_per_page result)).
Proof.
  unfold azure_ocr_utils.get_paragraphs_per_page.
  apply fold_set_nodup; [| constructor].
  intros d paragraph Hd. unfold azure_ocr_utils.dict_append.
  apply dict_set_nodup. exact Hd.
Qed.

Section RowsMembers.

Import azure_ocr_utils.

Variable threshold_y : float.

(** The rows of every page hold the objects of the page, all of them and
    nothing else. *)
Lemma rows_members (d : Dict.t (list PageObject)) :
  NoDup (Dict.keys d) ->
  (forall pn objs, In (pn, objs) d -> Forall four_points objs) ->
  exists R,
    get_rows_of_objects_by_page d threshold_y = Ok R
    /\ forall pn obj,
         (exists row, In row (Dict.get_default R pn []) /\ In obj row)
         <-> In obj (Dict.get_default d pn []).
Proof.
  intros Hnd Hpoly.
  destruct (@pages_total threshold_y d) as [R HF].
  { intros [pn objs] Hin. simpl.
    destruct (rows_of_page_spec threshold_y (Hpoly pn objs Hin))
      as [idx [E _]].
    eauto. }
  exists R. split; [apply get_rows_pagewise; assumption |].
  intros pn obj. unfold Dict.get_default.
  destruct (Dict.get d pn) as [objs |] eqn:Ed.
  - apply dict_get_some_in in Ed.
    destruct (@pagewise_get threshold_y d R pn objs HF Hnd Ed)
      as [rows [Hget Hrows]].
    destruct (rows_of_page_spec threshold_y (Hpoly pn objs Ed))
      as [idx [E [Hb [Hcov _]]]].
    rewrite Hget. rewrite E in Hrows. inversion Hrows; subst rows. split.
    + intros [row [Hrow Hin]]. apply in_map_iff in Hrow.
      destruct Hrow as [r [<- Hr]]. apply in_map_iff in Hin.
      destruct Hin as [i [<- Hi]]. apply nth_In. eapply Hb; eassumption.
    + intros Hin. destruct (In_nth _ _ no_object Hin) as [i [Hi Hnth]].
      destruct (Hcov i Hi) as [r [Hr Hir]].
      exists (map (object_at objs) r). split.
      * apply in_map. exact Hr.
      * apply in_map_iff. exists i. split; [exact Hnth | exact Hir].
  - apply dict_get_none in Ed.
    rewrite <- (@pagewise_keys threshold_y d R HF) in Ed.
    rewrite (dict_get_not_key _ _ Ed). split; [intros [row [[] _]] | intros []].
Qed.

End RowsMembers.

(** With the tables and the text objects as the code groups them by page:
    the objects kept on a page are those in no table grouped under it, and
    the rows hold exactly the kept objects. *)
Lemma kept_objects_make_the_rows :
  forall (Client Secret : Type)
         (self : AzureOCRDocumentConverter.t Client Secret)
         (result : AnalyzeResult.t) (object_type : str) (threshold_y : float),
    AzureOCRDocumentConverter.extract_tables_separately self = true ->
    let tables_by_page := azure_ocr_utils.get_tables_per_page result in
    let objects_by_page :=
      if Py.eqb_str object_type (Py.lit "line")
      then azure_ocr_utils.get_lines_per_page result
      else azure_ocr_utils.get_paragraphs_per_page result in
    (forall pn tables, In (pn, tables) tables_by_page ->
       Forall (fun t => has_span (DocumentTable.spans t)) tables) ->
    (forall pn objs, In (pn, objs) objects_by_page ->
       Forall (fun o => has_span (obj_spans o)) objs
       /\ Forall four_points objs) ->
    exists kept rows_by_page,
      azure_ocr_utils.remove_objects_contained_within_tables objects_by_page
        tables_by_page = Ok kept
      /\ (forall pn,
            Dict.get_default kept pn []
            = filter (fun o =>
                        negb (in_a_table (Dict.get_default tables_by_page pn []) o))
                (Dict.get_default objects_by_page pn []))
      /\ AzureOCRDocumentConverter.single_column_rows self result object_type
           threshold_y = Ok rows_by_page
      /\ forall pn obj,
           (exists row,
              In row (Dict.get_default rows_by_page pn []) /\ In obj row)
           <-> In obj (Dict.get_default objects_by_page pn [])
               /\ in_a_table (Dict.get_default tables_by_page pn []) obj = false.
Proof.
  intros Client Secret self result object_type threshold_y Hsep
    tables_by_page objects_by_page Htables Hobjects.
  assert (Hnd : NoDup (Dict.keys objects_by_page)).
  { unfold objects_by_page. destruct (Py.eqb_str object_type (Py.lit "line"));
      [apply get_lines_per_page_nodup | apply get_paragraphs_per_page_nodup]. }
  destruct (@remove_objects_spec tables_by_page Htables objects_by_page)
    as [kept [Ek [_ [Hfrom Hget]]]].
  { intros pn objs Hin. apply (Hobjects pn objs Hin). }
  destruct (Hget Hnd) as [Hnd' Hlook].
  destruct (@rows_members threshold_y kept Hnd') as [R [ER Hmem]].
  { intros pn objs Hin. destruct (Hfrom pn objs Hin) as [all [Hall ->]].
    destruct (Hobjects pn all Hall) as [_ Hp].
    apply Forall_forall. intros o Ho. apply filter_In in Ho.
    eapply Forall_forall; [exact Hp | tauto]. }
  exists kept, R. split; [exact Ek |]. split; [exact Hlook |]. split.
  - unfold AzureOCRDocumentConverter.single_column_rows,
      AzureOCRDocumentConverter.without_tables.
    rewrite Hsep. fold tables_by_page. fold objects_by_page.
    rewrite Ek. simpl. exact ER.
  - intros pn obj. rewrite Hmem, Hlook. unfold kept_on.
    rewrite filter_In, negb_true_iff. tauto.
Qed.

(** On that page the line inside the table is left out of the text. *)
Lemma table_line_left_out :
  forall (rt : Runtime) (to_csv : list (list str) -> str),
    exists doc,
      AzureOCRDocumentConverter._extract_text_doc_with_single_column_ordering
        to_csv Fixtures.separate_tables Fixtures.page_with_table
        (Py.lit "line") [] 0.05 = Ok doc
      /\ Document.content doc
         = Some (Py.lit "Title" ++ [LF] ++ Py.lit "After" ++ [LF]).
Proof. intros. eexists. split; reflexivity. Qed.

(** * The shared meta dictionary (C10) *)

Section Store.

Lemma heap_modify_length (h : Heap) (l : loc) (f : Meta -> Meta) :
  List.length (heap_modify h l f) = List.length h.
Proof.
  revert l. induction h as [| m h IH]; intros [| l]; simpl;
    try reflexivity.
  rewrite IH. reflexivity.
Qed.

Lemma heap_get_modify_same (h : Heap) (l : loc) (f : Meta -> Meta) :
  l < List.length h -> heap_get (heap_modify h l f) l = f (heap_get h l).
Proof.
  unfold heap_get. revert l. induction h as [| m h IH]; intros [| l] H;
    simpl in *; try lia; [reflexivity |].
  apply IH. lia.
Qed.

Lemma heap_get_modify_other (h : Heap) (l l' : loc) (f : Meta -> Meta) :
  l <> l' -> heap_get (heap_modify h l f) l' = heap_get h l'.
Proof.
  unfold heap_get. revert l l'.
  induction h as [| m h IH]; intros [| l] [| l'] H; simpl; try reflexivity;
    try contradiction.
  apply IH. congruence.
Qed.

Lemma meta_get_set_same (m : Meta) (k : str) (v : PyVal) :
  meta_get (meta_set m k v) k = Some v.
Proof.
  induction m as [| [k' v'] m IH]; simpl.
  - rewrite (proj2 (eqb_str_eq k k) eq_refl). reflexivity.
  - destruct (Py.eqb_str k' k) eqn:E; simpl; rewrite E; [reflexivity | exact IH].
Qed.

End Store.

Section SharedMeta.

Import RecursiveChunker.

Variable re_split : str -> str -> result (list (option str)).
Variable self : t.
Context {rt : Runtime}.
Variable depth : nat.

Lemma last_writer_spec (l : loc) (documents : list DocRef) (w : DocRef) :
  last_writer re_split self depth l documents = Some w ->
  In w documents /\ writes_at re_split self depth l w = true.
Proof.
  induction documents as [| doc rest IH]; simpl; [discriminate |].
  destruct (last_writer re_split self depth l rest) as [w' |].
  - intros E. inversion E; subst. destruct (IH eq_refl). tauto.
  - destruct (writes_at re_split self depth l doc) eqn:Ew; [| discriminate].
    intros E. inversion E; subst. tauto.
Qed.

Lemma last_writer_exists (l : loc) (documents : list DocRef) (doc : DocRef) :
  In doc documents -> writes_at re_split self depth l doc = true ->
  exists w, last_writer re_split self depth l documents = Some w.
Proof.
  induction documents as [| d rest IH]; simpl; [contradiction |].
  intros [-> | Hin] Hw.
  - destruct (last_writer re_split self depth l rest); [eauto |].
    rewrite Hw. eauto.
  - destruct (IH Hin Hw) as [w E]. rewrite E. eauto.
Qed.

End SharedMeta.

Section EmitChunks.

Import RecursiveChunker.

Context {rt : Runtime}.

(** What the chunks of one document do to the store: nothing when there is
    no chunk; otherwise the document's dictionary gets [original_id], the
    other dictionaries stay, and every new document holds the parent's
    dictionary. *)
Lemma emit_chunks (doc : DocRef) (chunks : list str) :
  forall new_docs h,
    let st := fold_left (emit_chunk doc) chunks (new_docs, h) in
    List.length (snd st) = List.length h
    /\ (forall l, l <> Document.meta doc -> heap_get (snd st) l = heap_get h l)
    /\ (chunks = [] -> snd st = h)
    /\ (chunks <> [] -> Document.meta doc < List.length h ->
        meta_get (heap_get (snd st) (Document.meta doc)) original_id
        = Some (VStr (Document.id doc)))
    /\ (forall nd, In nd (fst st) ->
          In nd new_docs \/ Document.meta nd = Document.meta doc).
Proof.
  induction chunks as [| chunk chunks IH]; intros new_docs h; simpl.
  - repeat split; try tauto; try (intros H; contradiction H; reflexivity).
  - set (st1 := emit_chunk doc (new_docs, h) chunk).
    assert (Hmeta : forall c hh,
      Document.meta
        (Document.__post_init__
           (Document.mk [] (Some c) None (Document.meta doc) None None None) hh)
      = Document.meta doc) by reflexivity.
    assert (E1 : snd st1
                 = heap_modify h (Document.meta doc)
                     (fun m => meta_set m original_id (VStr (Document.id doc)))).
    { reflexivity. }
    destruct (IH (fst st1) (snd st1)) as [Hlen [Hother [_ [Hset Hdocs]]]].
    replace (fst st1, snd st1) with st1 in * by (destruct st1; reflexivity).
    split; [| split; [| split; [| split]]].
    + rewrite Hlen, E1. apply heap_modify_length.
    + intros l Hl. rewrite (Hother l Hl), E1.
      apply heap_get_modify_other. congruence.
    + discriminate.
    + intros _ Hloc. destruct chunks as [| c2 chunks].
      * cbn [fold_left]. rewrite E1, heap_get_modify_same by exact Hloc.
        apply meta_get_set_same.
      * apply Hset; [discriminate |]. rewrite E1, heap_modify_length.
        exact Hloc.
    + intros nd Hnd. destruct (Hdocs nd Hnd) as [H1 | H1]; [| tauto].
      unfold st1, emit_chunk in H1. simpl in H1. apply in_app_or in H1.
      destruct H1 as [H1 | [<- | []]]; [tauto |]. right. apply Hmeta.
Qed.

End EmitChunks.

Section RunOnStore.

Import RecursiveChunker.

Variable re_split : str -> str -> result (list (option str)).
Variable self : t.
Context {rt : Runtime}.
Variable depth : nat.

(** What [run] leaves in the store: a dictionary no document wrote into is
    as before, and any other holds, under [original_id], the id of the last
    document that wrote into it; every new document holds the dictionary
    of an input document. *)
Lemma run_store (documents : list DocRef) :
  forall h new_docs h',
    run re_split self depth h documents = (Ok new_docs, h') ->
    List.length h' = List.length h
    /\ (forall nd, In nd new_docs ->
          exists parent,
            In parent documents /\ Document.meta nd = Document.meta parent)
    /\ forall l, l < List.length h ->
         match last_writer re_split self depth l documents with
         | None => heap_get h' l = heap_get h l
         | Some w =>
             meta_get (heap_get h' l) original_id
             = Some (VStr (Document.id w))
         end.
Proof.
  induction documents as [| doc rest IH]; intros h new_docs h' Hrun;
    simpl in Hrun.
  - inversion Hrun; subst. split; [reflexivity |].
    split; [intros nd [] | intros l _; reflexivity].
  - destruct (is_empty doc) eqn:Eempty.
    + destruct (IH h new_docs h' Hrun) as [Hlen [Hdocs Hheap]].
      split; [exact Hlen |]. split.
      * intros nd Hnd. destruct (Hdocs nd Hnd) as [p [Hp Hm]].
        exists p. split; [right |]; assumption.
      * intros l Hl. specialize (Hheap l Hl). simpl.
        destruct (last_writer re_split self depth l rest); [exact Hheap |].
        unfold writes_at. rewrite Eempty, andb_false_r. exact Hheap.
    + unfold _run_one in Hrun.
      destruct (_chunk_text re_split self depth (text_of doc))
        as [chunks |] eqn:Echunks; [| discriminate].
      destruct (emit_chunks doc chunks [] h)
        as [Hlen1 [Hother [Hnil [Hset Hdocs1]]]].
      set (st := fold_left (emit_chunk doc) chunks ([], h)) in *.
      simpl in Hrun.
      destruct (run re_split self depth (snd st) rest) as [[more |] h2] eqn:Er;
        [| discriminate].
      inversion Hrun; subst new_docs h'. clear Hrun.
      destruct (IH (snd st) more h2 Er) as [Hlen [Hdocs Hheap]].
      split; [congruence |]. split.
      * intros nd Hnd. apply in_app_or in Hnd. destruct Hnd as [Hnd | Hnd].
        -- destruct (Hdocs1 nd Hnd) as [[] | Hm].
           exists doc. split; [left; reflexivity | exact Hm].
        -- destruct (Hdocs nd Hnd) as [p [Hp Hm]].
           exists p. split; [right |]; assumption.
      * intros l Hl. specialize (Hheap l ltac:(lia)). simpl.
        destruct (last_writer re_split self depth l rest); [exact Hheap |].
        unfold writes_at, produces_chunk. rewrite Eempty, Echunks. simpl.
        rewrite andb_true_r.
        destruct (Nat.eqb_spec (Document.meta doc) l) as [El | El]; simpl.
        -- destruct chunks as [| c cs].
           ++ rewrite Hheap, Hnil; reflexivity.
           ++ rewrite Hheap, <- El. apply Hset; [discriminate | lia].
        -- rewrite Hheap. apply Hother. congruence.
Qed.

Lemma meta_set_set (m : Meta) (k : str) (v v' : PyVal) :
  meta_set (meta_set m k v) k v' = meta_set m k v'.
Proof.
  induction m as [| [k0 v0] m IH]; simpl.
  - rewrite (proj2 (eqb_str_eq k k) eq_refl). reflexivity.
  - destruct (Py.eqb_str k0 k) eqn:E; simpl; rewrite E; [reflexivity |].
    rewrite IH. reflexivity.
Qed.

Lemma heap_modify_set_set (h : Heap) (l : loc) (k : str) (v v' : PyVal) :
  heap_modify (heap_modify h l (fun m => meta_set m k v)) l
    (fun m => meta_set m k v')
  = heap_modify h l (fun m => meta_set m k v').
Proof.
  revert l. induction h as [| m h IH]; intros [| l]; simpl;
    try reflexivity.
  - rewrite meta_set_set. reflexivity.
  - rewrite IH. reflexivity.
Qed.

(** The chunks of one document, exactly: the store after the first chunk
    is the store after all of them, and each new document has its chunk for
    content and the parent's dictionary. *)
Lemma emit_chunks_exact (doc : DocRef) (chunks : list str) :
  forall new_docs h,
    snd (fold_left (emit_chunk doc) chunks (new_docs, h))
    = match chunks with
      | [] => h
      | _ :: _ =>
          heap_modify h (Document.meta doc)
            (fun m => meta_set m original_id (VStr (Document.id doc)))
      end
    /\ map (fun nd => (Document.content nd, Document.meta nd))
         (fst (fold_left (emit_chunk doc) chunks (new_docs, h)))
       = map (fun nd => (Document.content nd, Document.meta nd)) new_docs
         ++ map (fun chunk => (Some chunk, Document.meta doc)) chunks.
Proof.
  induction chunks as [| chunk chunks IH]; intros new_docs h.
  - simpl. rewrite app_nil_r. split; reflexivity.
  - cbn [fold_left].
    change (emit_chunk doc (new_docs, h) chunk)
      with (new_docs
            ++ [Document.__post_init__
                  (Document.mk [] (Some chunk) None (Document.meta doc) None
                     None None)
                  (heap_get h (Document.meta doc))],
            heap_modify h (Document.meta doc)
              (fun m => meta_set m original_id (VStr (Document.id doc)))).
    destruct (IH (new_docs
                  ++ [Document.__post_init__
                        (Document.mk [] (Some chunk) None (Document.meta doc)
                           None None None)
                        (heap_get h (Document.meta doc))])
                (heap_modify h (Document.meta doc)
                   (fun m => meta_set m original_id (VStr (Document.id doc)))))
      as [Hs Hd].
    split.
    + rewrite Hs. destruct chunks; [reflexivity |].
      apply heap_modify_set_set.
    + rewrite Hd, map_app, <- app_assoc. reflexivity.
Qed.

Lemma heap_get_modify (h : Heap) (l l' : loc) (f : Meta -> Meta) :
  l' < List.length h ->
  heap_get (heap_modify h l f) l'
  = if l =? l' then f (heap_get h l') else heap_get h l'.
Proof.
  intros Hl. destruct (Nat.eqb_spec l l') as [-> | Hne].
  - apply heap_get_modify_same. exact Hl.
  - apply heap_get_modify_other. exact Hne.
Qed.

(** What [run] returns and leaves, exactly. *)
Lemma run_exact (documents : list DocRef) :
  forall h new_docs h',
    run re_split self depth h documents = (Ok new_docs, h') ->
    List.length h' = List.length h
    /\ map (fun nd => (Document.content nd, Document.meta nd)) new_docs
       = flat_map (chunks_with_meta re_split self depth) documents
    /\ forall l, l < List.length h ->
         heap_get h' l
         = match last_writer re_split self depth l documents with
           | None => heap_get h l
           | Some w =>
               meta_set (heap_get h l) original_id (VStr (Document.id w))
           end.
Proof.
  induction documents as [| doc rest IH]; intros h new_docs h' Hrun;
    simpl in Hrun.
  - inversion Hrun; subst. repeat split.
  - cbn [flat_map last_writer]. unfold chunks_with_meta at 1.
    unfold writes_at, produces_chunk, chunks_of.
    destruct (is_empty doc) eqn:Eempty.
    + destruct (IH h new_docs h' Hrun) as [Hlen [Hdocs Hheap]].
      split; [exact Hlen |]. split; [exact Hdocs |].
      intros l Hl. rewrite (Hheap l Hl).
      destruct (last_writer re_split self depth l rest); [reflexivity |].
      rewrite andb_false_r. reflexivity.
    + unfold _run_one in Hrun.
      destruct (_chunk_text re_split self depth (text_of doc))
        as [chunks |] eqn:Echunks; [| discriminate].
      destruct (emit_chunks_exact doc chunks [] h) as [Hs Hd].
      cbn [fst snd] in Hrun.
      destruct (run re_split self depth
                  (snd (fold_left (emit_chunk doc) chunks ([], h))) rest)
        as [[more |] h2] eqn:Er; [| discriminate].
      inversion Hrun; subst new_docs h'. clear Hrun.
      destruct (IH _ more h2 Er) as [Hlen [Hdocs Hheap]].
      assert (Hlen1 : List.length
                        (snd (fold_left (emit_chunk doc) chunks ([], h)))
                      = List.length h).
      { rewrite Hs. destruct chunks; [reflexivity |].
        apply heap_modify_length. }
      split; [congruence |]. split.
      * rewrite map_app. f_equal; [exact Hd | exact Hdocs].
      * intros l Hl. rewrite (Hheap l ltac:(lia)), Hs.
        destruct chunks as [| c cs].
        -- rewrite andb_false_r.
           destruct (last_writer re_split self depth l rest); reflexivity.
        -- rewrite heap_get_modify by exact Hl.
           destruct (Document.meta doc =? l);
             destruct (last_writer re_split self depth l rest);
             try reflexivity.
           apply meta_set_set.
Qed.

(** The last writer is the writer that no writer follows. *)
Lemma last_writer_split (l : loc) (before after : list DocRef) (w : DocRef) :
  writes_at re_split self depth l w = true ->
  Forall (fun doc => writes_at re_split self depth l doc = false) after ->
  last_writer re_split self depth l (before ++ w :: after) = Some w.
Proof.
  intros Hw Hafter.
  assert (Hnone : last_writer re_split self depth l after = None).
  { induction Hafter as [| doc after Hdoc _ IH]; [reflexivity |].
    simpl. rewrite IH, Hdoc. reflexivity. }
  induction before as [| doc before IH]; simpl.
  - rewrite Hnone, Hw. reflexivity.
  - rewrite IH. reflexivity.
Qed.

Lemma last_writer_none (l : loc) (documents : list DocRef) :
  Forall (fun doc => writes_at re_split self depth l doc = false) documents ->
  last_writer re_split self depth l documents = None.
Proof.
  induction 1 as [| doc rest Hdoc _ IH]; [reflexivity |].
  simpl. rewrite IH, Hdoc. reflexivity.
Qed.

Lemma last_writer_found (l : loc) (documents : list DocRef) (w : DocRef) :
  last_writer re_split self depth l documents = Some w ->
  exists before after,
    documents = before ++ w :: after
    /\ writes_at re_split self depth l w = true
    /\ Forall (fun doc => writes_at re_split self depth l doc = false) after.
Proof.
  induction documents as [| doc rest IH]; simpl; [discriminate |].
  destruct (last_writer re_split self depth l rest) as [w' |] eqn:Er.
  - intros E. inversion E; subst w'.
    destruct (IH eq_refl) as [before [after [-> [Hw Hafter]]]].
    exists (doc :: before), after. repeat split; assumption.
  - destruct (writes_at re_split self depth l doc) eqn:Ew; [| discriminate].
    intros E. inversion E; subst w.
    exists [], rest. repeat split; [exact Ew |].
    clear - Er. induction rest as [| d rest IH]; [constructor |].
    simpl in Er.
    destruct (last_writer re_split self depth l rest); [discriminate |].
    destruct (writes_at re_split self depth l d) eqn:Ed; [discriminate |].
    constructor; [exact Ed | apply IH; reflexivity].
Qed.

End RunOnStore.

(** C10 fails on the code for a document whose content gives no chunk:
    three blanks with chunk size 2 and the separator "x" are longer than a
    chunk and leave no fragment that is not blank, so [run] returns no
    document and the parent's dictionary is as before, without
    [original_id]. *)
Lemma blank_document_keeps_meta :
  (forall rt : Runtime,
      @RecursiveChunker.run Fixtures.no_regex
        (RecursiveChunker.mk 2 0 [Py.lit "x"] true false None) rt 5 [[]]
        [Fixtures.doc_at "p1" "   " 0]
      = (Ok [], [[]]))
  /\ RecursiveChunker.is_empty (Fixtures.doc_at "p1" "   " 0) = false
  /\ meta_get (heap_get [[]] 0) RecursiveChunker.original_id = None.
Proof. repeat split. Qed.

(** C10, as the code has it. [run] writes into the dictionaries of its
    input. The new documents are the chunks of the input documents that are
    not skipped, in order, and each holds the dictionary of its own parent,
    not a copy. A dictionary that no document writes into is after the call
    as it was before. A dictionary that some document writes into (one
    that holds it, is not skipped and gets at least one chunk) is after the
    call as before but for the key [original_id], which holds the id of the
    last document of the input that writes into it. So the dictionary of
    a parent that gets a chunk has [original_id], set to the id of the last
    document writing there, which is the parent's own id when the
    documents that hold the dictionary share the id. *)
Theorem run_writes_original_id_into_parent_meta :
  forall (re_split : str -> str -> result (list (option str)))
         (self : RecursiveChunker.t) (rt : Runtime) (depth : nat) (h : Heap)
         (documents new_docs : list DocRef) (h' : Heap),
    RecursiveChunker.run re_split self depth h documents = (Ok new_docs, h') ->
    List.length h' = List.length h
    /\ map (fun nd => (Document.content nd, Document.meta nd)) new_docs
       = flat_map (chunks_with_meta re_split self depth) documents
    /\ (forall l,
          l < List.length h ->
          Forall (fun doc => writes_at re_split self depth l doc = false)
            documents ->
          heap_get h' l = heap_get h l)
    /\ (forall l before w after,
          l < List.length h ->
          documents = before ++ w :: after ->
          writes_at re_split self depth l w = true ->
          Forall (fun doc => writes_at re_split self depth l doc = false)
            after ->
          heap_get h' l
          = meta_set (heap_get h l) RecursiveChunker.original_id
              (VStr (Document.id w)))
    /\ forall parent,
         In parent documents ->
         Document.meta parent < List.length h ->
         RecursiveChunker.is_empty parent = false ->
         produces_chunk re_split self depth parent = true ->
         (exists before w after,
            documents = before ++ w :: after
            /\ Document.meta w = Document.meta parent
            /\ RecursiveChunker.is_empty w = false
            /\ produces_chunk re_split self depth w = true
            /\ Forall (fun doc =>
                         writes_at re_split self depth (Document.meta parent)
                           doc = false) after
            /\ meta_get (heap_get h' (Document.meta parent))
                 RecursiveChunker.original_id
               = Some (VStr (Document.id w)))
         /\ ((forall other, In other documents ->
                Document.meta other = Document.meta parent ->
                Document.id other = Document.id parent) ->
             meta_get (heap_get h' (Document.meta parent))
               RecursiveChunker.original_id
             = Some (VStr (Document.id parent))).
Proof.
  intros re_split self rt depth h documents new_docs h' Hrun.
  destruct (@run_exact re_split self rt depth documents h new_docs h' Hrun)
    as [Hlen [Hdocs Hheap]].
  split; [exact Hlen |]. split; [exact Hdocs |]. split; [| split].
  - intros l Hl Hnone. rewrite (Hheap l Hl).
    rewrite (@last_writer_none re_split self depth l documents Hnone).
    reflexivity.
  - intros l before w after Hl -> Hw Hafter. rewrite (Hheap l Hl).
    rewrite (@last_writer_split re_split self depth l before after w Hw
               Hafter).
    reflexivity.
  - intros parent Hin Hloc Hne Hprod.
    assert (Hw : writes_at re_split self depth (Document.meta parent) parent
                 = true).
    { unfold writes_at. rewrite Nat.eqb_refl, Hne, Hprod. reflexivity. }
    destruct (@last_writer_exists re_split self depth _ _ _ Hin Hw)
      as [w Ew].
    specialize (Hheap _ Hloc). rewrite Ew in Hheap.
    destruct (@last_writer_found re_split self depth _ _ _ Ew)
      as [before [after [Hsplit [Hww Hafter]]]].
    assert (Hparts : Document.meta w = Document.meta parent
                     /\ RecursiveChunker.is_empty w = false
                     /\ produces_chunk re_split self depth w = true).
    { unfold writes_at in Hww. apply andb_prop in Hww.
      destruct Hww as [Hww Hp]. apply andb_prop in Hww.
      destruct Hww as [Hm He]. apply Nat.eqb_eq in Hm.
      apply negb_true_iff in He. repeat split; assumption. }
    destruct Hparts as [Hwm [Hwe Hwp]].
    assert (Hget : meta_get (heap_get h' (Document.meta parent))
                     RecursiveChunker.original_id
                   = Some (VStr (Document.id w))).
    { rewrite Hheap. apply meta_get_set_same. }
    split.
    + exists before, w, after. repeat split; assumption.
    + intros Hsame. rewrite Hget, (Hsame w); [reflexivity | | exact Hwm].
      rewrite Hsplit. apply in_or_app. right. left. reflexivity.
Qed.

(** Two input documents that hold one dictionary: both end with the id of
    the second under [original_id], and the three new documents hold that
    dictionary too. *)
Lemma run_writes_original_id_into_parent_meta_witness :
  heap_get
    (snd (@RecursiveChunker.run Fixtures.no_regex
            (RecursiveChunker.mk 10 0 [Py.lit " "] true false None)
            Fixtures.plain_runtime 5 [[]]
            [Fixtures.doc_at "p1" "one two three four five" 0;
             Fixtures.doc_at "p2" "two" 0]))
    0
  = [(RecursiveChunker.original_id, VStr (Py.lit "p2"))].
Proof.
  pose (self := RecursiveChunker.mk 10 0 [Py.lit " "] true false None).
  pose (p1 := Fixtures.doc_at "p1" "one two three four five" 0).
  pose (p2 := Fixtures.doc_at "p2" "two" 0).
  pose (out := @RecursiveChunker.run Fixtures.no_regex self
                 Fixtures.plain_runtime 5 [[]] [p1; p2]).
  destruct (@run_writes_original_id_into_parent_meta Fixtures.no_regex self
              Fixtures.plain_runtime 5 [[]] [p1; p2]
              (match fst out with Ok l => l | Raise _ => [] end) (snd out)
              eq_refl) as [_ [_ [_ [Hlast _]]]].
  apply (Hlast 0 [p1] p2 []); [simpl; lia | reflexivity | reflexivity |].
  constructor.
Defined.

(** Sharing in the open: two input documents that hold one dictionary both
    end with the id of the second under [original_id]. *)
Lemma shared_meta_gets_last_id :
  meta_get
    (heap_get
       (snd (@RecursiveChunker.run Fixtures.no_regex
               (RecursiveChunker.mk 10 0 [Py.lit " "] true false None)
               Fixtures.plain_runtime 5 [[]]
               [Fixtures.doc_at "p1" "one" 0; Fixtures.doc_at "p2" "two" 0]))
       0)
    RecursiveChunker.original_id
  = Some (VStr (Py.lit "p2")).
Proof. reflexivity. Qed.

(** * The token truncater: what [run] returns *)

Section Truncation.

Import DocumentTokenTruncater.

Context {rt : Runtime}.
Variable self : t.

Lemma fold_add_from (l : list Z) (a : Z) :
  fold_left Z.add l a = (a + fold_left Z.add l 0)%Z.
Proof.
  revert a. induction l as [| x l IH]; intros a; simpl; [lia |].
  rewrite (IH (a + x)%Z), (IH x). lia.
Qed.

Lemma total_tokens_cons (doc : Doc) (documents : list Doc) :
  total_tokens self (doc :: documents)
  = ((if has_content doc then _get_token_len self (content_of doc) else 0)
     + total_tokens self documents)%Z.
Proof.
  unfold total_tokens. simpl. destruct (has_content doc); simpl; [| lia].
  rewrite fold_add_from. lia.
Qed.

Lemma token_len_nonneg (text : str) : (0 <= _get_token_len self text)%Z.
Proof. unfold _get_token_len, Py.len. lia. Qed.

Lemma total_tokens_nonneg (documents : list Doc) :
  (0 <= total_tokens self documents)%Z.
Proof.
  induction documents as [| doc documents IH]; [unfold total_tokens; simpl; lia |].
  rewrite total_tokens_cons. pose proof (token_len_nonneg (content_of doc)).
  destruct (has_content doc); lia.
Qed.

Lemma total_tokens_app (l1 l2 : list Doc) :
  total_tokens self (l1 ++ l2)
  = (total_tokens self l1 + total_tokens self l2)%Z.
Proof.
  induction l1 as [| doc l1 IH]; simpl.
  - change (total_tokens self []) with 0%Z. lia.
  - rewrite !total_tokens_cons, IH. lia.
Qed.

(** The loop of the equal strategy stops at the first document that holds
    more than its share: [_truncate_text] has no branch for the equal
    strategy. *)
Lemma truncate_equally_raises (tokens_per_doc : Z) (documents : list Doc) :
  strategy self = EQUAL ->
  (tokens_per_doc * Py.len (filter has_content documents)
   < total_tokens self documents)%Z ->
  truncate_equally self tokens_per_doc documents
  = Raise
      (ValueError
         "Invalid truncation strategy for single document: TruncationStrategy.EQUAL").
Proof.
  intros Hs. induction documents as [| doc documents IH]; intros Hlt.
  - unfold total_tokens, Py.len in Hlt. simpl in Hlt. lia.
  - rewrite total_tokens_cons in Hlt. simpl in *.
    destruct (has_content doc) eqn:Hc.
    + unfold _truncate_text.
      destruct (Z.leb_spec (_get_token_len self (content_of doc)) tokens_per_doc)
        as [Hle | Hgt].
      * simpl. rewrite IH; [reflexivity |].
        unfold Py.len in *. simpl in Hlt. lia.
      * rewrite Hs. reflexivity.
    + rewrite IH; [reflexivity | lia].
Qed.

Lemma truncate_in_order_fits (available_tokens : Z) (documents : list Doc) :
  forall current_tokens,
    (current_tokens + total_tokens self documents <= available_tokens)%Z ->
    truncate_in_order self available_tokens current_tokens documents
    = Ok documents.
Proof.
  induction documents as [| doc documents IH]; intros cur Hle; [reflexivity |].
  rewrite total_tokens_cons in Hle. simpl.
  pose proof (total_tokens_nonneg documents) as Hnn.
  destruct (has_content doc).
  - destruct (Z.leb_spec (cur + _get_token_len self (content_of doc))
                available_tokens) as [_ | Hgt]; [| lia].
    rewrite IH; [reflexivity | lia].
  - rewrite IH; [reflexivity | lia].
Qed.

(** What the loop of the beginning and end strategies returns: the
    documents up to a cut, then at most one truncated document. *)
Lemma truncate_in_order_shape (available_tokens : Z) (documents : list Doc) :
  forall current_tokens out,
    truncate_in_order self available_tokens current_tokens documents = Ok out ->
    (current_tokens <= available_tokens)%Z ->
    exists kept dropped,
      documents = kept ++ dropped
      /\ (current_tokens + total_tokens self kept <= available_tokens)%Z
      /\ (out = kept
          \/ exists d rest text,
               dropped = d :: rest
               /\ has_content d = true
               /\ (0 < available_tokens - current_tokens - total_tokens self kept
                   < _get_token_len self (content_of d))%Z
               /\ _truncate_text self (content_of d)
                    (available_tokens - current_tokens - total_tokens self kept)
                  = Ok text
               /\ out = kept ++ [truncated_doc d text]).
Proof.
  induction documents as [| doc documents IH]; intros cur out Hrun Hcur.
  - inversion Hrun; subst. exists [], []. change (total_tokens self []) with 0%Z.
    repeat split; [lia | left; reflexivity].
  - simpl in Hrun. destruct (has_content doc) eqn:Hc.
    + destruct (Z.leb_spec (cur + _get_token_len self (content_of doc))
                  available_tokens) as [Hle | Hgt].
      * destruct (truncate_in_order self available_tokens
                    (cur + _get_token_len self (content_of doc)) documents)
          as [more | e] eqn:Hmore; [| discriminate].
        inversion Hrun; subst out.
        destruct (IH _ _ Hmore Hle) as [kept [dropped [Hd [Hb Hout]]]].
        exists (doc :: kept), dropped. rewrite total_tokens_cons, Hc.
        split; [simpl; congruence |]. split; [lia |].
        destruct Hout as [-> | [d [rest [text [Hdr [Hcd [Hrem [Htr ->]]]]]]]];
          [left; reflexivity |].
        right. exists d, rest, text.
        replace (available_tokens - cur
                 - (_get_token_len self (content_of doc) + total_tokens self kept))%Z
          with (available_tokens - (cur + _get_token_len self (content_of doc))
                - total_tokens self kept)%Z by lia.
        repeat split; try assumption; lia.
      * exists [], (doc :: documents). change (total_tokens self []) with 0%Z.
        split; [reflexivity |]. split; [lia |].
        destruct (Z.leb_spec (available_tokens - cur) 0) as [Hz | Hpos].
        -- inversion Hrun. left. reflexivity.
        -- destruct (_truncate_text self (content_of doc) (available_tokens - cur))
             as [text | e] eqn:Htr; [| discriminate].
           inversion Hrun; subst out. right. exists doc, documents, text.
           rewrite Z.sub_0_r. repeat split; try assumption; lia.
    + destruct (truncate_in_order self available_tokens cur documents)
        as [more | e] eqn:Hmore; [| discriminate].
      inversion Hrun; subst out.
      destruct (IH _ _ Hmore Hcur) as [kept [dropped [Hd [Hb Hout]]]].
      exists (doc :: kept), dropped. rewrite total_tokens_cons, Hc.
      split; [simpl; congruence |]. split; [lia |].
      destruct Hout as [-> | [d [rest [text [Hdr [Hcd [Hrem [Htr ->]]]]]]]];
        [left; reflexivity |].
      right. exists d, rest, text. rewrite Z.add_0_l.
      repeat split; try assumption; lia.
Qed.

(** A call that returns went through the loop of the beginning and end
    strategies with a positive budget. *)
Lemma run_in_order (documents out : list Doc) :
  documents <> [] ->
  run self documents = Ok out ->
  (0 < max_token_len self - reserve_token_len self)%Z
  /\ truncate_in_order self (max_token_len self - reserve_token_len self) 0
       documents = Ok out.
Proof.
  intros Hne Hrun. unfold run in Hrun.
  destruct documents as [| doc documents]; [contradiction |].
  set (docs := doc :: documents) in *.
  set (available := (max_token_len self - reserve_token_len self)%Z) in *.
  destruct (Z.leb_spec available 0) as [Hz | Hpos]; [discriminate |].
  split; [exact Hpos |].
  destruct (strategy self) eqn:Hs; try exact Hrun.
  destruct (Z.gtb_spec (total_tokens self docs) available) as [Hgt | Hle];
    [| exact Hrun].
  destruct (Z.eqb_spec (Py.len (filter has_content docs)) 0) as [Hz | Hnz];
    [discriminate |].
  rewrite truncate_equally_raises in Hrun; [discriminate | exact Hs |].
  assert (Hn : (0 < Py.len (filter has_content docs))%Z)
    by (unfold Py.len in *; lia).
  pose proof (Z.mul_div_le available _ Hn). lia.
Qed.

Lemma slice_to_length {A} (n : Z) (l : list A) :
  (0 <= n)%Z -> (Py.len (Py.slice_to n l) <= n)%Z.
Proof.
  intros Hn. unfold Py.slice_to, Py.clamp, Py.len.
  destruct (Z.ltb_spec n 0); [lia |].
  rewrite length_firstn. lia.
Qed.

Lemma slice_from_length {A} (n : Z) (l : list A) :
  (0 < n)%Z -> (Py.len (Py.slice_from (- n) l) <= n)%Z.
Proof.
  intros Hn. unfold Py.slice_from, Py.clamp, Py.len.
  destruct (Z.ltb_spec (- n) 0); [| lia].
  rewrite length_skipn. lia.
Qed.

End Truncation.

Section TruncationResults.

Import DocumentTokenTruncater.

(** X1. With the equal strategy [run] never truncates: when the budget is
    positive and the documents hold more tokens than it allows, the call
    raises the [ValueError] of [_truncate_text], which has no branch for the
    equal strategy, at the first document above its share. *)
Theorem equal_strategy_raises_instead_of_truncating :
  forall (rt : Runtime) (self : t) (documents : list Doc),
    strategy self = EQUAL ->
    (0 < max_token_len self - reserve_token_len self
     < total_tokens self documents)%Z ->
    run self documents
    = Raise
      (ValueError
         "Invalid truncation strategy for single document: TruncationStrategy.EQUAL").
Proof.
  intros rt self documents Hs [Hpos Hgt]. unfold run.
  destruct documents as [| doc documents];
    [change (total_tokens self []) with 0%Z in Hgt; lia |].
  set (docs := doc :: documents) in *.
  set (available := (max_token_len self - reserve_token_len self)%Z) in *.
  destruct (Z.leb_spec available 0) as [Hz | _]; [lia |].
  rewrite Hs.
  destruct (Z.gtb_spec (total_tokens self docs) available) as [_ | Hle]; [| lia].
  assert (Hn : (0 < Py.len (filter has_content docs))%Z).
  { assert (Hd : filter has_content docs <> []).
    { intros Hnil. unfold total_tokens in Hgt. rewrite Hnil in Hgt.
      simpl in Hgt. lia. }
    unfold Py.len. destruct (filter has_content docs); [contradiction |].
    simpl. lia. }
  destruct (Z.eqb_spec (Py.len (filter has_content docs)) 0) as [Hz | _]; [lia |].
  apply truncate_equally_raises; [exact Hs |].
  pose proof (Z.mul_div_le available _ Hn). lia.
Qed.

Lemma equal_strategy_raises_instead_of_truncating_witness :
  @run Fixtures.plain_runtime (Fixtures.truncater 6 EQUAL)
    [Fixtures.text_doc "1" "abcd"; Fixtures.text_doc "2" "efgh"]
  = Raise
      (ValueError
         "Invalid truncation strategy for single document: TruncationStrategy.EQUAL").
Proof.
  apply equal_strategy_raises_instead_of_truncating; [reflexivity |].
  vm_compute. split; reflexivity.
Defined.

(** X2. Documents that fit pass unchanged: with a positive budget and no
    more tokens in the documents than the budget, [run] returns the list it
    was given, whatever the strategy. *)
Theorem documents_within_budget_pass_unchanged :
  forall (rt : Runtime) (self : t) (documents : list Doc),
    (0 < max_token_len self - reserve_token_len self)%Z ->
    (total_tokens self documents
     <= max_token_len self - reserve_token_len self)%Z ->
    run self documents = Ok documents.
Proof.
  intros rt self documents Hpos Hle. unfold run.
  destruct documents as [| doc documents]; [reflexivity |].
  set (docs := doc :: documents) in *.
  set (available := (max_token_len self - reserve_token_len self)%Z) in *.
  destruct (Z.leb_spec available 0) as [Hz | _]; [lia |].
  assert (Hin : truncate_in_order self available 0 docs = Ok docs)
    by (apply truncate_in_order_fits; lia).
  destruct (strategy self); try exact Hin.
  destruct (Z.gtb_spec (total_tokens self docs) available); [lia | exact Hin].
Qed.

Lemma documents_within_budget_pass_unchanged_witness :
  @run Fixtures.plain_runtime (Fixtures.truncater 10 BEGINNING)
    [Fixtures.text_doc "1" "abcd"; Fixtures.text_doc "2" "efgh"]
  = Ok [Fixtures.text_doc "1" "abcd"; Fixtures.text_doc "2" "efgh"].
Proof.
  apply documents_within_budget_pass_unchanged; vm_compute; congruence.
Defined.



(** X4. The returned documents fit the budget: when decoding tokens and
    encoding the text again never gives more tokens than there were, the
    documents [run] returns for a non-empty input hold together no more
    than [max_token_len - reserve_token_len] tokens. *)
Theorem returned_documents_fit_the_budget :
  forall (rt : Runtime) (self : t) (documents out : list Doc),
    (forall tokens,
        Py.len (encode (tokenizer self) (decode (tokenizer self) tokens))
        <= Py.len tokens)%Z ->
    documents <> [] ->
    run self documents = Ok out ->
    (total_tokens self out <= max_token_len self - reserve_token_len self)%Z.
Proof.
  intros rt self documents out Hcodec Hne Hrun.
  destruct (@run_in_order rt self _ _ Hne Hrun) as [Hpos Hloop].
  destruct (@truncate_in_order_shape rt self _ _ _ _ Hloop)
    as [kept [dropped [Hd [Hb Hout]]]]; [lia |].
  destruct Hout as [-> | [d [rest [text [Hdr [Hcd [Hrem [Htr ->]]]]]]]]; [lia |].
  rewrite Z.sub_0_r in Hrem, Htr.
  set (remaining := (max_token_len self - reserve_token_len self
                     - total_tokens self kept)%Z) in *.
  rewrite total_tokens_app, total_tokens_cons.
  change (total_tokens self []) with 0%Z.
  assert (Ht : ((if has_content (truncated_doc d text)
                 then _get_token_len self (content_of (truncated_doc d text))
                 else 0) <= remaining)%Z).
  { destruct (has_content (truncated_doc d text)); [| lia].
    change (content_of (truncated_doc d text)) with text.
    unfold _truncate_text in Htr.
    destruct (Z.leb_spec (_get_token_len self (content_of d)) remaining); [lia |].
    unfold _get_token_len.
    destruct (strategy self); inversion Htr; subst text.
    - eapply Z.le_trans; [apply Hcodec |]. apply slice_from_length. lia.
    - eapply Z.le_trans; [apply Hcodec |]. apply slice_to_length. lia. }
  lia.
Qed.

Lemma returned_documents_fit_the_budget_witness :
  (total_tokens (Fixtures.truncater 5 END)
     (match @run Fixtures.plain_runtime (Fixtures.truncater 5 END)
              [Fixtures.text_doc "1" "abc"; Fixtures.text_doc "2" "defgh"] with
      | Ok out => out
      | Raise _ => []
      end) <= 5 - 0)%Z.
Proof.
  apply (@returned_documents_fit_the_budget Fixtures.plain_runtime
           (Fixtures.truncater 5 END)
           [Fixtures.text_doc "1" "abc"; Fixtures.text_doc "2" "defgh"]).
  - intros tokens. unfold Py.len. simpl. rewrite !length_map. lia.
  - discriminate.
  - reflexivity.
Defined.

End TruncationResults.

(** * The chunker: what becomes of the text *)

Section FixedWidth.

Import RecursiveChunker.

Variable self : t.

Hypothesis valid : (0 <= chunk_overlap self < chunk_size self)%Z.

(** The part of each window that the next window does not repeat. *)
Lemma windows_cover (text : str) :
  forall fuel i,
    (0 <= i)%Z -> (Py.len text - i <= Z.of_nat fuel)%Z ->
    List.concat
      (map (fun x =>
              firstn (Z.to_nat (chunk_size self - chunk_overlap self))
                (Py.slice x (x + chunk_size self) text))
         (Py.range_go fuel i (Py.len text)
            (chunk_size self - chunk_overlap self)))
    = skipn (Z.to_nat i) text.
Proof.
  induction fuel as [| fuel IH]; intros i Hi Hfuel; simpl.
  - symmetry. apply skipn_all2. unfold Py.len in Hfuel. lia.
  - destruct (Z.ltb_spec i (Py.len text)) as [Hlt | Hge].
    + simpl. rewrite IH by lia.
      rewrite slice_window by lia.
      rewrite firstn_firstn.
      replace (Nat.min (Z.to_nat (chunk_size self - chunk_overlap self))
                 (Z.to_nat (chunk_size self)))
        with (Z.to_nat (chunk_size self - chunk_overlap self)) by lia.
      replace (Z.to_nat (i + (chunk_size self - chunk_overlap self)))
        with (Z.to_nat (chunk_size self - chunk_overlap self) + Z.to_nat i)
        by lia.
      rewrite <- skipn_skipn. apply firstn_skipn.
    + symmetry. apply skipn_all2. unfold Py.len in Hge. lia.
Qed.

End FixedWidth.

Section BlankText.

Lemma split_go_chars (P : ascii -> Prop) (sep : str) :
  forall s skip cur,
    Forall P s -> Forall P cur ->
    Forall (Forall P) (Py.split_go sep s skip cur).
Proof.
  induction s as [| c s IH]; intros skip cur Hs Hcur; simpl.
  - constructor; [| constructor]. apply Forall_rev. exact Hcur.
  - inversion Hs; subst. destruct skip as [| k]; [| apply IH; assumption].
    destruct (Py.startswith sep (c :: s)).
    + constructor; [apply Forall_rev; exact Hcur |].
      apply IH; [assumption | constructor].
    + apply IH; [assumption |]. constructor; assumption.
Qed.

Lemma blank_chars (s : str) :
  Py.strip_nonempty s = false <-> Forall (fun c => Py.isspace c = true) s.
Proof.
  unfold Py.strip_nonempty. induction s as [| c s IH]; simpl.
  - split; [constructor | reflexivity].
  - rewrite orb_false_iff, negb_false_iff, IH. split.
    + intros [Hc Hs]. constructor; assumption.
    + intros H. inversion H; subst. split; assumption.
Qed.

Lemma blank_fragments (sep text : str) :
  Py.strip_nonempty text = false ->
  filter Py.strip_nonempty (Py.split_go sep text 0 []) = [].
Proof.
  intros Hb. apply blank_chars in Hb.
  pose proof (split_go_chars sep 0 Hb (Forall_nil _)) as Hf.
  induction Hf as [| f l Hfb _ IH]; [reflexivity |].
  simpl. apply blank_chars in Hfb. rewrite Hfb. exact IH.
Qed.

End BlankText.

Section ChunkIds.

Import RecursiveChunker.

Context {rt : Runtime}.

Lemma eqb_str_refl (a : str) : Py.eqb_str a a = true.
Proof. apply eqb_str_eq. reflexivity. Qed.

Lemma meta_set_twice (m : Meta) (k : str) (v : PyVal) :
  meta_set (meta_set m k v) k v = meta_set m k v.
Proof.
  induction m as [| [k' v'] m IH]; simpl.
  - rewrite eqb_str_refl. reflexivity.
  - destruct (Py.eqb_str k' k) eqn:E; simpl; rewrite E; [reflexivity |].
    rewrite IH. reflexivity.
Qed.

Lemma heap_modify_twice (f : Meta -> Meta) :
  (forall m, f (f m) = f m) ->
  forall (h : Heap) (l : loc),
    heap_modify (heap_modify h l f) l f = heap_modify h l f.
Proof.
  intros Hf. induction h as [| m h IH]; intros [| l]; simpl;
    try reflexivity.
  - rewrite Hf. reflexivity.
  - rewrite IH. reflexivity.
Qed.

(** The document made for a chunk when the store holds [m] for the parent's
    dictionary. *)
Lemma emit_chunks_stable (doc : DocRef) (chunks : list str) :
  forall new_docs h,
    heap_modify h (Document.meta doc)
      (fun m => meta_set m original_id (VStr (Document.id doc))) = h ->
    fold_left (emit_chunk doc) chunks (new_docs, h)
    = (new_docs
       ++ map (fun chunk =>
                 Document.__post_init__
                   (Document.mk [] (Some chunk) None (Document.meta doc)
                      None None None)
                   (heap_get h (Document.meta doc)))
            chunks,
       h).
Proof.
  induction chunks as [| chunk chunks IH]; intros new_docs h Hh; simpl.
  - rewrite app_nil_r. reflexivity.
  - unfold emit_chunk at 2. cbn [fst snd].
    change (Document.meta
              (Document.__post_init__
                 (Document.mk [] (Some chunk) None (Document.meta doc)
                    None None None)
                 (heap_get h (Document.meta doc))))
      with (Document.meta doc).
    rewrite Hh, IH by exact Hh. rewrite <- app_assoc. reflexivity.
Qed.

End ChunkIds.

Section ChunkerResults.

Import RecursiveChunker.

(** X5. The character-level fallback loses no text: the windows, each cut
    down to the [chunk_size - chunk_overlap] characters the next window
    does not repeat, concatenate to the text; with no overlap the windows
    themselves do. *)
Theorem fixed_width_windows_cover_the_text :
  forall (self : t) (text : str) (chunks : list str),
    (0 <= chunk_overlap self < chunk_size self)%Z ->
    fixed_width self text = Ok chunks ->
    List.concat
      (map (firstn (Z.to_nat (chunk_size self - chunk_overlap self))) chunks)
    = text
    /\ (chunk_overlap self = 0%Z -> List.concat chunks = text).
Proof.
  intros self text chunks Hv Hfw.
  assert (Hcut : List.concat
                   (map (firstn (Z.to_nat (chunk_size self - chunk_overlap self)))
                      chunks) = text).
  { unfold fixed_width, Py.range_step in Hfw.
    destruct (Z.eqb_spec (chunk_size self - chunk_overlap self) 0); [lia |].
    destruct (Z.ltb_spec (chunk_size self - chunk_overlap self) 0); [lia |].
    simpl in Hfw. inversion Hfw; subst chunks. rewrite map_map.
    rewrite (@windows_cover self Hv text (Z.to_nat (Py.len text)) 0%Z)
      by (unfold Py.len; lia).
    reflexivity. }
  split; [exact Hcut |].
  intros Hz. rewrite <- Hcut. f_equal.
  rewrite <- (map_id chunks) at 1. apply map_ext_in.
  intros chunk Hin. symmetry. apply firstn_all2.
  assert (Hs : (0 < chunk_size self)%Z) by lia.
  pose proof (fixed_width_fits self Hs text Hfw) as Hfit.
  rewrite Forall_forall in Hfit. specialize (Hfit chunk Hin).
  unfold fits, Py.len in Hfit. lia.
Qed.

Lemma fixed_width_windows_cover_the_text_witness :
  List.concat
    (map (firstn (Z.to_nat (5 - 3)))
       [Py.lit "abcde"; Py.lit "cdefg"; Py.lit "efg"; Py.lit "g"])
  = Py.lit "abcdefg"
  /\ (3%Z = 0%Z ->
      List.concat [Py.lit "abcde"; Py.lit "cdefg"; Py.lit "efg"; Py.lit "g"]
      = Py.lit "abcdefg").
Proof.
  apply (@fixed_width_windows_cover_the_text
           (mk 5 3 [] true false None) (Py.lit "abcdefg")).
  - simpl. lia.
  - reflexivity.
Defined.

(** X6. A blank text longer than [chunk_size] vanishes: when the first
    separator is a literal one, a text of white space only that does not
    fit [chunk_size] is cut into blank fragments, all of which are dropped,
    so [_chunk_text] returns no chunk at all. *)
Theorem blank_text_beyond_chunk_size_yields_no_chunk :
  forall (re_split : str -> str -> result (list (option str))) (self : t)
         (depth : nat) (text separator : str) (rest : list str),
    separators self = separator :: rest ->
    is_separator_regex self = false ->
    uses_sentence_tokenizer separator = false ->
    Py.strip_nonempty text = false ->
    (chunk_size self < Py.len text)%Z ->
    _chunk_text re_split self (S depth) text = Ok [].
Proof.
  intros re_split self depth text separator rest Hsep Hlit Hns Hblank Hlong.
  simpl. destruct (Z.leb_spec (Py.len text) (chunk_size self)); [lia |].
  rewrite Hsep. simpl. unfold raw_splits. rewrite Hns, Hlit.
  pose proof (not_sentence_nonempty Hns) as Hne.
  unfold Py.split. destruct separator as [| c separator]; [contradiction |].
  simpl. rewrite nonblank_map_some, blank_fragments by exact Hblank.
  simpl. destruct (chunk_overlap self >? 0)%Z; reflexivity.
Qed.

Lemma blank_text_beyond_chunk_size_yields_no_chunk_witness :
  _chunk_text Fixtures.no_regex (mk 2 0 [Py.lit "x"] true false None) 1
    (Py.lit "   ")
  = Ok [].
Proof.
  apply (@blank_text_beyond_chunk_size_yields_no_chunk Fixtures.no_regex
           (mk 2 0 [Py.lit "x"] true false None) 0 (Py.lit "   ")
           (Py.lit "x") []); reflexivity.
Defined.

(** X7. Chunks of one document that carry the same text get the same id,
    the first chunk apart: [_run_one] writes [original_id] into the shared
    dictionary after building the first chunk, the dictionary no longer
    changes after that, and every later chunk is built from its text and
    that dictionary alone. *)
Theorem later_chunks_with_equal_text_share_an_id :
  forall (re_split : str -> str -> result (list (option str))) (self : t)
         (rt : Runtime) (depth : nat) (h h' : Heap) (doc first : DocRef)
         (rest : list DocRef),
    _run_one re_split self depth h doc = (Ok (first :: rest), h') ->
    h' = heap_modify h (Document.meta doc)
           (fun m => meta_set m original_id (VStr (Document.id doc)))
    /\ forall a b,
         In a rest -> In b rest ->
         Document.content a = Document.content b ->
         a = b /\ Document.id a = Document.id b.
Proof.
  intros re_split self rt depth h h' doc first rest Hrun.
  unfold _run_one in Hrun.
  destruct (_chunk_text re_split self depth (text_of doc)) as [chunks | e];
    [| discriminate].
  destruct chunks as [| chunk chunks]; [discriminate |].
  set (written := heap_modify h (Document.meta doc)
                    (fun m => meta_set m original_id (VStr (Document.id doc)))).
  assert (E : fold_left (emit_chunk doc) (chunk :: chunks) ([], h)
              = ([Document.__post_init__
                    (Document.mk [] (Some chunk) None (Document.meta doc)
                       None None None)
                    (heap_get h (Document.meta doc))]
                 ++ map (fun c =>
                           Document.__post_init__
                             (Document.mk [] (Some c) None (Document.meta doc)
                                None None None)
                             (heap_get written (Document.meta doc)))
                      chunks,
                 written)).
  { cbn [fold_left].
    change (emit_chunk doc ([], h) chunk)
      with ([Document.__post_init__
               (Document.mk [] (Some chunk) None (Document.meta doc)
                  None None None)
               (heap_get h (Document.meta doc))], written).
    apply emit_chunks_stable.
    apply heap_modify_twice. intros m. apply meta_set_twice. }
  rewrite E in Hrun. cbn [fst snd app] in Hrun.
  inversion Hrun; subst. split; [reflexivity |].
  intros a b Ha Hb Hc.
  apply in_map_iff in Ha. destruct Ha as [ca [<- _]].
  apply in_map_iff in Hb. destruct Hb as [cb [<- _]].
  assert (Hcc : ca = cb).
  { unfold Document.__post_init__ in Hc. simpl in Hc. congruence. }
  subst cb. split; reflexivity.
Qed.

Lemma later_chunks_with_equal_text_share_an_id_witness :
  exists first second third h',
    @_run_one Fixtures.no_regex (mk 2 0 [] true false None)
      Fixtures.plain_runtime 2 [[]] (Fixtures.doc_at "p1" "ababab" 0)
    = (Ok [first; second; third], h')
    /\ Document.content second = Document.content third
    /\ Document.id second = Document.id third.
Proof.
  pose (self := mk 2 0 [] true false None).
  pose (doc := Fixtures.doc_at "p1" "ababab" 0).
  pose (out := @_run_one Fixtures.no_regex self Fixtures.plain_runtime 2 [[]] doc).
  pose (docs := match fst out with Ok l => l | Raise _ => [] end).
  pose (first := nth 0 docs doc).
  pose (second := nth 1 docs doc).
  pose (third := nth 2 docs doc).
  exists first, second, third, (snd out).
  destruct (@later_chunks_with_equal_text_share_an_id Fixtures.no_regex self
              Fixtures.plain_runtime 2 [[]] (snd out) doc first [second; third]
              eq_refl) as [_ Hsame].
  split; [reflexivity |]. split; [reflexivity |].
  apply (Hsame second third); simpl; auto.
Defined.

(** X8. [run] works through the documents one after the other on one store:
    running on a list put together from two lists is running on the first
    and then, on the store that leaves, on the second; an exception in
    either part ends the call and leaves the dictionaries as they were
    written up to there. *)
Theorem run_takes_documents_in_sequence :
  forall (re_split : str -> str -> result (list (option str))) (self : t)
         (rt : Runtime) (depth : nat) (front back : list DocRef) (h : Heap),
    run re_split self depth h (front ++ back)
    = match run re_split self depth h front with
      | (Raise e, h1) => (Raise e, h1)
      | (Ok new_front, h1) =>
          match run re_split self depth h1 back with
          | (Raise e, h2) => (Raise e, h2)
          | (Ok new_back, h2) => (Ok (new_front ++ new_back), h2)
          end
      end.
Proof.
  intros re_split self rt depth front back.
  induction front as [| doc front IH]; intros h; simpl.
  - destruct (run re_split self depth h back) as [[out | e] h2]; reflexivity.
  - destruct (is_empty doc); [apply IH |].
    destruct (_run_one re_split self depth h doc) as [[new_docs | e] h1];
      [| reflexivity].
    rewrite IH.
    destruct (run re_split self depth h1 front) as [[new_front | e] h2];
      [| reflexivity].
    destruct (run re_split self depth h2 back) as [[new_back | e] h3];
      [| reflexivity].
    rewrite app_assoc. reflexivity.
Qed.

End ChunkerResults.

(** * The assembler: the general form of the text *)

Section AssembledText.

Import azure_ocr_utils.

Variable to_csv : list (list str) -> str.

Lemma add_object_writable (page_text : str) (obj : PageObject) :
  writable to_csv obj ->
  add_object to_csv page_text obj = Ok (page_text ++ object_text to_csv obj).
Proof.
  destruct obj as [l | p | t]; intros Hw;
    try (apply add_object_text; reflexivity).
  destruct Hw as [c Hc]. unfold add_object, object_text. rewrite Hc.
  unfold get_table_content in Hc.
  destruct (for_each fill_cell (DocumentTable.cells t) _) as [grid | e];
    [| discriminate].
  simpl in Hc. inversion Hc; subst c. simpl.
  rewrite app_assoc, slice_to_drops_last. reflexivity.
Qed.

Lemma add_objects_writable (row : list PageObject) :
  forall page_text,
    (forall obj, In obj row -> writable to_csv obj) ->
    for_each (add_object to_csv) row page_text
    = Ok (page_text ++ flat_map (object_text to_csv) row).
Proof.
  induction row as [| obj row IH]; intros page_text Hw; simpl.
  - rewrite app_nil_r. reflexivity.
  - rewrite add_object_writable by (apply Hw; left; reflexivity). simpl.
    rewrite IH by (intros o Ho; apply Hw; right; exact Ho).
    rewrite app_assoc. reflexivity.
Qed.

Lemma add_rows_writable (rows : list (list PageObject)) :
  forall page_text,
    (forall row obj, In row rows -> In obj row -> writable to_csv obj) ->
    for_each (add_row to_csv) rows page_text
    = Ok (page_text
          ++ flat_map (fun row => flat_map (object_text to_csv) row ++ [LF])
               rows).
Proof.
  induction rows as [| row rows IH]; intros page_text Hw; simpl.
  - rewrite app_nil_r. reflexivity.
  - unfold add_row at 1.
    rewrite add_objects_writable
      by (intros o Ho; apply (Hw row); [left; reflexivity | exact Ho]).
    simpl.
    rewrite IH by (intros r o Hr Ho; apply (Hw r); [right; exact Hr | exact Ho]).
    rewrite <- !app_assoc. reflexivity.
Qed.

End AssembledText.

(** * Grouping by page *)

Section Grouping.

Import azure_ocr_utils.

Variables X V : Type.
Variable regions : X -> option (list BoundingRegion.t).
Variable val : X -> V.

Lemma dict_get_set_same (d : Dict.t V) (k : Z) (v : V) :
  Dict.get (Dict.set d k v) k = Some v.
Proof.
  induction d as [| [k' v'] d IH]; simpl.
  - rewrite Z.eqb_refl. reflexivity.
  - destruct (Z.eqb_spec k' k) as [-> | Hne]; simpl.
    + rewrite Z.eqb_refl. reflexivity.
    + destruct (Z.eqb_spec k' k); [contradiction | exact IH].
Qed.

Lemma dict_get_set_other (d : Dict.t V) (k k' : Z) (v : V) :
  k' <> k -> Dict.get (Dict.set d k v) k' = Dict.get d k'.
Proof.
  intros Hne. induction d as [| [k0 v0] d IH]; simpl.
  - destruct (Z.eqb_spec k k'); [congruence | reflexivity].
  - destruct (Z.eqb_spec k0 k) as [-> | Hk]; simpl.
    + destruct (Z.eqb_spec k k'); [congruence | reflexivity].
    + destruct (Z.eqb_spec k0 k'); [reflexivity | exact IH].
Qed.

End Grouping.

Section GroupingLists.

Import azure_ocr_utils.

Variables X V : Type.
Variable regions : X -> option (list BoundingRegion.t).
Variable val : X -> V.

Lemma dict_append_get (d : Dict.t (list V)) (k k' : Z) (v : V) :
  Dict.get_default (dict_append d k v) k' []
  = if (k' =? k)%Z then Dict.get_default d k [] ++ [v]
    else Dict.get_default d k' [].
Proof.
  unfold dict_append, Dict.get_default at 1.
  destruct (Z.eqb_spec k' k) as [-> | Hne].
  - rewrite dict_get_set_same. reflexivity.
  - rewrite dict_get_set_other by exact Hne. reflexivity.
Qed.

Lemma dict_append_values (d : Dict.t (list V)) (k : Z) (v : V) :
  Permutation (List.concat (map snd (dict_append d k v)))
    (List.concat (map snd d) ++ [v]).
Proof.
  unfold dict_append, Dict.get_default.
  induction d as [| [k' vs] d IH]; simpl; [reflexivity |].
  destruct (Z.eqb_spec k' k) as [-> | Hne]; simpl.
  - rewrite <- !app_assoc. apply Permutation_app_head.
    apply Permutation_app_comm.
  - rewrite <- app_assoc. apply Permutation_app_head. exact IH.
Qed.

Lemma dict_append_nonempty (d : Dict.t (list V)) (k : Z) (v : V) :
  (forall kv, In kv d -> snd kv <> []) ->
  forall kv, In kv (dict_append d k v) -> snd kv <> [].
Proof.
  unfold dict_append, Dict.get_default.
  induction d as [| [k' vs] d IH]; simpl; intros Hd kv Hin.
  - destruct Hin as [<- | []]. discriminate.
  - destruct (Z.eqb_spec k' k) as [-> | Hne]; simpl in *.
    + destruct Hin as [<- | Hin]; [| apply Hd; right; exact Hin].
      simpl. intros E. apply app_eq_nil in E. destruct E. discriminate.
    + destruct Hin as [<- | Hin]; [apply (Hd (k', vs)); left; reflexivity |].
      apply IH; [intros kv' H'; apply Hd; right; exact H' | exact Hin].
Qed.

Lemma group_fold (xs : list X) :
  forall d done,
    NoDup (Dict.keys d) ->
    Permutation (List.concat (map snd d)) (map val done) ->
    (forall x b rest,
        In x done -> regions x = Some (b :: rest) ->
        In (val x) (Dict.get_default d (BoundingRegion.page_number b) [])) ->
    (forall kv, In kv d -> snd kv <> []) ->
    let d' := fold_left (group_step regions val) xs d in
    NoDup (Dict.keys d')
    /\ Permutation (List.concat (map snd d')) (map val (done ++ xs))
    /\ (forall x b rest,
           In x (done ++ xs) -> regions x = Some (b :: rest) ->
           In (val x) (Dict.get_default d' (BoundingRegion.page_number b) []))
    /\ (forall kv, In kv d' -> snd kv <> []).
Proof.
  induction xs as [| x xs IH]; intros d done Hnd Hperm Hin Hne; simpl.
  - rewrite app_nil_r. repeat split; assumption.
  - replace (done ++ x :: xs) with ((done ++ [x]) ++ xs)
      by (rewrite <- app_assoc; reflexivity).
    apply IH.
    + apply dict_set_nodup. exact Hnd.
    + unfold group_step. rewrite dict_append_values, map_app.
      apply Permutation_app_tail. exact Hperm.
    + intros y b rest Hy Hr. unfold group_step. rewrite dict_append_get.
      apply in_app_or in Hy. destruct Hy as [Hy | [<- | []]].
      * specialize (Hin y b rest Hy Hr).
        destruct (Z.eqb_spec (BoundingRegion.page_number b)
                    (page_of (regions x) d)) as [E | _];
          [rewrite <- E; apply in_or_app; left |]; exact Hin.
      * assert (Hp : page_of (regions x) d = BoundingRegion.page_number b)
          by (unfold page_of; rewrite Hr; reflexivity).
        rewrite Hp, Z.eqb_refl. apply in_or_app. right. left. reflexivity.
    + apply dict_append_nonempty. exact Hne.
Qed.

End GroupingLists.

Section MissingPolygon.

Import azure_ocr_utils.

Variable threshold_y : float.

Lemma map_m_in {A B} (f : A -> result B) (l : list A) (l' : list B) (x : A) :
  map_m f l = Ok l' -> In x l -> exists y, In y l' /\ f x = Ok y.
Proof.
  intros Hm Hin. apply map_m_ok in Hm.
  exact (Forall2_In_l x Hm Hin).
Qed.

Lemma all_have_polygon_some (objects : list PageObject) :
  all_have_polygon objects = Ok true ->
  forall obj, In obj objects -> exists p, get_polygon obj = Ok (Some p).
Proof.
  induction objects as [| o objects IH]; intros Hall obj Hin; [destruct Hin |].
  simpl in Hall. destruct (get_polygon o) as [[p |] | e] eqn:Hp;
    simpl in Hall; try discriminate.
  destruct Hin as [<- | Hin]; [eauto | exact (IH Hall obj Hin)].
Qed.

Lemma pairs_by_page_pages (d : Dict.t (list PageObject))
  (P : Dict.t (list (nat * nat))) :
  pairs_by_page threshold_y d = Ok P ->
  forall kv, In kv d -> exists pairs, pairs_of_page threshold_y (snd kv) = Ok pairs.
Proof.
  revert P. induction d as [| [pn objs] d IH]; intros P HP kv Hin;
    [destruct Hin |].
  simpl in HP.
  destruct (pairs_of_page threshold_y objs) as [pairs | e] eqn:Hpairs;
    [| discriminate].
  simpl in HP.
  destruct (pairs_by_page threshold_y d) as [others | e] eqn:Hothers;
    [| discriminate].
  destruct Hin as [<- | Hin]; [simpl; eauto | exact (IH _ eq_refl kv Hin)].
Qed.

(** The sort by x asks an object for the first point of its polygon. *)
Lemma polygon_none_no_key (obj : PageObject) :
  get_polygon obj = Ok None -> key_x obj = Raise TypeError.
Proof. intros H. unfold key_x, polygon0. rewrite H. reflexivity. Qed.

(** Every pair [(i, i)] is among the pairs of a page. *)
Lemma pairs_of_page_diagonal (objects : list PageObject)
  (pairs : list (nat * nat)) (i : nat) :
  pairs_of_page threshold_y objects = Ok pairs ->
  i < List.length objects -> In (i, i) pairs.
Proof.
  intros Hpairs Hlt. unfold pairs_of_page in Hpairs.
  destruct (all_have_polygon objects) as [[|] | e]; simpl in Hpairs;
    try discriminate.
  - clear - Hpairs Hlt.
    assert (Hgen : forall objs start ps,
               pairs_from threshold_y start objs = Ok ps ->
               forall m, m < List.length objs -> In (start + m, start + m) ps).
    { induction objs as [| o objs IH]; intros start ps Hps m Hm;
        [simpl in Hm; lia |].
      simpl in Hps.
      destruct (left_up o) as [p | e]; [| discriminate]. simpl in Hps.
      destruct (pairs_with threshold_y start p (S start) objs) as [row | e];
        [| discriminate].
      simpl in Hps.
      destruct (pairs_from threshold_y (S start) objs) as [more | e] eqn:Hmore;
        [| discriminate].
      inversion Hps; subst ps. destruct m as [| m].
      - left. f_equal; lia.
      - right. apply in_or_app. right.
        replace (start + S m) with (S start + m) by lia.
        apply (IH _ _ Hmore). simpl in Hm. lia. }
    exact (Hgen _ _ _ Hpairs i Hlt).
  - inversion Hpairs. apply in_map_iff. exists i. split; [reflexivity |].
    apply in_seq. lia.
Qed.

Lemma rows_hold_every_object (d : Dict.t (list PageObject))
  (P : Dict.t (list (nat * nat))) (rows : Dict.t (list (list PageObject)))
  (pn : Z) (objs : list PageObject) (obj : PageObject) :
  NoDup (Dict.keys d) ->
  pairs_by_page threshold_y d = Ok P ->
  rows_of_objects_by_page (merged_pairs_by_page P) d = Ok rows ->
  In (pn, objs) d -> In obj objs ->
  exists rws row, In (pn, rws) rows /\ In row rws /\ In obj row.
Proof.
  intros Hnd HP HR Hpage Hobj.
  pose proof (pairs_by_page_pages _ HP) as Hall.
  destruct (pairs_by_page_ok threshold_y d Hall) as [P' [HP' [_ Hmerged]]].
  assert (P' = P) by congruence. subst P'.
  destruct (Hall _ Hpage) as [pairs Hpairs]. simpl in Hpairs.
  specialize (Hmerged Hnd pn objs pairs Hpage Hpairs).
  destruct (In_nth_error _ _ Hobj) as [i Hi].
  assert (Hlt : i < List.length objs)
    by (apply nth_error_Some; congruence).
  assert (Hnode : In i (networkx.nodes (graph_of pairs))).
  { apply graph_of_nodes. exists i, i. split; [| left; reflexivity].
    exact (pairs_of_page_diagonal _ Hpairs Hlt). }
  destruct (proj1 (connected_components_spec (graph_of_well_formed pairs))
              i Hnode) as [c [Hc Hic]].
  destruct (map_m_in _ _ (pn, objs) HR Hpage) as [[pn' rws] [Hrows Hkr]].
  simpl in Hkr. rewrite Hmerged in Hkr.
  destruct (map_m (objects_in_row objs)
              (networkx.connected_components (graph_of pairs)))
    as [rws' | e] eqn:Hrws; [| discriminate].
  simpl in Hkr. inversion Hkr; subst pn' rws'.
  destruct (map_m_in _ _ c Hrws Hc) as [row [Hrow Hcrow]].
  unfold objects_in_row in Hcrow.
  destruct (map_m_in _ _ i Hcrow Hic) as [o [Ho Hidx]].
  rewrite (index_nth objs obj Hlt) in Hidx. inversion Hidx; subst o.
  rewrite (nth_error_nth _ _ _ Hi) in Ho.
  exists rws, row. auto.
Qed.

End MissingPolygon.

Section LayoutResults.

Import azure_ocr_utils.

(** X9. The general form of the assembled text: page by page, in the order
    of [result.pages], the rows of the page each followed by a newline, the
    pages joined by a form feed; the texts of the objects of a row follow
    one another with nothing between them, since the space added after an
    object is taken away again before the next one is added. Rows kept
    under a page number that [result.pages] does not list add nothing, and
    a listed page without rows gives the empty text. *)
Theorem assembled_text_runs_the_objects_of_a_row_together :
  forall (to_csv : list (list str) -> str)
         (rows_of_objects_by_page : Dict.t (list (list PageObject)))
         (result : AnalyzeResult.t),
    (forall page row obj,
        In page (AnalyzeResult.pages result) ->
        In row (Dict.get_default rows_of_objects_by_page
                  (DocumentPage.page_number page) []) ->
        In obj row -> writable to_csv obj) ->
    construct_text_from_rows_of_objects_by_page to_csv rows_of_objects_by_page
      result
    = Ok (Py.join [FF]
            (map (fun page =>
                    flat_map
                      (fun row => flat_map (object_text to_csv) row ++ [LF])
                      (Dict.get_default rows_of_objects_by_page
                         (DocumentPage.page_number page) []))
               (AnalyzeResult.pages result))).
Proof.
  intros to_csv rows result Hw.
  unfold construct_text_from_rows_of_objects_by_page.
  rewrite (map_m_pure (page_text_of to_csv rows)
             (fun page =>
                flat_map (fun row => flat_map (object_text to_csv) row ++ [LF])
                  (Dict.get_default rows (DocumentPage.page_number page) []))).
  - reflexivity.
  - intros page Hpage. unfold page_text_of.
    rewrite add_rows_writable; [reflexivity |].
    intros row obj Hrow Hobj. exact (Hw page row obj Hpage Hrow Hobj).
Qed.

Lemma assembled_text_runs_the_objects_of_a_row_together_witness :
  construct_text_from_rows_of_objects_by_page (fun _ => Py.lit "csv")
    [(1%Z, [[Fixtures.line_at "A" 0 0 0; Fixtures.line_at "B" 1 0 2];
            [Fixtures.line_at "C" 0 1 4]]);
     (7%Z, [[Fixtures.line_at "D" 0 0 6]])]
    (Fixtures.pages_of [1%Z; 2%Z])
  = Ok (Py.lit "AB" ++ [LF] ++ Py.lit "C" ++ [LF; FF]).
Proof.
  rewrite assembled_text_runs_the_objects_of_a_row_together; [reflexivity |].
  intros page row obj Hpage Hrow Hobj. simpl in Hpage.
  destruct Hpage as [<- | [<- | []]]; simpl in Hrow.
  - destruct Hrow as [<- | [<- | []]]; simpl in Hobj.
    + destruct Hobj as [<- | [<- | []]]; exact I.
    + destruct Hobj as [<- | []]. exact I.
  - destruct Hrow.
Defined.

(** X10. [get_tables_per_page] and [get_paragraphs_per_page] neither lose
    nor repeat anything: every page number is a key once, no key holds an
    empty list, the lists put together are the tables (the paragraphs) of
    the result up to order, and an object with bounding regions is found
    under the page number of its first region. *)
Theorem grouping_by_page_keeps_every_object :
  forall result : AnalyzeResult.t,
    (NoDup (Dict.keys (get_tables_per_page result))
     /\ Permutation (List.concat (map snd (get_tables_per_page result)))
          (AnalyzeResult.tables result)
     /\ (forall table b rest,
            In table (AnalyzeResult.tables result) ->
            DocumentTable.bounding_regions table = Some (b :: rest) ->
            In table
              (Dict.get_default (get_tables_per_page result)
                 (BoundingRegion.page_number b) []))
     /\ (forall kv, In kv (get_tables_per_page result) -> snd kv <> []))
    /\ (NoDup (Dict.keys (get_paragraphs_per_page result))
        /\ Permutation (List.concat (map snd (get_paragraphs_per_page result)))
             (map Paragraph (AnalyzeResult.paragraphs result))
        /\ (forall paragraph b rest,
               In paragraph (AnalyzeResult.paragraphs result) ->
               DocumentParagraph.bounding_regions paragraph = Some (b :: rest) ->
               In (Paragraph paragraph)
                 (Dict.get_default (get_paragraphs_per_page result)
                    (BoundingRegion.page_number b) []))
        /\ (forall kv, In kv (get_paragraphs_per_page result) -> snd kv <> [])).
Proof.
  intros result. split.
  - destruct (@group_fold _ _ DocumentTable.bounding_regions (fun t => t)
                (AnalyzeResult.tables result) [] [])
      as [Hnd [Hperm [Hin Hne]]];
      try (constructor; fail); try (intros; contradiction).
    simpl in Hperm. rewrite map_id in Hperm.
    repeat split; assumption.
  - destruct (@group_fold _ _ DocumentParagraph.bounding_regions Paragraph
                (AnalyzeResult.paragraphs result) [] [])
      as [Hnd [Hperm [Hin Hne]]];
      try (constructor; fail); try (intros; contradiction).
    repeat split; assumption.
Qed.

Lemma remove_objects_nonempty (objects_by_page : Dict.t (list PageObject))
  (tables_by_page : Dict.t (list DocumentTable.t)) :
  forall kept,
    remove_objects_contained_within_tables objects_by_page tables_by_page
    = Ok kept ->
    forall kv, In kv kept -> snd kv <> [].
Proof.
  induction objects_by_page as [| [pn objs] d IH]; intros kept Hk kv Hin.
  - inversion Hk; subst. destruct Hin.
  - simpl in Hk.
    destruct (objects_without_tables
                (Dict.get_default tables_by_page pn []) objs)
      as [k | e]; [| discriminate].
    simpl in Hk.
    destruct (remove_objects_contained_within_tables d tables_by_page)
      as [others | e]; [| discriminate].
    simpl in Hk. inversion Hk; subst kept. destruct k as [| o k].
    + exact (IH _ eq_refl kv Hin).
    + destruct Hin as [<- | Hin]; [discriminate | exact (IH _ eq_refl kv Hin)].
Qed.

(** X11. When tables stay in the text as CSV ([extract_tables_separately]
    off, [table_format] "csv"), a page gets its tables only if it keeps a
    text object: the reconciled page is the kept objects followed by the
    tables of the page, and a page whose objects all lie inside tables has
    no entry at all, so its tables never reach the text. *)
Theorem inline_tables_need_a_kept_text_object :
  forall (Client Secret : Type)
         (self : AzureOCRDocumentConverter.t Client Secret)
         (objects_by_page : Dict.t (list PageObject))
         (tables_by_page : Dict.t (list DocumentTable.t)),
    AzureOCRDocumentConverter.extract_tables_separately self = false ->
    AzureOCRDocumentConverter.table_format self = Py.lit "csv" ->
    NoDup (Dict.keys objects_by_page) ->
    (forall pn tables, In (pn, tables) tables_by_page ->
       Forall (fun t => has_span (DocumentTable.spans t)) tables) ->
    (forall pn objs, In (pn, objs) objects_by_page ->
       Forall (fun o => has_span (obj_spans o)) objs) ->
    exists out,
      AzureOCRDocumentConverter.without_tables self objects_by_page
        tables_by_page = Ok out
      /\ forall pn,
           Dict.get out pn
           = match kept_on tables_by_page pn
                     (Dict.get_default objects_by_page pn []) with
             | [] => None
             | obj :: kept =>
                 Some ((obj :: kept)
                       ++ map Table (Dict.get_default tables_by_page pn []))
             end.
Proof.
  intros Client Secret self d tables Hsep Hcsv Hnd Ht Ho.
  destruct (remove_objects_spec tables Ht d Ho)
    as [kept [Hkept [_ [_ Hget]]]].
  destruct (Hget Hnd) as [_ Hdef].
  exists (insert_tables_into_objects_by_page kept tables). split.
  - unfold AzureOCRDocumentConverter.without_tables.
    rewrite Hsep, Hcsv, Hkept. reflexivity.
  - intros pn. unfold insert_tables_into_objects_by_page.
    rewrite (dict_get_map
               (fun k v => v ++ map Table (Dict.get_default tables k [])) kept pn).
    specialize (Hdef pn). unfold Dict.get_default at 1 in Hdef.
    destruct (Dict.get kept pn) as [v |] eqn:Hv; simpl.
    + rewrite <- Hdef. destruct v as [| obj v]; [| reflexivity].
      apply dict_get_some_in in Hv.
      exfalso. exact (remove_objects_nonempty _ _ Hkept _ Hv eq_refl).
    + rewrite <- Hdef. reflexivity.
Qed.

Lemma inline_tables_need_a_kept_text_object_witness :
  exists out,
    AzureOCRDocumentConverter.without_tables Fixtures.inline_tables
      [(1%Z, [Fixtures.line_at "cell" 0 1 10]);
       (2%Z, [Fixtures.line_at "After" 0 3 30])]
      [(1%Z, [Fixtures.table_on_page_1])]
    = Ok out
    /\ forall pn,
         Dict.get out pn
         = match kept_on [(1%Z, [Fixtures.table_on_page_1])] pn
                   (Dict.get_default
                      [(1%Z, [Fixtures.line_at "cell" 0 1 10]);
                       (2%Z, [Fixtures.line_at "After" 0 3 30])] pn []) with
           | [] => None
           | obj :: kept =>
               Some ((obj :: kept)
                     ++ map Table
                          (Dict.get_default [(1%Z, [Fixtures.table_on_page_1])]
                             pn []))
           end.
Proof.
  apply inline_tables_need_a_kept_text_object; try reflexivity.
  - repeat constructor; simpl; intuition discriminate.
  - intros pn tables [H | []]. inversion H; subst.
    repeat constructor. discriminate.
  - intros pn objs [H | [H | []]]; inversion H; subst;
      repeat constructor; discriminate.
Defined.

(** X12. The fallback for missing polygons is never delivered: when some
    object of some page has no polygon, [get_rows_of_objects_by_page]
    raises. The page is grouped one object to a row as the warning
    announces, but the sort that follows asks every object of every row
    for the first point of its polygon. *)
Theorem missing_polygon_makes_row_grouping_raise :
  forall (threshold_y : float) (objects_by_page : Dict.t (list PageObject))
         (pn : Z) (objs : list PageObject) (obj : PageObject),
    NoDup (Dict.keys objects_by_page) ->
    In (pn, objs) objects_by_page ->
    In obj objs ->
    get_polygon obj = Ok None ->
    raises (get_rows_of_objects_by_page objects_by_page threshold_y).
Proof.
  intros threshold_y d pn objs obj Hnd Hpage Hobj Hnone.
  destruct (get_rows_of_objects_by_page d threshold_y) as [R | e] eqn:HR;
    [| exists e; reflexivity].
  exfalso. unfold get_rows_of_objects_by_page in HR.
  destruct (pairs_by_page threshold_y d) as [P | e] eqn:HP; [| discriminate].
  simpl in HR.
  destruct (rows_of_objects_by_page (merged_pairs_by_page P) d)
    as [rows | e] eqn:Hrows; [| discriminate].
  simpl in HR. unfold _get_sorted_rows_of_objects_per_page in HR.
  match type of HR with
  | Py.bind ?m _ = _ => destruct m as [xs | e] eqn:HX; [| discriminate]
  end.
  destruct (@rows_hold_every_object threshold_y d P rows pn objs obj Hnd HP
              Hrows Hpage Hobj)
    as [rws [row [Hrws [Hrow Hin]]]].
  destruct (map_m_in _ _ (pn, rws) HX Hrws) as [kr [_ Hkr]]. simpl in Hkr.
  destruct (map_m (sorted_by PrimFloat.ltb key_x) rws) as [srs | e] eqn:Hs;
    [| discriminate].
  destruct (map_m_in _ _ row Hs Hrow) as [srow [_ Hsrow]].
  unfold sorted_by in Hsrow.
  match type of Hsrow with
  | Py.bind ?m _ = _ => destruct m as [keyed | e] eqn:Hk; [| discriminate]
  end.
  destruct (map_m_in _ _ obj Hk Hin) as [ko [_ Hko]].
  rewrite (polygon_none_no_key obj Hnone) in Hko. discriminate.
Qed.

Lemma missing_polygon_makes_row_grouping_raise_witness :
  raises (get_rows_of_objects_by_page
            [(1%Z, [Fixtures.line_at "A" 0 0 0; no_object])] 0.05).
Proof.
  apply (@missing_polygon_makes_row_grouping_raise 0.05
           [(1%Z, [Fixtures.line_at "A" 0 0 0; no_object])] 1
           [Fixtures.line_at "A" 0 0 0; no_object] no_object).
  - repeat constructor. intros [].
  - left. reflexivity.
  - right. left. reflexivity.
  - reflexivity.
Defined.

End LayoutResults.

(** * The content of a table *)

Ltac z_cases :=
  repeat match goal with
    | |- context [(?a <=? ?b)%Z] => destruct (Z.leb_spec a b)
    | |- context [(?a <? ?b)%Z] => destruct (Z.ltb_spec a b)
    | |- context [(?a =? ?b)%Z] => destruct (Z.eqb_spec a b)
    end;
  cbn [andb orb]; try reflexivity; try lia.

Section TableGrid.

Import azure_ocr_utils.

Lemma replace_in_seq {A} (h : nat -> A) (v : A) :
  forall k n s,
    k < n ->
    firstn k (map h (seq s n)) ++ v :: skipn (S k) (map h (seq s n))
    = map (fun x => if x =? s + k then v else h x) (seq s n).
Proof.
  induction k as [| k IH]; intros [| n] s Hk; try lia.
  - cbn [seq map firstn skipn app].
    rewrite Nat.add_0_r, Nat.eqb_refl. f_equal.
    apply map_ext_in. intros x Hx. apply in_seq in Hx.
    destruct (Nat.eqb_spec x s); [lia | reflexivity].
  - change (h s :: (firstn k (map h (seq (S s) n))
                    ++ v :: skipn (S k) (map h (seq (S s) n)))
            = (if s =? s + S k then v else h s)
              :: map (fun x => if x =? s + S k then v else h x) (seq (S s) n)).
    destruct (Nat.eqb_spec s (s + S k)); [lia |]. f_equal.
    rewrite (IH n (S s)) by lia.
    apply map_ext. intros x. replace (S s + k) with (s + S k) by lia.
    reflexivity.
Qed.

Lemma range_length (n : Z) : List.length (range n) = Z.to_nat n.
Proof. unfold range. rewrite length_map, length_seq. reflexivity. Qed.

Lemma in_range (n x : Z) : In x (range n) <-> (0 <= x < n)%Z.
Proof.
  unfold range. rewrite in_map_iff. split.
  - intros [m [<- Hm]]. apply in_seq in Hm. lia.
  - intros H. exists (Z.to_nat x). split; [lia |]. apply in_seq. lia.
Qed.

(** [xs[k] = v] on a list given by its elements. *)
Lemma list_set_range {A} (g : Z -> A) (n k : Z) (v : A) :
  (0 <= k < n)%Z ->
  list_set (map g (range n)) k v
  = Ok (map (fun x => if (x =? k)%Z then v else g x) (range n)).
Proof.
  intros Hk. unfold list_set.
  assert (E : (k <? 0)%Z = false) by (apply Z.ltb_ge; lia).
  rewrite E. cbv zeta. rewrite E.
  unfold Py.len. rewrite length_map, range_length.
  destruct (Z.leb_spec (Z.of_nat (Z.to_nat n)) k); [lia |]. cbn [orb].
  unfold range. rewrite !map_map.
  rewrite (replace_in_seq (fun x => g (Z.of_nat x)) v (k := Z.to_nat k)
             (n := Z.to_nat n) 0) by lia.
  f_equal. apply map_ext. intros x. simpl.
  destruct (Nat.eqb_spec x (Z.to_nat k)); destruct (Z.eqb_spec (Z.of_nat x) k);
    try reflexivity; lia.
Qed.

Lemma index_range {A} (g : Z -> A) (n k : Z) :
  (0 <= k < n)%Z -> Py.index (map g (range n)) k = Ok (g k).
Proof.
  intros Hk. unfold Py.index.
  assert (E : (k <? 0)%Z = false) by (apply Z.ltb_ge; lia).
  rewrite E. cbv zeta. rewrite E.
  unfold range. rewrite map_map.
  rewrite (nth_error_map (fun x => g (Z.of_nat x))), nth_error_seq.
  destruct (Nat.ltb_spec (Z.to_nat k) (Z.to_nat n)); [| lia].
  simpl. rewrite Z2Nat.id by lia. reflexivity.
Qed.

Variables rows columns : Z.

Lemma grid_ext (f g : Z -> Z -> str) :
  (forall i j, (0 <= i < rows)%Z -> (0 <= j < columns)%Z -> f i j = g i j) ->
  grid rows columns f = grid rows columns g.
Proof.
  intros H. unfold grid. apply map_ext_in. intros i Hi.
  apply map_ext_in. intros j Hj. apply in_range in Hi, Hj. auto.
Qed.

(** [table_list[i][j] = v]. *)
Lemma set_cell_grid (f : Z -> Z -> str) (i j : Z) (v : str) :
  (0 <= i < rows)%Z -> (0 <= j < columns)%Z ->
  set_cell (grid rows columns f) i j v
  = Ok (grid rows columns
          (fun i' j' => if ((i' =? i) && (j' =? j))%Z then v else f i' j')).
Proof.
  intros Hi Hj. unfold set_cell, grid.
  rewrite index_range by exact Hi. simpl.
  rewrite list_set_range by exact Hj. simpl.
  rewrite list_set_range by exact Hi. f_equal.
  apply map_ext. intros i'. destruct (Z.eqb_spec i' i) as [-> | Hne]; simpl;
    reflexivity.
Qed.

(** The loop over the rows a cell spans, for one column. *)
Lemma fill_rows (v : str) (ri cj : Z) :
  (0 <= ri)%Z -> (0 <= cj < columns)%Z ->
  forall n a f,
    (ri + Z.of_nat a + Z.of_nat n <= rows)%Z ->
    for_each (fun tl r => set_cell tl (ri + r) cj v)
      (map Z.of_nat (seq a n)) (grid rows columns f)
    = Ok (grid rows columns
            (fun i j =>
               if ((ri + Z.of_nat a <=? i) && (i <? ri + Z.of_nat a + Z.of_nat n)
                   && (j =? cj))%Z
               then v else f i j)).
Proof.
  intros Hri Hcj. induction n as [| n IH]; intros a f Hb;
    cbn [seq map for_each].
  - f_equal. apply grid_ext. intros i j _ _. z_cases.
  - rewrite set_cell_grid by lia. cbn [Py.bind].
    rewrite IH by lia. f_equal. apply grid_ext. intros i j _ _.
    rewrite !Nat2Z.inj_succ. z_cases.
Qed.

(** The loop over the columns a cell spans. *)
Lemma fill_columns (v : str) (ri ci rs : Z) :
  (0 <= ri)%Z -> (ri + rs <= rows)%Z -> (0 <= ci)%Z ->
  forall n a f,
    (ci + Z.of_nat a + Z.of_nat n <= columns)%Z ->
    for_each (fun tl c =>
                for_each (fun tl' r => set_cell tl' (ri + r) (ci + c) v)
                  (range rs) tl)
      (map Z.of_nat (seq a n)) (grid rows columns f)
    = Ok (grid rows columns
            (fun i j =>
               if ((ri <=? i) && (i <? ri + rs)
                   && (ci + Z.of_nat a <=? j)
                   && (j <? ci + Z.of_nat a + Z.of_nat n))%Z
               then v else f i j)).
Proof.
  intros Hri Hrs Hci. induction n as [| n IH]; intros a f Hb;
    cbn [seq map for_each].
  - f_equal. apply grid_ext. intros i j _ _. z_cases.
  - unfold range at 1.
    destruct (Z.leb_spec rs 0) as [Hz | Hpos].
    + replace (Z.to_nat rs) with 0 by lia. cbn [seq map for_each Py.bind].
      rewrite IH by lia. f_equal. apply grid_ext. intros i j _ _.
      rewrite !Nat2Z.inj_succ. z_cases.
    + rewrite (@fill_rows v ri (ci + Z.of_nat a) Hri) by lia.
      cbn [Py.bind]. rewrite IH by lia. f_equal. apply grid_ext.
      intros i j _ _. rewrite !Nat2Z.inj_succ, Z2Nat.id by lia.
      change (Z.of_nat 0) with 0%Z. z_cases.
Qed.

End TableGrid.

Section TableContentResults.

Import azure_ocr_utils.

Lemma fill_cell_grid (rows columns : Z) (f : Z -> Z -> str)
  (cell : DocumentTableCell.t) :
  (0 <= DocumentTableCell.row_index cell)%Z ->
  (DocumentTableCell.row_index cell
   + span_or_one (DocumentTableCell.row_span cell) <= rows)%Z ->
  (0 <= DocumentTableCell.column_index cell)%Z ->
  (DocumentTableCell.column_index cell
   + span_or_one (DocumentTableCell.column_span cell) <= columns)%Z ->
  fill_cell (grid rows columns f) cell
  = Ok (grid rows columns
          (fun i j =>
             if covers cell i j then DocumentTableCell.content cell
             else f i j)).
Proof.
  intros Hri Hrs Hci Hcs. unfold fill_cell, covers.
  set (cs := span_or_one (DocumentTableCell.column_span cell)) in *.
  set (rs := span_or_one (DocumentTableCell.row_span cell)) in *.
  change (range cs) with (map Z.of_nat (seq 0 (Z.to_nat cs))).
  destruct (Z.leb_spec cs 0) as [Hz | Hpos].
  - replace (Z.to_nat cs) with 0 by lia. cbn [seq map for_each].
    f_equal. apply grid_ext. intros i j _ _. z_cases.
  - rewrite (@fill_columns rows columns (DocumentTableCell.content cell)
               (DocumentTableCell.row_index cell)
               (DocumentTableCell.column_index cell) rs Hri Hrs Hci)
      by lia.
    f_equal. apply grid_ext. intros i j _ _.
    rewrite Z2Nat.id by lia. change (Z.of_nat 0) with 0%Z. z_cases.
Qed.

Lemma fill_cells_grid (rows columns : Z) (cells : list DocumentTableCell.t) :
  Forall (fun cell =>
            (0 <= DocumentTableCell.row_index cell
             /\ DocumentTableCell.row_index cell
                + span_or_one (DocumentTableCell.row_span cell) <= rows
             /\ 0 <= DocumentTableCell.column_index cell
             /\ DocumentTableCell.column_index cell
                + span_or_one (DocumentTableCell.column_span cell)
                <= columns)%Z) cells ->
  forall f,
    for_each fill_cell cells (grid rows columns f)
    = Ok (grid rows columns
            (fun i j =>
               fold_left
                 (fun text cell =>
                    if covers cell i j then DocumentTableCell.content cell
                    else text)
                 cells (f i j))).
Proof.
  induction 1 as [| cell cells [Hri [Hrs [Hci Hcs]]] _ IH]; intros f;
    cbn [for_each fold_left]; [reflexivity |].
  rewrite fill_cell_grid by assumption. cbn [Py.bind]. apply IH.
Qed.

Lemma empty_grid (rows columns : Z) :
  repeat (repeat ([] : str) (Z.to_nat columns)) (Z.to_nat rows)
  = grid rows columns (fun _ _ => []).
Proof.
  unfold grid. rewrite map_const, range_length.
  f_equal. rewrite map_const, range_length. reflexivity.
Qed.

(** X13. The content of a table whose cells lie inside its grid: every
    position of the [row_count] by [column_count] grid holds the content of
    the last cell of [table.cells] whose rows and columns cover it, and the
    empty string when no cell does. The CSV format hands that grid to the
    CSV writer; the other format takes its first row as the columns and the
    rest as the data, and raises [IndexError] when the grid has no row. *)
Theorem table_content_is_the_grid_of_its_cells :
  forall (to_csv : list (list str) -> str) (table : DocumentTable.t),
    Forall (in_grid table) (DocumentTable.cells table) ->
    get_table_content to_csv table true = Ok (Csv (to_csv (grid_of table)))
    /\ get_table_content to_csv table false
       = match grid_of table with
         | [] => Raise IndexError
         | columns :: data => Ok (DataFrame columns data)
         end.
Proof.
  intros to_csv table Hin. unfold get_table_content.
  rewrite empty_grid, fill_cells_grid by exact Hin.
  split; reflexivity.
Qed.

Lemma table_content_is_the_grid_of_its_cells_witness :
  get_table_content (fun _ => Py.lit "csv") Fixtures.spanning_table true
  = Ok (Csv (Py.lit "csv"))
  /\ get_table_content (fun _ => Py.lit "csv") Fixtures.spanning_table false
     = Ok (DataFrame [Py.lit "head"; Py.lit "head"] [[Py.lit "a"; Py.lit "c"]]).
Proof.
  apply (@table_content_is_the_grid_of_its_cells (fun _ => Py.lit "csv")
           Fixtures.spanning_table).
  repeat constructor; simpl; lia.
Defined.

End TableContentResults.

(** * The natural reading order *)

Section SortedByInteger.

Variable A : Type.

Lemma insert_by_key_sorted (k : Z) (x : A) (l : list (Z * A)) :
  StronglySorted (fun p q => (fst p <= fst q)%Z) l ->
  StronglySorted (fun p q => (fst p <= fst q)%Z)
    (azure_ocr_utils.insert_by_key Z.ltb k x l).
Proof.
  induction l as [| [k' x'] l IH]; intros Hs; simpl.
  - constructor; constructor.
  - inversion Hs as [| p l' Hl Hall]; subst.
    destruct (Z.ltb_spec k k') as [Hlt | Hge].
    + constructor; [exact Hs |]. constructor; [simpl; lia |].
      rewrite Forall_forall in *. intros q Hq. specialize (Hall q Hq).
      simpl in *. lia.
    + constructor; [exact (IH Hl) |].
      rewrite Forall_forall in *. intros q Hq.
      apply (Permutation_in _ (insert_by_key_perm Z.ltb k x l)) in Hq.
      destruct Hq as [<- | Hq]; [simpl; lia | exact (Hall q Hq)].
Qed.

Lemma sort_fold_sorted (keyed : list (Z * A)) :
  forall acc,
    StronglySorted (fun p q => (fst p <= fst q)%Z) acc ->
    StronglySorted (fun p q => (fst p <= fst q)%Z)
      (fold_left
         (fun acc kx =>
            azure_ocr_utils.insert_by_key Z.ltb (fst kx) (snd kx) acc)
         keyed acc).
Proof.
  induction keyed as [| kx keyed IH]; intros acc Hs; simpl; [exact Hs |].
  apply IH. apply insert_by_key_sorted. exact Hs.
Qed.

Lemma sorted_map_snd (key : A -> Z) (l : list (Z * A)) :
  (forall p, In p l -> fst p = key (snd p)) ->
  StronglySorted (fun p q => (fst p <= fst q)%Z) l ->
  StronglySorted (fun a b => (key a <= key b)%Z) (map snd l).
Proof.
  intros Hkey Hs. induction Hs as [| p l Hs IH Hall]; simpl; constructor.
  - apply IH. intros q Hq. apply Hkey. right. exact Hq.
  - rewrite Forall_forall in *. intros b Hb.
    apply in_map_iff in Hb. destruct Hb as [q [<- Hq]].
    rewrite <- (Hkey p (or_introl eq_refl)), <- (Hkey q (or_intror Hq)).
    exact (Hall q Hq).
Qed.

(** [sorted(xs, key=...)] with integer keys: the same elements, in the
    order of their keys. *)
Lemma sorted_by_integer_key (key : A -> result Z) (k : A -> Z) (xs : list A) :
  (forall x, In x xs -> key x = Ok (k x)) ->
  exists out,
    azure_ocr_utils.sorted_by Z.ltb key xs = Ok out
    /\ Permutation out xs
    /\ StronglySorted (fun a b => (k a <= k b)%Z) out.
Proof.
  intros Hkey. unfold azure_ocr_utils.sorted_by.
  rewrite (map_m_pure (fun x => kx <- key x ;; Ok (kx, x))
             (fun x => (k x, x))).
  2:{ intros x Hx. rewrite (Hkey x Hx). reflexivity. }
  simpl. eexists. split; [reflexivity |]. split.
  - rewrite sort_keyed_perm, map_map. simpl. rewrite map_id. reflexivity.
  - unfold azure_ocr_utils.sort_keyed. apply sorted_map_snd.
    + intros p Hp.
      apply (Permutation_in _ (sort_fold_perm Z.ltb _ [])) in Hp.
      rewrite app_nil_r in Hp. apply in_map_iff in Hp.
      destruct Hp as [x [<- _]]. reflexivity.
    + apply sort_fold_sorted. constructor.
Qed.

End SortedByInteger.

Section NaturalRows.

Import azure_ocr_utils.
Import AzureOCRDocumentConverter.

Lemma key_offset_of (obj : PageObject) :
  has_span (obj_spans obj) -> key_offset obj = Ok (offset_of obj).
Proof.
  intros Hs. unfold key_offset, offset_of.
  destruct (span0_hd Hs) as [s [Hs0 Hhd]]. rewrite Hs0. simpl.
  destruct (obj_spans obj); inversion Hhd; subst. reflexivity.
Qed.

Lemma by_offset_spec (objects : list PageObject) :
  (forall obj, In obj objects -> has_span (obj_spans obj)) ->
  sorted_by Z.ltb key_offset objects = Ok (by_offset objects)
  /\ Permutation (by_offset objects) objects
  /\ StronglySorted (fun a b => (offset_of a <= offset_of b)%Z)
       (by_offset objects).
Proof.
  intros Hs.
  destruct (@sorted_by_integer_key _ key_offset offset_of objects)
    as [out [Hout [Hperm Hsorted]]].
  { intros obj Hobj. apply key_offset_of. exact (Hs obj Hobj). }
  unfold by_offset. rewrite Hout. auto.
Qed.

(** Appending the objects of one page, one row each. *)
Lemma append_rows (pn : Z) (objects : list PageObject) :
  forall (rows : Dict.t (list (list PageObject))) (pn' : Z),
    Dict.get_default
      (fold_left (fun rows obj => dict_append rows pn [obj]) objects rows)
      pn' []
    = if (pn' =? pn)%Z
      then Dict.get_default rows pn [] ++ map (fun obj => [obj]) objects
      else Dict.get_default rows pn' [].
Proof.
  induction objects as [| obj objects IH]; intros rows pn'; simpl.
  - destruct (Z.eqb_spec pn' pn) as [-> | _];
      [rewrite app_nil_r |]; reflexivity.
  - rewrite IH, !dict_append_get, Z.eqb_refl.
    destruct (Z.eqb_spec pn' pn) as [-> | _]; [| reflexivity].
    rewrite <- app_assoc. reflexivity.
Qed.

Lemma natural_rows_loop (paragraphs_by_page : Dict.t (list PageObject))
  (pages : list DocumentPage.t) :
  (forall page obj,
      In page pages ->
      In obj (Dict.get_default paragraphs_by_page
                (DocumentPage.page_number page) []) ->
      has_span (obj_spans obj)) ->
  NoDup (map DocumentPage.page_number pages) ->
  forall rows,
    (forall page, In page pages ->
       Dict.get_default rows (DocumentPage.page_number page) [] = []) ->
    exists rows',
      for_each
        (fun rows_of_objects_by_page page =>
           let paragraphs_on_page :=
             Dict.get_default paragraphs_by_page
               (DocumentPage.page_number page) [] in
           sorted_objects_on_page <-
             sorted_by Z.ltb key_offset paragraphs_on_page ;;
           Ok (fold_left
                 (fun rows obj =>
                    dict_append rows (DocumentPage.page_number page) [obj])
                 sorted_objects_on_page rows_of_objects_by_page))
        pages rows = Ok rows'
      /\ forall page, In page pages ->
           Dict.get_default rows' (DocumentPage.page_number page) []
           = map (fun obj => [obj])
               (by_offset
                  (Dict.get_default paragraphs_by_page
                     (DocumentPage.page_number page) [])).
Proof.
  induction pages as [| page pages IH]; intros Hspans Hnd rows Hrows.
  - exists rows. split; [reflexivity | intros page []].
  - inversion Hnd as [| pn pns Hfresh Hnd']; subst.
    destruct (by_offset_spec
                (Dict.get_default paragraphs_by_page
                   (DocumentPage.page_number page) []))
      as [Hsorted _].
    { intros obj Hobj. exact (Hspans page obj (or_introl eq_refl) Hobj). }
    cbn [for_each]. cbv zeta. rewrite Hsorted. cbn [Py.bind].
    set (rows1 := fold_left _ _ rows).
    assert (Hget1 : forall pn',
               Dict.get_default rows1 pn' []
               = if (pn' =? DocumentPage.page_number page)%Z
                 then Dict.get_default rows (DocumentPage.page_number page) []
                      ++ map (fun obj => [obj])
                           (by_offset
                              (Dict.get_default paragraphs_by_page
                                 (DocumentPage.page_number page) []))
                 else Dict.get_default rows pn' [])
      by (intros pn'; apply append_rows).
    destruct (IH (fun p o Hp Ho => Hspans p o (or_intror Hp) Ho) Hnd' rows1)
      as [rows' [Hloop Hget]].
    { intros p Hp. rewrite Hget1.
      destruct (Z.eqb_spec (DocumentPage.page_number p)
                  (DocumentPage.page_number page)) as [E | _].
      - exfalso. apply Hfresh. rewrite <- E. apply in_map. exact Hp.
      - apply Hrows. right. exact Hp. }
    exists rows'. split; [exact Hloop |].
    intros p [<- | Hp]; [| exact (Hget p Hp)].
    assert (Hkeep : forall ps rws,
               ~ In (DocumentPage.page_number page)
                   (map DocumentPage.page_number ps) ->
               forall rws',
                 for_each
                   (fun rows_of_objects_by_page page0 =>
                      let paragraphs_on_page :=
                        Dict.get_default paragraphs_by_page
                          (DocumentPage.page_number page0) [] in
                      sorted_objects_on_page <-
                        sorted_by Z.ltb key_offset paragraphs_on_page ;;
                      Ok (fold_left
                            (fun rows0 obj =>
                               dict_append rows0
                                 (DocumentPage.page_number page0) [obj])
                            sorted_objects_on_page rows_of_objects_by_page))
                   ps rws = Ok rws' ->
                 Dict.get_default rws' (DocumentPage.page_number page) []
                 = Dict.get_default rws (DocumentPage.page_number page) []).
    { induction ps as [| q ps IHps]; intros rws Hq rws' Hfe.
      - inversion Hfe. reflexivity.
      - cbn [for_each] in Hfe. cbv zeta in Hfe.
        destruct (sorted_by Z.ltb key_offset
                    (Dict.get_default paragraphs_by_page
                       (DocumentPage.page_number q) []))
          as [sq | e]; [| discriminate].
        cbn [Py.bind] in Hfe.
        rewrite (IHps _ (fun H => Hq (or_intror H)) _ Hfe), append_rows.
        destruct (Z.eqb_spec (DocumentPage.page_number page)
                    (DocumentPage.page_number q)) as [E | _];
          [| reflexivity].
        exfalso. apply Hq. left. symmetry. exact E. }
    rewrite (Hkeep pages rows1 Hfresh rows' Hloop), Hget1, Z.eqb_refl.
    rewrite (Hrows page (or_introl eq_refl)). reflexivity.
Qed.

End NaturalRows.

Section NaturalOrderingResults.

Import azure_ocr_utils.
Import AzureOCRDocumentConverter.

Lemma one_object_rows (to_csv : list (list str) -> str)
  (objects : list PageObject) :
  flat_map (fun row => flat_map (object_text to_csv) row ++ [LF])
    (map (fun obj => [obj]) objects)
  = flat_map (fun obj => object_text to_csv obj ++ [LF]) objects.
Proof.
  induction objects as [| obj objects IH]; simpl; [reflexivity |].
  rewrite IH, app_nil_r. reflexivity.
Qed.

(** X14. The natural reading order puts one object on a line: when the
    pages of the result have different page numbers and every object left
    on a listed page has a span, [_extract_text_doc_with_natural_ordering]
    returns a document whose text is, page by page in the order of
    [result.pages] and joined by form feeds, the objects of the page by
    increasing offset of their first span, each followed by a newline. *)
Theorem natural_ordering_gives_one_line_per_object :
  forall (Client Secret : Type) (to_csv : list (list str) -> str)
         (rt : Runtime) (self : t Client Secret) (result : AnalyzeResult.t)
         (meta : Meta) (paragraphs_by_page : Dict.t (list PageObject)),
    NoDup (map DocumentPage.page_number (AnalyzeResult.pages result)) ->
    without_tables self (get_paragraphs_per_page result)
      (get_tables_per_page result) = Ok paragraphs_by_page ->
    (forall page obj,
        In page (AnalyzeResult.pages result) ->
        In obj (Dict.get_default paragraphs_by_page
                  (DocumentPage.page_number page) []) ->
        has_span (obj_spans obj) /\ writable to_csv obj) ->
    (forall page,
        In page (AnalyzeResult.pages result) ->
        Permutation
          (by_offset (Dict.get_default paragraphs_by_page
                        (DocumentPage.page_number page) []))
          (Dict.get_default paragraphs_by_page
             (DocumentPage.page_number page) [])
        /\ StronglySorted (fun a b => (offset_of a <= offset_of b)%Z)
             (by_offset (Dict.get_default paragraphs_by_page
                           (DocumentPage.page_number page) [])))
    /\ exists doc,
         _extract_text_doc_with_natural_ordering to_csv self result meta
         = Ok doc
         /\ Document.content doc
            = Some (Py.join [FF]
                      (map (fun page =>
                              flat_map
                                (fun obj => object_text to_csv obj ++ [LF])
                                (by_offset
                                   (Dict.get_default paragraphs_by_page
                                      (DocumentPage.page_number page) [])))
                         (AnalyzeResult.pages result))).
Proof.
  intros Client Secret to_csv rt self result meta d Hnd Hwt Hobj.
  assert (Hsorted : forall page,
             In page (AnalyzeResult.pages result) ->
             Permutation
               (by_offset (Dict.get_default d (DocumentPage.page_number page) []))
               (Dict.get_default d (DocumentPage.page_number page) [])
             /\ StronglySorted (fun a b => (offset_of a <= offset_of b)%Z)
                  (by_offset
                     (Dict.get_default d (DocumentPage.page_number page) []))).
  { intros page Hpage.
    apply by_offset_spec. intros obj Ho. exact (proj1 (Hobj page obj Hpage Ho)). }
  split; [exact Hsorted |].
  destruct (@natural_rows_loop d (AnalyzeResult.pages result)
              (fun p o Hp Ho => proj1 (Hobj p o Hp Ho)) Hnd [])
    as [rows [Hloop Hget]]; [reflexivity |].
  assert (Hrows : natural_rows_of d result = Ok rows) by exact Hloop.
  unfold _extract_text_doc_with_natural_ordering. cbv zeta.
  rewrite Hwt. cbn [Py.bind]. rewrite Hrows.
  cbn [Py.bind]. unfold construct_text_from_rows_of_objects_by_page.
  rewrite (map_m_pure (page_text_of to_csv rows)
             (fun page =>
                flat_map (fun obj => object_text to_csv obj ++ [LF])
                  (by_offset
                     (Dict.get_default d (DocumentPage.page_number page) [])))).
  - cbn [Py.bind]. eexists. split; reflexivity.
  - intros page Hpage. unfold page_text_of.
    rewrite (Hget page Hpage), add_rows_writable, one_object_rows;
      [reflexivity |].
    intros row obj Hrow Hin. apply in_map_iff in Hrow.
    destruct Hrow as [o [<- Ho]]. destruct Hin as [<- | []].
    apply (Permutation_in _ (proj1 (Hsorted page Hpage))) in Ho.
    exact (proj2 (Hobj page o Hpage Ho)).
Qed.

Lemma natural_ordering_gives_one_line_per_object_witness :
  exists doc,
    @_extract_text_doc_with_natural_ordering unit unit
      (fun _ => Py.lit "csv") Fixtures.plain_runtime Fixtures.separate_tables
      Fixtures.two_pages_of_paragraphs []
    = Ok doc
    /\ Document.content doc
       = Some (Py.lit "A" ++ [LF] ++ Py.lit "B" ++ [LF; FF] ++ Py.lit "C"
               ++ [LF]).
Proof.
  destruct (@natural_ordering_gives_one_line_per_object unit unit
              (fun _ => Py.lit "csv") Fixtures.plain_runtime
              Fixtures.separate_tables Fixtures.two_pages_of_paragraphs []
              [(1%Z, [Paragraph (Fixtures.paragraph_at "B" 1 5);
                      Paragraph (Fixtures.paragraph_at "A" 1 0)]);
               (2%Z, [Paragraph (Fixtures.paragraph_at "C" 2 9)])])
    as [_ H].
  - repeat constructor; simpl; intuition discriminate.
  - reflexivity.
  - intros page obj Hpage Hobj. simpl in Hpage.
    destruct Hpage as [<- | [<- | []]]; simpl in Hobj.
    + destruct Hobj as [<- | [<- | []]]; split; try exact I; discriminate.
    + destruct Hobj as [<- | []]; split; try exact I; discriminate.
  - exact H.
Defined.

End NaturalOrderingResults.

(** * Table documents *)

Section TableDocuments.

Import azure_ocr_utils.
Import AzureOCRDocumentConverter.

Lemma meta_get_set_other (m : Meta) (k k' : str) (v : PyVal) :
  k <> k' -> meta_get (meta_set m k v) k' = meta_get m k'.
Proof.
  intros Hne. induction m as [| [k0 v0] m IH]; simpl.
  - destruct (Py.eqb_str k k') eqn:E; [| reflexivity].
    apply eqb_str_eq in E. contradiction.
  - destruct (Py.eqb_str k0 k) eqn:E; simpl.
    + apply eqb_str_eq in E. subst k0.
      destruct (Py.eqb_str k k') eqn:E'; [| reflexivity].
      apply eqb_str_eq in E'. contradiction.
    + rewrite IH. reflexivity.
Qed.

Lemma slice_from_last {A} (n : Z) (l : list A) :
  (0 <= n)%Z ->
  Py.slice_from (- n) l
  = if (n =? 0)%Z then l else last_n (Z.to_nat n) l.
Proof.
  intros Hn. unfold Py.slice_from, Py.clamp, last_n, Py.len.
  destruct (Z.eqb_spec n 0) as [-> | Hne].
  - change (- 0 <? 0)%Z with false. cbv iota.
    rewrite Z.min_l by lia. reflexivity.
  - destruct (Z.ltb_spec (- n) 0); [| lia]. f_equal. lia.
Qed.

Lemma slice_to_first {A} (n : Z) (l : list A) :
  (0 <= n)%Z -> Py.slice_to n l = firstn (Z.to_nat n) l.
Proof.
  intros Hn. unfold Py.slice_to, Py.clamp, Py.len.
  destruct (Z.ltb_spec n 0); [lia |].
  destruct (Z.le_gt_cases n (Z.of_nat (List.length l))).
  - rewrite Z.min_l by lia. reflexivity.
  - rewrite Z.min_r by lia. rewrite Nat2Z.id.
    rewrite firstn_all, firstn_all2 by lia. reflexivity.
Qed.

(** The comprehension over the lines of a page. *)
Lemma lines_where_contents (test : Z -> bool) (page : DocumentPage.t) :
  Forall (fun line => has_span (DocumentLine.spans line)) (lines_of page) ->
  lines_where test (Some page) = Ok (contents_where test page).
Proof.
  unfold lines_where, contents_where, lines_of.
  destruct (DocumentPage.lines page) as [lines |]; [| reflexivity].
  intros Hspans.
  assert (Hall :
    map_m (fun line =>
             span <- span0 (DocumentLine.spans line) ;;
             Ok (test (DocumentSpan.offset span), DocumentLine.content line))
      lines
    = Ok (map (fun line => (test (offset_of (Line line)),
                            DocumentLine.content line)) lines)).
  { apply map_m_ok. induction Hspans as [| line lines Hs _ IH];
      constructor; [| exact IH].
    unfold offset_of. simpl.
    destruct (DocumentLine.spans line) as [| s ss]; [contradiction |].
    reflexivity. }
  destruct lines as [| line lines]; [reflexivity |].
  rewrite Hall. cbn [Py.bind]. f_equal.
  generalize (line :: lines). clear.
  induction l as [| x l IH]; [reflexivity |].
  cbn [map filter fst]. destruct (test (offset_of (Line x))); cbn [map snd];
    rewrite IH; reflexivity.
Qed.

Lemma table_content_grid (to_csv : list (list str) -> str)
  (table : DocumentTable.t) :
  Forall (in_grid table) (DocumentTable.cells table) ->
  get_table_content to_csv table true = Ok (Csv (to_csv (grid_of table)))
  /\ get_table_content to_csv table false
     = match grid_of table with
       | [] => Raise IndexError
       | columns :: data => Ok (DataFrame columns data)
       end.
Proof.
  intros Hin. unfold get_table_content.
  rewrite empty_grid, fill_cells_grid by exact Hin.
  split; reflexivity.
Qed.

Lemma new_document_fields (rt : Runtime) (content : option str) (meta : Meta) :
  Document.content (Document.new [] content None meta None None None) = content
  /\ Document.meta (Document.new [] content None meta None None None) = meta.
Proof. split; reflexivity. Qed.

End TableDocuments.

Section TableDocumentResults.

Import azure_ocr_utils.
Import AzureOCRDocumentConverter.

(** X15. The document made for a table in the CSV format, when the cells
    lie inside the grid, the pages of the first and the last bounding
    region are among the pages and their lines have spans: its content is
    the CSV of the grid; [preceding_context] is the stripped join of the
    last [preceding_context_len] lines of the first page that start before
    the table, and of all of them when the length is 0;
    [following_context] is the join of the first [following_context_len]
    lines of the last page that start after the first span of the table
    ends; [page] is the page of the first region; every other key is as in
    the metadata given. *)
Theorem table_document_holds_the_lines_around_the_table :
  forall (Client Secret : Type) (to_csv : list (list str) -> str)
         (rt : Runtime) (self : AzureOCRDocumentConverter.t Client Secret)
         (result : AnalyzeResult.t) (meta : Meta) (table : DocumentTable.t)
         (b : BoundingRegion.t) (regions : list BoundingRegion.t)
         (span : DocumentSpan.t) (spans : list DocumentSpan.t)
         (first_page last_page : DocumentPage.t),
    table_format self = Py.lit "csv" ->
    (0 <= preceding_context_len self)%Z ->
    (0 <= following_context_len self)%Z ->
    Forall (in_grid table) (DocumentTable.cells table) ->
    DocumentTable.bounding_regions table = Some (b :: regions) ->
    DocumentTable.spans table = span :: spans ->
    page_with_number result (BoundingRegion.page_number b) = Some first_page ->
    page_with_number result (BoundingRegion.page_number (last regions b))
    = Some last_page ->
    Forall (fun line => has_span (DocumentLine.spans line))
      (lines_of first_page) ->
    Forall (fun line => has_span (DocumentLine.spans line))
      (lines_of last_page) ->
    exists doc,
      table_document to_csv self result meta table = Ok doc
      /\ Document.content doc = Some (to_csv (grid_of table))
      /\ meta_get (Document.meta doc) (Py.lit "preceding_context")
         = Some (VStr
                   (Py.strip
                      (Py.join [LF]
                         (if (preceding_context_len self =? 0)%Z
                          then contents_where
                                 (fun offset =>
                                    (offset <? DocumentSpan.offset span)%Z)
                                 first_page
                          else last_n (Z.to_nat (preceding_context_len self))
                                 (contents_where
                                    (fun offset =>
                                       (offset <? DocumentSpan.offset span)%Z)
                                    first_page)))))
      /\ meta_get (Document.meta doc) (Py.lit "following_context")
         = Some (VStr
                   (Py.join [LF]
                      (firstn (Z.to_nat (following_context_len self))
                         (contents_where
                            (fun offset =>
                               (DocumentSpan.offset span
                                + DocumentSpan.length span <? offset)%Z)
                            last_page))))
      /\ meta_get (Document.meta doc) (Py.lit "page")
         = Some (VInt (BoundingRegion.page_number b))
      /\ forall key,
           key <> Py.lit "preceding_context" ->
           key <> Py.lit "following_context" ->
           key <> Py.lit "page" ->
           meta_get (Document.meta doc) key = meta_get meta key.
Proof.
  intros Client Secret to_csv rt self result meta table b regions span spans
    first_page last_page Hcsv Hp Hf Hgrid Hb Hs Hfirst Hlast Hl1 Hl2.
  assert (Hend :
    match regions with
    | [] => Ok (Some first_page)
    | _ :: _ =>
        page <- page_numbered result
                  (BoundingRegion.page_number (last regions b)) ;;
        Ok (Some page)
    end = Ok (Some last_page)).
  { destruct regions as [| r regions].
    - simpl in Hlast. congruence.
    - unfold page_numbered. fold (page_with_number result
        (BoundingRegion.page_number (last (r :: regions) b))).
      rewrite Hlast. reflexivity. }
  unfold table_document. rewrite Hcsv, eqb_str_refl.
  rewrite (proj1 (@table_content_grid to_csv table Hgrid)).
  cbn [Py.bind]. rewrite Hb, Hs.
  unfold page_numbered at 1.
  fold (page_with_number result (BoundingRegion.page_number b)). rewrite Hfirst.
  cbn [Py.bind]. change (span0 (span :: spans)) with (Ok span).
  cbn [Py.bind]. cbv zeta.
  rewrite (@lines_where_contents _ first_page Hl1). cbn [Py.bind].
  destruct regions as [| r regions];
    [injection Hend as -> | rewrite Hend]; cbn [Py.bind];
    rewrite (@lines_where_contents _ _ Hl2); cbn [Py.bind];
    (eexists; split; [reflexivity |]);
    unfold Document.new, Document.__post_init__;
    cbn [Document.id Document.meta Document.content];
    rewrite slice_from_last, slice_to_first by assumption;
    repeat split;
    try (intros key H1 H2 H3);
    rewrite ?meta_get_set_other by (congruence || discriminate);
    try apply meta_get_set_same; reflexivity.
Qed.

Lemma table_document_holds_the_lines_around_the_table_witness :
  exists doc,
    @table_document unit unit (fun _ => Py.lit "csv") Fixtures.plain_runtime
      Fixtures.no_context Fixtures.page_with_heading_and_table []
      Fixtures.table_on_page_1
    = Ok doc
    /\ Document.content doc = Some (Py.lit "csv")
    /\ meta_get (Document.meta doc) (Py.lit "preceding_context")
       = Some (VStr (Py.lit "Title" ++ [LF] ++ Py.lit "By"))
    /\ meta_get (Document.meta doc) (Py.lit "following_context")
       = Some (VStr [])
    /\ meta_get (Document.meta doc) (Py.lit "page") = Some (VInt 1).
Proof.
  destruct (@table_document_holds_the_lines_around_the_table unit unit
              (fun _ => Py.lit "csv") Fixtures.plain_runtime
              Fixtures.no_context Fixtures.page_with_heading_and_table []
              Fixtures.table_on_page_1
              (BoundingRegion.mk 1
                 (Some [Fixtures.point 0 1; Fixtures.point 1 1;
                        Fixtures.point 1 2; Fixtures.point 0 2]))
              [] (DocumentSpan.mk 8 10) []
              (DocumentPage.mk 1
                 (Some (Fixtures.line_of (Fixtures.line_at "Title" 0 0 0)
                        ++ Fixtures.line_of (Fixtures.line_at "By" 0 0.5 6)
                        ++ Fixtures.line_of (Fixtures.line_at "cell" 0 1 10)
                        ++ Fixtures.line_of (Fixtures.line_at "After" 0 3 30))))
              (DocumentPage.mk 1
                 (Some (Fixtures.line_of (Fixtures.line_at "Title" 0 0 0)
                        ++ Fixtures.line_of (Fixtures.line_at "By" 0 0.5 6)
                        ++ Fixtures.line_of (Fixtures.line_at "cell" 0 1 10)
                        ++ Fixtures.line_of (Fixtures.line_at "After" 0 3 30)))))
    as [doc [Hdoc [Hcontent [Hbefore [Hafter [Hpage _]]]]]];
    try reflexivity; try (simpl; lia);
    try (repeat constructor; simpl; try lia; discriminate).
  exists doc. repeat split; assumption.
Defined.

(** X16. Only the CSV format gives table documents: with any other
    [table_format] the turn of the loop raises for every table, at the
    latest when [Document] refuses a content that is not a string, so
    [converted_tables] raises as soon as the result has a table. *)
Theorem only_csv_tables_become_documents :
  forall (Client Secret : Type) (to_csv : list (list str) -> str)
         (rt : Runtime) (self : AzureOCRDocumentConverter.t Client Secret)
         (result : AnalyzeResult.t) (meta : Meta),
    table_format self <> Py.lit "csv" ->
    (forall table,
        exists e, table_document to_csv self result meta table = Raise e)
    /\ (AnalyzeResult.tables result <> [] ->
        exists e, converted_tables to_csv self result meta = Raise e).
Proof.
  intros Client Secret to_csv rt self result meta Hfmt.
  assert (Hone : forall table,
             exists e, table_document to_csv self result meta table = Raise e).
  { intros table. unfold table_document.
    destruct (Py.eqb_str (table_format self) (Py.lit "csv")) eqn:E;
      [apply eqb_str_eq in E; contradiction |].
    unfold get_table_content.
    destruct (for_each fill_cell (DocumentTable.cells table) _)
      as [[| columns data] | e]; cbn [Py.bind]; eauto.
    repeat match goal with
           | |- exists e, Py.bind ?m _ = Raise e =>
               destruct m; cbn [Py.bind]; eauto
           | |- exists e, (let x := _ in _) = Raise e => cbv zeta
           end. }
  split; [exact Hone |].
  intros Htables. unfold converted_tables.
  destruct (AnalyzeResult.tables result) as [| table tables];
    [contradiction |].
  destruct (Hone table) as [e He]. exists e.
  cbn [map_m]. rewrite He. reflexivity.
Qed.

Lemma only_csv_tables_become_documents_witness :
  exists e,
    @converted_tables unit unit (fun _ => Py.lit "csv") Fixtures.plain_runtime
      Fixtures.data_frames Fixtures.page_with_table []
    = Raise e.
Proof.
  apply (@only_csv_tables_become_documents unit unit (fun _ => Py.lit "csv")
           Fixtures.plain_runtime Fixtures.data_frames
           Fixtures.page_with_table []);
    discriminate.
Defined.

End TableDocumentResults.

(** * The order of the rows *)

Section FloatOrder.

Lemma compare_ranks_lt (a b : Z * Z * Z) :
  compare_ranks a b = Lt
  <-> (fst (fst a) < fst (fst b)
       \/ (fst (fst a) = fst (fst b)
           /\ (snd (fst a) < snd (fst b)
               \/ (snd (fst a) = snd (fst b) /\ snd a < snd b))))%Z.
Proof.
  unfold compare_ranks.
  destruct (Z.compare_spec (fst (fst a)) (fst (fst b)));
    destruct (Z.compare_spec (snd (fst a)) (snd (fst b)));
    destruct (Z.compare_spec (snd a) (snd b));
    split; intros; try discriminate; try reflexivity; lia.
Qed.

Lemma compare_ranks_gt (a b : Z * Z * Z) :
  compare_ranks a b = Gt <-> compare_ranks b a = Lt.
Proof.
  rewrite compare_ranks_lt. unfold compare_ranks.
  destruct (Z.compare_spec (fst (fst a)) (fst (fst b)));
    destruct (Z.compare_spec (snd (fst a)) (snd (fst b)));
    destruct (Z.compare_spec (snd a) (snd b));
    split; intros; try discriminate; try reflexivity; lia.
Qed.

Lemma compare_by_rank (f1 f2 : spec_float) :
  f1 <> S754_nan -> f2 <> S754_nan ->
  SFcompare f1 f2 = Some (compare_ranks (rank f1) (rank f2)).
Proof.
  intros H1 H2.
  destruct f1 as [s1 | s1 | | s1 m1 e1]; try contradiction;
    destruct f2 as [s2 | s2 | | s2 m2 e2]; try contradiction;
    try destruct s1; try destruct s2; try reflexivity.
  unfold SFcompare, rank, compare_ranks. cbn [fst snd].
  rewrite Z.compare_refl, Z.compare_opp, (Z.compare_antisym e1 e2).
  destruct (e1 ?= e2)%Z; reflexivity.
Qed.

Lemma number_not_nan (x : float) :
  PrimFloat.is_nan x = false -> Prim2SF x <> S754_nan.
Proof.
  unfold PrimFloat.is_nan. rewrite FloatAxioms.eqb_spec. intros H E.
  rewrite E in H. discriminate.
Qed.

Lemma compared_not_nan (f1 f2 : spec_float) (c : comparison) :
  SFcompare f1 f2 = Some c -> f1 <> S754_nan /\ f2 <> S754_nan.
Proof.
  destruct f1, f2; simpl; intros H; try discriminate; split; discriminate.
Qed.

Lemma ltb_lt (x y : float) :
  PrimFloat.ltb x y = true
  <-> SFcompare (Prim2SF x) (Prim2SF y) = Some Lt.
Proof.
  rewrite FloatAxioms.ltb_spec. unfold SFltb.
  destruct (SFcompare (Prim2SF x) (Prim2SF y)) as [[| |] |];
    split; intros; try discriminate; reflexivity.
Qed.

Lemma leb_not_gt (x y : float) :
  PrimFloat.leb x y = true
  <-> exists c, SFcompare (Prim2SF x) (Prim2SF y) = Some c /\ c <> Gt.
Proof.
  rewrite FloatAxioms.leb_spec. unfold SFleb.
  destruct (SFcompare (Prim2SF x) (Prim2SF y)) as [[| |] |]; split;
    try (intros _; eexists; split; [reflexivity | discriminate]);
    try reflexivity; try discriminate;
    intros [c [H Hc]]; try discriminate.
  inversion H; subst. contradiction.
Qed.

(** Below implies not above. *)
Lemma float_lt_le (x y : float) :
  PrimFloat.ltb x y = true -> PrimFloat.leb x y = true.
Proof.
  rewrite ltb_lt, leb_not_gt. intros H. exists Lt. split;
    [exact H | discriminate].
Qed.

(** Two numbers compare one way or the other. *)
Lemma float_not_lt_le (x y : float) :
  PrimFloat.is_nan x = false -> PrimFloat.is_nan y = false ->
  PrimFloat.ltb x y = false -> PrimFloat.leb y x = true.
Proof.
  intros Hx Hy Hlt. apply number_not_nan in Hx, Hy.
  apply leb_not_gt. rewrite (compare_by_rank Hy Hx).
  eexists. split; [reflexivity |]. intros Hgt.
  apply compare_ranks_gt in Hgt.
  assert (PrimFloat.ltb x y = true); [| congruence].
  apply ltb_lt. rewrite (compare_by_rank Hx Hy), Hgt. reflexivity.
Qed.

Lemma float_lt_le_trans (x y z : float) :
  PrimFloat.ltb x y = true -> PrimFloat.leb y z = true ->
  PrimFloat.leb x z = true.
Proof.
  rewrite ltb_lt, !leb_not_gt. intros Hxy [c [Hyz Hc]].
  destruct (compared_not_nan _ _ Hxy) as [Hx Hy].
  destruct (compared_not_nan _ _ Hyz) as [_ Hz].
  rewrite (compare_by_rank Hx Hy) in Hxy.
  rewrite (compare_by_rank Hy Hz) in Hyz.
  rewrite (compare_by_rank Hx Hz).
  exists Lt. split; [| discriminate]. f_equal.
  inversion Hxy as [Hlt]. inversion Hyz as [Hle]. clear Hxy Hyz.
  rewrite Hlt. apply compare_ranks_lt in Hlt. apply compare_ranks_lt.
  assert (Hn : compare_ranks (rank (Prim2SF z)) (rank (Prim2SF y)) <> Lt).
  { intros H. apply compare_ranks_gt in H. congruence. }
  rewrite compare_ranks_lt in Hn. lia.
Qed.

End FloatOrder.

Section OrderedSort.

Variables K A : Type.
Variable ltb : K -> K -> bool.
Variable le : K -> K -> Prop.
Variable proper : K -> Prop.

Hypothesis lt_le : forall a b, ltb a b = true -> le a b.
Hypothesis not_lt_le :
  forall a b, proper a -> proper b -> ltb a b = false -> le b a.
Hypothesis lt_le_trans : forall a b c, ltb a b = true -> le b c -> le a c.

Lemma insert_by_key_ordered (k : K) (x : A) (l : list (K * A)) :
  proper k -> Forall (fun p => proper (fst p)) l ->
  StronglySorted (fun p q => le (fst p) (fst q)) l ->
  StronglySorted (fun p q => le (fst p) (fst q))
    (azure_ocr_utils.insert_by_key ltb k x l).
Proof.
  intros Hk Hl Hs. induction Hs as [| [k' x'] l Hs IH Hall]; simpl.
  - constructor; constructor.
  - inversion Hl as [| ? ? Hk' Hl']; subst. simpl in Hk'.
    destruct (ltb k k') eqn:E.
    + constructor; [constructor; assumption |].
      constructor; [exact (lt_le E) |].
      rewrite Forall_forall in *. intros q Hq.
      exact (lt_le_trans E (Hall q Hq)).
    + constructor; [exact (IH Hl') |].
      rewrite Forall_forall in *. intros q Hq.
      apply (Permutation_in _ (insert_by_key_perm ltb k x l)) in Hq.
      destruct Hq as [<- | Hq]; [exact (not_lt_le Hk Hk' E) | exact (Hall q Hq)].
Qed.

Lemma sort_fold_ordered (keyed : list (K * A)) :
  Forall (fun p => proper (fst p)) keyed ->
  forall acc,
    Forall (fun p => proper (fst p)) acc ->
    StronglySorted (fun p q => le (fst p) (fst q)) acc ->
    StronglySorted (fun p q => le (fst p) (fst q))
      (fold_left
         (fun acc kx =>
            azure_ocr_utils.insert_by_key ltb (fst kx) (snd kx) acc)
         keyed acc).
Proof.
  induction 1 as [| kx keyed Hkx _ IH]; intros acc Hacc Hs; simpl;
    [exact Hs |].
  apply IH.
  - rewrite Forall_forall in *. intros q Hq.
    apply (Permutation_in _ (insert_by_key_perm ltb _ _ acc)) in Hq.
    destruct Hq as [<- | Hq]; [exact Hkx | exact (Hacc q Hq)].
  - apply insert_by_key_ordered; assumption.
Qed.

(** [sorted(xs, key=...)] that returns: the same elements, in the order of
    their keys. *)
Lemma sorted_by_ordered (key : A -> result K) (k : A -> K) (xs out : list A) :
  azure_ocr_utils.sorted_by ltb key xs = Ok out ->
  (forall x kx, In x xs -> key x = Ok kx -> kx = k x /\ proper kx) ->
  Permutation out xs /\ StronglySorted (fun a b => le (k a) (k b)) out.
Proof.
  unfold azure_ocr_utils.sorted_by. intros Hout Hkey.
  destruct (map_m (fun x => kx <- key x ;; Ok (kx, x)) xs) as [keyed | e]
    eqn:Hkeyed; [| discriminate].
  cbn [Py.bind] in Hout. inversion Hout; subst out. clear Hout.
  assert (Hk : keyed = map (fun x => (k x, x)) xs
               /\ Forall (fun p => proper (fst p)) keyed).
  { apply map_m_ok in Hkeyed. clear - Hkeyed Hkey.
    induction Hkeyed as [| x p xs keyed Hx _ IH]; [split; constructor |].
    destruct (key x) as [kx |] eqn:Ex; [| discriminate].
    cbn [Py.bind] in Hx. inversion Hx; subst p.
    destruct (Hkey x kx (or_introl eq_refl) Ex) as [-> Hp].
    destruct IH as [-> Hall].
    { intros y ky Hy. apply Hkey. right. exact Hy. }
    split; [reflexivity | constructor; assumption]. }
  destruct Hk as [-> Hproper]. split.
  - rewrite sort_keyed_perm, map_map. simpl. rewrite map_id. reflexivity.
  - unfold azure_ocr_utils.sort_keyed.
    pose proof (@sort_fold_ordered _ Hproper [] (Forall_nil _)
                  (SSorted_nil _)) as Hs.
    pose proof (sort_fold_perm ltb (map (fun x => (k x, x)) xs) []) as Hperm.
    rewrite app_nil_r in Hperm.
    set (sorted := fold_left _ _ _) in *.
    assert (Hfst : forall p, In p sorted -> fst p = k (snd p)).
    { intros p Hp. apply (Permutation_in _ Hperm) in Hp.
      apply in_map_iff in Hp. destruct Hp as [x [<- _]]. reflexivity. }
    clearbody sorted. clear - Hs Hfst.
    induction Hs as [| p l Hs IH Hall]; simpl; constructor.
    + apply IH. intros q Hq. apply Hfst. right. exact Hq.
    + rewrite Forall_forall in *. intros b Hb.
      apply in_map_iff in Hb. destruct Hb as [q [<- Hq]].
      rewrite <- (Hfst p (or_introl eq_refl)), <- (Hfst q (or_intror Hq)).
      exact (Hall q Hq).
Qed.

End OrderedSort.

Section RowOrder.

Import azure_ocr_utils.

Lemma index_in {A} (xs : list A) (i : Z) (x : A) :
  Py.index xs i = Ok x -> In x xs.
Proof.
  unfold Py.index.
  destruct ((if (i <? 0)%Z then (i + Py.len xs)%Z else i) <? 0)%Z;
    [discriminate |].
  destruct (nth_error xs _) as [y |] eqn:E; [| discriminate].
  intros H. inversion H; subst. exact (nth_error_In _ _ E).
Qed.

Lemma four_points_corner (obj : PageObject) (p : Point.t) :
  four_points obj -> polygon0 obj = Ok p -> p = corner obj.
Proof.
  intros [a [b [c [d H]]]]. unfold polygon0, corner. rewrite H.
  intros E. inversion E. reflexivity.
Qed.

(** [sorted(row_of_objects, key=lambda x: get_polygon(x)[0][0])]. *)
Lemma row_ordered_by_x (row out : list PageObject) :
  sorted_by PrimFloat.ltb key_x row = Ok out ->
  (forall obj, In obj row -> four_points obj /\ proper_corner obj) ->
  Permutation out row
  /\ StronglySorted
       (fun a b => PrimFloat.leb (corner_x a) (corner_x b) = true) out.
Proof.
  intros Hout Hrow.
  apply (@sorted_by_ordered float PageObject PrimFloat.ltb
           (fun a b => PrimFloat.leb a b = true)
           (fun a => PrimFloat.is_nan a = false)
           float_lt_le float_not_lt_le float_lt_le_trans
           key_x corner_x row out Hout).
  intros obj kx Hobj Hk. destruct (Hrow obj Hobj) as [Hfour [Hx _]].
  unfold key_x in Hk.
  destruct (polygon0 obj) as [p |] eqn:Hp; [| discriminate].
  inversion Hk; subst kx. rewrite (@four_points_corner obj p Hfour Hp).
  split; [reflexivity | exact Hx].
Qed.

(** [sorted(rows, key=lambda x: get_polygon(x[0])[0][1])]. *)
Lemma rows_ordered_by_y (rows out : list (list PageObject)) :
  sorted_by PrimFloat.ltb key_y rows = Ok out ->
  (forall row obj, In row rows -> In obj row ->
     four_points obj /\ proper_corner obj) ->
  Permutation out rows
  /\ StronglySorted
       (fun r r' => PrimFloat.leb (row_y r) (row_y r') = true) out.
Proof.
  intros Hout Hrows.
  apply (@sorted_by_ordered float (list PageObject) PrimFloat.ltb
           (fun a b => PrimFloat.leb a b = true)
           (fun a => PrimFloat.is_nan a = false)
           float_lt_le float_not_lt_le float_lt_le_trans
           key_y row_y rows out Hout).
  intros row ky Hrow Hk. unfold key_y in Hk.
  destruct row as [| obj row]; [discriminate |].
  change (Py.index (obj :: row) 0) with (Ok obj) in Hk. cbn [Py.bind] in Hk.
  destruct (Hrows _ obj Hrow (or_introl eq_refl)) as [Hfour [_ Hy]].
  destruct (polygon0 obj) as [p |] eqn:Hp; [| discriminate].
  inversion Hk; subst ky. simpl. rewrite (@four_points_corner obj p Hfour Hp).
  split; [reflexivity | exact Hy].
Qed.

(** Both sorts of a page. *)
Lemma sort_page_ordered (rows out : list (list PageObject)) :
  sort_page rows = Ok out ->
  (forall row obj, In row rows -> In obj row ->
     four_points obj /\ proper_corner obj) ->
  Forall (StronglySorted
            (fun a b => PrimFloat.leb (corner_x a) (corner_x b) = true)) out
  /\ StronglySorted
       (fun r r' => PrimFloat.leb (row_y r) (row_y r') = true) out.
Proof.
  unfold sort_page. intros Hout Hrows.
  destruct (map_m (sorted_by PrimFloat.ltb key_x) rows) as [by_x | e] eqn:Hx;
    [| discriminate].
  cbn [Py.bind] in Hout. apply map_m_ok in Hx.
  assert (Hby_x : forall row, In row by_x ->
            StronglySorted
              (fun a b => PrimFloat.leb (corner_x a) (corner_x b) = true) row
            /\ forall obj, In obj row -> four_points obj /\ proper_corner obj).
  { intros row Hrow.
    destruct (@Forall2_In_r _ _ _ _ _ row Hx Hrow) as [row0 [Hrow0 Hsorted]].
    destruct (@row_ordered_by_x row0 row Hsorted
                (fun obj => Hrows row0 obj Hrow0))
      as [Hperm Hs].
    split; [exact Hs |]. intros obj Hobj.
    exact (Hrows row0 obj Hrow0 (Permutation_in _ Hperm Hobj)). }
  destruct (@rows_ordered_by_y by_x out Hout
              (fun row obj Hrow => proj2 (Hby_x row Hrow) obj))
    as [Hperm Hs].
  split; [| exact Hs].
  apply Forall_forall. intros row Hrow.
  exact (proj1 (Hby_x row (Permutation_in _ Hperm Hrow))).
Qed.

Lemma rows_of_page_ordered (threshold_y : float) (objects : list PageObject)
  (rows : list (list PageObject)) :
  (forall obj, In obj objects -> four_points obj /\ proper_corner obj) ->
  rows_of_page threshold_y objects = Ok rows ->
  Forall (StronglySorted
            (fun a b => PrimFloat.leb (corner_x a) (corner_x b) = true)) rows
  /\ StronglySorted
       (fun r r' => PrimFloat.leb (row_y r) (row_y r') = true) rows.
Proof.
  intros Hobjects. unfold rows_of_page. intros Hrows.
  destruct (pairs_of_page threshold_y objects) as [pairs | e];
    [| discriminate].
  cbn [Py.bind] in Hrows.
  destruct (map_m (objects_in_row objects) _) as [rows0 | e] eqn:Hrows0;
    [| discriminate].
  cbn [Py.bind] in Hrows. apply map_m_ok in Hrows0.
  apply (@sort_page_ordered rows0 rows Hrows).
  intros row obj Hrow Hobj. apply Hobjects.
  destruct (@Forall2_In_r _ _ _ _ _ row Hrows0 Hrow) as [c [_ Hc]].
  unfold objects_in_row in Hc. apply map_m_ok in Hc.
  destruct (@Forall2_In_r _ _ _ _ _ obj Hc Hobj) as [i [_ Hi]].
  exact (@index_in _ objects _ obj Hi).
Qed.

End RowOrder.

Section RowOrderResults.

Import azure_ocr_utils.

(** X17. The rows of a page read from left to right and from top to
    bottom: when the page numbers differ and every object has a polygon of
    four points whose first point has numbers as coordinates,
    [get_rows_of_objects_by_page] returns, and on every page the objects of
    each row are in the order of the x values of their upper-left corners,
    and the rows are in the order of the y values of the upper-left corners
    of their first objects. *)
Theorem rows_read_left_to_right_and_top_to_bottom :
  forall (threshold_y : float) (objects_by_page : Dict.t (list PageObject)),
    NoDup (Dict.keys objects_by_page) ->
    (forall pn objs obj,
        In (pn, objs) objects_by_page -> In obj objs ->
        four_points obj /\ proper_corner obj) ->
    exists rows_by_page,
      get_rows_of_objects_by_page objects_by_page threshold_y = Ok rows_by_page
      /\ forall pn rows,
           In (pn, rows) rows_by_page ->
           Forall (StronglySorted
                     (fun a b =>
                        PrimFloat.leb (corner_x a) (corner_x b) = true)) rows
           /\ StronglySorted
                (fun r r' => PrimFloat.leb (row_y r) (row_y r') = true) rows.
Proof.
  intros threshold_y d Hnd Hobjects.
  destruct (@pages_total threshold_y d) as [R HF].
  { intros [pn objs] Hin. simpl.
    assert (Hfour : Forall four_points objs).
    { apply Forall_forall. intros obj Hobj.
      exact (proj1 (Hobjects pn objs obj Hin Hobj)). }
    destruct (rows_of_page_spec threshold_y Hfour) as [idx [E _]]. eauto. }
  exists R. split; [apply get_rows_pagewise; assumption |].
  intros pn rows Hin.
  destruct (@Forall2_In_r _ _ _ _ _ (pn, rows) HF Hin) as [[pn' objs] [Hd [_ Hrows]]].
  simpl in Hrows.
  exact (@rows_of_page_ordered threshold_y objs rows (fun obj => Hobjects pn' objs obj Hd)
           Hrows).
Qed.

Lemma rows_read_left_to_right_and_top_to_bottom_witness :
  exists rows_by_page,
    get_rows_of_objects_by_page
      [(1%Z, [Fixtures.line_at "right" 2 1 0; Fixtures.line_at "low" 0 5 6;
              Fixtures.line_at "left" 1 1.01 10])]
      0.05
    = Ok rows_by_page
    /\ forall pn rows,
         In (pn, rows) rows_by_page ->
         Forall (StronglySorted
                   (fun a b =>
                      PrimFloat.leb (corner_x a) (corner_x b) = true)) rows
         /\ StronglySorted
              (fun r r' => PrimFloat.leb (row_y r) (row_y r') = true) rows.
Proof.
  apply rows_read_left_to_right_and_top_to_bottom.
  - repeat constructor; simpl; intuition discriminate.
  - intros pn objs obj [E | []] Hobj. inversion E; subst. simpl in Hobj.
    destruct Hobj as [<- | [<- | [<- | []]]];
      (split; [unfold four_points; simpl; eauto | split; reflexivity]).
Defined.

End RowOrderResults.

(** * The lines of a page *)

Section LinesPerPage.

Import azure_ocr_utils.

Lemma find_in_app {A} (f : A -> bool) (l l' : list A) :
  find f (l ++ l')
  = match find f l with
    | Some x => Some x
    | None => find f l'
    end.
Proof.
  induction l as [| x l IH]; simpl; [reflexivity |].
  destruct (f x); [reflexivity | exact IH].
Qed.

Lemma lines_fold (pages : list DocumentPage.t) :
  forall (d : Dict.t (list PageObject)) (n : Z),
    Dict.get
      (fold_left
         (fun lines_by_page page =>
            let lines :=
              match DocumentPage.lines page with
              | Some l => l
              | None => []
              end in
            Dict.set lines_by_page (DocumentPage.page_number page)
              (map Line lines))
         pages d) n
    = match find (fun page => (DocumentPage.page_number page =? n)%Z)
              (rev pages) with
      | Some page => Some (map Line (lines_of page))
      | None => Dict.get d n
      end.
Proof.
  induction pages as [| page pages IH]; intros d n; [reflexivity |].
  cbn [fold_left rev]. rewrite IH, find_in_app.
  destruct (find _ (rev pages)); [reflexivity |].
  cbn [find]. destruct (Z.eqb_spec (DocumentPage.page_number page) n)
    as [<- | Hne].
  - rewrite dict_get_set_same. reflexivity.
  - rewrite dict_get_set_other by congruence. reflexivity.
Qed.

End LinesPerPage.

Section LinesPerPageResults.

Import azure_ocr_utils.

(** X18. [get_lines_per_page] has a key for every page number of the
    result, also for a page without lines, which gets the empty list; of
    several pages with one number the lines of the last one stay. *)
Theorem lines_per_page_are_those_of_the_last_page_of_a_number :
  forall (result : AnalyzeResult.t) (n : Z),
    Dict.get (get_lines_per_page result) n
    = option_map (fun page => map Line (lines_of page))
        (find (fun page => (DocumentPage.page_number page =? n)%Z)
           (rev (AnalyzeResult.pages result))).
Proof.
  intros result n. unfold get_lines_per_page.
  rewrite lines_fold.
  destruct (find _ (rev (AnalyzeResult.pages result))); reflexivity.
Qed.

End LinesPerPageResults.

(** * The text of the single-column layout *)

Section TextObjects.

Import azure_ocr_utils.

(** The lines grouped by page are lines. *)
Lemma lines_per_page_are_lines (result : AnalyzeResult.t) (pn : Z)
  (objs : list PageObject) (obj : PageObject) :
  In (pn, objs) (get_lines_per_page result) -> In obj objs ->
  exists line, obj = Line line.
Proof.
  intros Hin Hobj.
  apply (@dict_get_in _ _ pn objs (get_lines_per_page_nodup result)) in Hin.
  unfold get_lines_per_page in Hin. rewrite lines_fold in Hin.
  destruct (find _ (rev (AnalyzeResult.pages result))) as [page |];
    [| discriminate].
  inversion Hin; subst objs. apply in_map_iff in Hobj.
  destruct Hobj as [line [<- _]]. eauto.
Qed.

(** The paragraphs grouped by page are paragraphs. *)
Lemma paragraphs_per_page_are_paragraphs (result : AnalyzeResult.t) (pn : Z)
  (objs : list PageObject) (obj : PageObject) :
  In (pn, objs) (get_paragraphs_per_page result) -> In obj objs ->
  exists paragraph, obj = Paragraph paragraph.
Proof.
  intros Hin Hobj.
  destruct (@group_fold _ _ DocumentParagraph.bounding_regions Paragraph
              (AnalyzeResult.paragraphs result) [] [])
    as [_ [Hperm _]];
    try (constructor; fail); try (intros; contradiction).
  simpl in Hperm.
  assert (Hall : In obj (List.concat
                           (map snd (get_paragraphs_per_page result)))).
  { apply in_concat. exists objs. split; [| exact Hobj].
    apply in_map_iff. exists (pn, objs). split; [reflexivity | exact Hin]. }
  apply (Permutation_in _ Hperm) in Hall. apply in_map_iff in Hall.
  destruct Hall as [paragraph [<- _]]. eauto.
Qed.

End TextObjects.

Section SingleColumnResults.

Import azure_ocr_utils.
Import AzureOCRDocumentConverter.

(** X19. The text document of the single-column layouts when tables are
    extracted separately, for lines or paragraphs that have a span and a
    polygon of four points with numbers in the first: the call returns a
    document with the metadata given; a text object of a page is in a row
    of that page exactly when its offset lies in no table of the page; the
    objects of a row are in the order of their x values and the rows in the
    order of the y values of their first objects; and the content is, page
    after page of [result.pages] with form feeds between, the rows of the
    page, each the texts of its objects with nothing between them and a
    newline at the end. *)
Theorem single_column_text_is_the_kept_objects_in_reading_order :
  forall (Client Secret : Type) (to_csv : list (list str) -> str)
         (rt : Runtime) (self : AzureOCRDocumentConverter.t Client Secret)
         (result : AnalyzeResult.t) (object_type : str) (meta : Meta)
         (threshold_y : float),
    extract_tables_separately self = true ->
    let tables_by_page := get_tables_per_page result in
    let objects_by_page :=
      if Py.eqb_str object_type (Py.lit "line")
      then get_lines_per_page result
      else get_paragraphs_per_page result in
    (forall pn tables, In (pn, tables) tables_by_page ->
       Forall (fun t => has_span (DocumentTable.spans t)) tables) ->
    (forall pn objs obj, In (pn, objs) objects_by_page -> In obj objs ->
       has_span (obj_spans obj) /\ four_points obj /\ proper_corner obj) ->
    exists rows_by_page doc,
      _extract_text_doc_with_single_column_ordering to_csv self result
        object_type meta threshold_y = Ok doc
      /\ Document.meta doc = meta
      /\ Document.content doc
         = Some (Py.join [FF]
                   (map (fun page =>
                           flat_map
                             (fun row =>
                                flat_map (object_text to_csv) row ++ [LF])
                             (Dict.get_default rows_by_page
                                (DocumentPage.page_number page) []))
                      (AnalyzeResult.pages result)))
      /\ (forall pn obj,
            (exists row,
               In row (Dict.get_default rows_by_page pn []) /\ In obj row)
            <-> In obj (Dict.get_default objects_by_page pn [])
                /\ in_a_table (Dict.get_default tables_by_page pn []) obj
                   = false)
      /\ forall pn,
           Forall (StronglySorted
                     (fun a b =>
                        PrimFloat.leb (corner_x a) (corner_x b) = true))
             (Dict.get_default rows_by_page pn [])
           /\ StronglySorted
                (fun r r' => PrimFloat.leb (row_y r) (row_y r') = true)
                (Dict.get_default rows_by_page pn []).
Proof.
  intros Client Secret to_csv rt self result object_type meta threshold_y
    Hsep tables_by_page objects_by_page Htables Hobjects.
  assert (Hnd : NoDup (Dict.keys objects_by_page)).
  { unfold objects_by_page. destruct (Py.eqb_str object_type (Py.lit "line"));
      [apply get_lines_per_page_nodup | apply get_paragraphs_per_page_nodup]. }
  assert (Htext : forall pn objs obj,
             In (pn, objs) objects_by_page -> In obj objs ->
             writable to_csv obj).
  { unfold objects_by_page. intros pn objs obj Hin Hobj.
    destruct (Py.eqb_str object_type (Py.lit "line")).
    - destruct (@lines_per_page_are_lines result pn objs obj Hin Hobj) as [l ->].
      exact I.
    - destruct (@paragraphs_per_page_are_paragraphs result pn objs obj Hin Hobj)
        as [p ->].
      exact I. }
  destruct (@remove_objects_spec tables_by_page Htables objects_by_page)
    as [kept [Ek [_ [Hfrom Hget]]]].
  { intros pn objs Hin. apply Forall_forall. intros obj Hobj.
    exact (proj1 (Hobjects pn objs obj Hin Hobj)). }
  destruct (Hget Hnd) as [Hnd' Hlook].
  assert (Hkept : forall pn objs obj,
             In (pn, objs) kept -> In obj objs ->
             (four_points obj /\ proper_corner obj) /\ writable to_csv obj).
  { intros pn objs obj Hin Hobj.
    destruct (Hfrom pn objs Hin) as [all [Hall ->]].
    unfold kept_on in Hobj. apply filter_In in Hobj.
    destruct Hobj as [Hobj _].
    split; [exact (proj2 (Hobjects pn all obj Hall Hobj))
           | exact (Htext pn all obj Hall Hobj)]. }
  destruct (@rows_members threshold_y kept Hnd') as [R [ER Hmem]].
  { intros pn objs Hin. apply Forall_forall. intros obj Hobj.
    exact (proj1 (proj1 (Hkept pn objs obj Hin Hobj))). }
  assert (Hrows : single_column_rows self result object_type threshold_y
                  = Ok R).
  { unfold single_column_rows, without_tables.
    rewrite Hsep. fold tables_by_page. fold objects_by_page.
    rewrite Ek. exact ER. }
  assert (Hin_rows : forall pn row obj,
             In row (Dict.get_default R pn []) -> In obj row ->
             In obj (Dict.get_default kept pn [])).
  { intros pn row obj Hrow Hobj. apply Hmem. eauto. }
  assert (Hin_kept : forall pn obj,
             In obj (Dict.get_default kept pn []) ->
             (four_points obj /\ proper_corner obj) /\ writable to_csv obj).
  { intros pn obj Hobj. unfold Dict.get_default in Hobj.
    destruct (Dict.get kept pn) as [objs |] eqn:Eg; [| destruct Hobj].
    exact (Hkept pn objs obj (@dict_get_some_in _ kept pn objs Eg) Hobj). }
  exists R. eexists. split; [| split; [| split; [| split]]].
  - unfold _extract_text_doc_with_single_column_ordering.
    rewrite Hrows. cbn [Py.bind].
    unfold construct_text_from_rows_of_objects_by_page.
    rewrite (map_m_pure (page_text_of to_csv R)
               (fun page =>
                  flat_map
                    (fun row => flat_map (object_text to_csv) row ++ [LF])
                    (Dict.get_default R (DocumentPage.page_number page) []))).
    + cbn [Py.bind]. reflexivity.
    + intros page _. unfold page_text_of.
      rewrite add_rows_writable; [reflexivity |].
      intros row obj Hrow Hobj.
      exact (proj2 (Hin_kept _ obj (Hin_rows _ row obj Hrow Hobj))).
  - reflexivity.
  - reflexivity.
  - intros pn obj. rewrite Hmem, Hlook. unfold kept_on.
    rewrite filter_In, negb_true_iff. tauto.
  - intros pn. unfold Dict.get_default.
    destruct (Dict.get R pn) as [rows |] eqn:Eg;
      [| split; constructor].
    apply dict_get_some_in in Eg.
    destruct (@pages_total threshold_y kept) as [R' HF].
    { intros [pn' objs] Hin. simpl.
      assert (Hfour : Forall four_points objs).
      { apply Forall_forall. intros o Ho.
        exact (proj1 (proj1 (Hkept pn' objs o Hin Ho))). }
      destruct (rows_of_page_spec threshold_y Hfour) as [idx [E _]]. eauto. }
    pose proof (@get_rows_pagewise threshold_y kept R' Hnd' HF) as ER'.
    assert (R' = R) by congruence. subst R'.
    destruct (@Forall2_In_r _ _ _ _ _ (pn, rows) HF Eg)
      as [[pn' objs] [Hd [_ Hr]]].
    simpl in Hr.
    exact (@rows_of_page_ordered threshold_y objs rows
             (fun o Ho => proj1 (Hkept pn' objs o Hd Ho)) Hr).
Qed.

Lemma single_column_text_is_the_kept_objects_in_reading_order_witness :
  exists doc,
    @_extract_text_doc_with_single_column_ordering unit unit
      (fun _ => Py.lit "csv") Fixtures.plain_runtime Fixtures.separate_tables
      Fixtures.page_with_table (Py.lit "line") [] 0.05
    = Ok doc
    /\ Document.content doc
       = Some (Py.lit "Title" ++ [LF] ++ Py.lit "After" ++ [LF]).
Proof.
  destruct (@single_column_text_is_the_kept_objects_in_reading_order
              unit unit (fun _ => Py.lit "csv") Fixtures.plain_runtime
              Fixtures.separate_tables Fixtures.page_with_table
              (Py.lit "line") [] 0.05)
    as [rows [doc [Hdoc _]]].
  - reflexivity.
  - intros pn tables [E | []]. inversion E; subst.
    repeat constructor. discriminate.
  - intros pn objs obj [E | []] Hobj. inversion E; subst. simpl in Hobj.
    destruct Hobj as [<- | [<- | [<- | []]]];
      (split; [discriminate
              | split; [unfold four_points; simpl; eauto
                       | split; reflexivity]]).
  - exists doc. split; [exact Hdoc |].
    vm_compute in Hdoc. inversion Hdoc. reflexivity.
Defined.

End SingleColumnResults.

(** * Table exclusion, from the analysis result (C3) *)

Section GroupedExactly.

Import azure_ocr_utils.

Variables X V : Type.
Variable regions : X -> option (list BoundingRegion.t).
Variable val : X -> V.

(** The loop that groups by page, when every object has a bounding region:
    page [pn] gets, after what it held, the objects that begin on it, in
    their order. *)
Lemma group_fold_exact (xs : list X) :
  (forall x, In x xs -> exists region rest, regions x = Some (region :: rest)) ->
  forall (d : Dict.t (list V)) (pn : Z),
    Dict.get_default (fold_left (group_step regions val) xs d) pn []
    = Dict.get_default d pn []
      ++ map val (filter (fun x => begins_on pn (regions x)) xs).
Proof.
  induction xs as [| x xs IH]; intros Hregions d pn; cbn [fold_left].
  - cbn [filter map]. rewrite app_nil_r. reflexivity.
  - rewrite IH by (intros y Hy; apply Hregions; right; exact Hy).
    destruct (Hregions x (or_introl eq_refl)) as [region [rest Hx]].
    unfold group_step, page_of. rewrite Hx, dict_append_get.
    cbn [filter]. unfold begins_on at 2, first_page. rewrite Hx.
    rewrite (Z.eqb_sym (BoundingRegion.page_number region) pn).
    destruct (pn =? BoundingRegion.page_number region)%Z eqn:E.
    + apply Z.eqb_eq in E. subst pn. cbn [map]. rewrite <- app_assoc.
      reflexivity.
    + reflexivity.
Qed.

End GroupedExactly.

Section ObjectsOfPages.

Import azure_ocr_utils.

Variable result : AnalyzeResult.t.

Lemma tables_per_page_exact (pn : Z) :
  (forall t, In t (AnalyzeResult.tables result) ->
     exists region rest,
       DocumentTable.bounding_regions t = Some (region :: rest)) ->
  Dict.get_default (get_tables_per_page result) pn [] = tables_on result pn.
Proof.
  intros H. unfold tables_on.
  rewrite <- (map_id (filter _ (AnalyzeResult.tables result))).
  exact (@group_fold_exact _ _ DocumentTable.bounding_regions (fun t => t)
           (AnalyzeResult.tables result) H [] pn).
Qed.

Lemma paragraphs_per_page_exact (pn : Z) :
  (forall p, In p (AnalyzeResult.paragraphs result) ->
     exists region rest,
       DocumentParagraph.bounding_regions p = Some (region :: rest)) ->
  Dict.get_default (get_paragraphs_per_page result) pn []
  = paragraphs_on result pn.
Proof.
  intros H.
  exact (@group_fold_exact _ _ DocumentParagraph.bounding_regions Paragraph
           (AnalyzeResult.paragraphs result) H [] pn).
Qed.

Lemma lines_per_page_exact (pn : Z) :
  Dict.get_default (get_lines_per_page result) pn [] = lines_on result pn.
Proof.
  unfold Dict.get_default, get_lines_per_page, lines_on.
  rewrite lines_fold.
  destruct (find _ (rev (AnalyzeResult.pages result))); reflexivity.
Qed.

Lemma lines_on_are_lines (pn : Z) (obj : PageObject) :
  In obj (lines_on result pn) ->
  In obj (flat_map (fun page => map Line (lines_of page))
            (AnalyzeResult.pages result)).
Proof.
  unfold lines_on.
  destruct (find _ (rev (AnalyzeResult.pages result))) as [page |] eqn:E;
    [| intros []].
  apply find_some in E. destruct E as [Hpage _]. apply in_rev in Hpage.
  intros Hobj. apply in_flat_map. exists page. split; assumption.
Qed.

Lemma entry_is_lookup {W} (d : Dict.t (list W)) (pn : Z) (objs : list W) :
  NoDup (Dict.keys d) -> In (pn, objs) d -> Dict.get_default d pn [] = objs.
Proof.
  intros Hnd Hin. unfold Dict.get_default.
  rewrite (@dict_get_in _ d pn objs Hnd Hin). reflexivity.
Qed.

End ObjectsOfPages.

(** C3 fails on the code for a table that reaches a page through a later
    bounding region: the table over pages 1 and 2 has the span [8, 18] and
    is grouped under page 1 alone, so the line "cellB" of page 2, whose
    offset 15 lies in the span, stays in a row and in the text. *)
Lemma table_of_a_later_region_removes_nothing :
  touches 2 (DocumentTable.bounding_regions Fixtures.table_over_two_pages)
  = true
  /\ inside_table Fixtures.table_over_two_pages
       (Fixtures.line_at "cellB" 0 0 15) = true
  /\ In (Fixtures.line_at "cellB" 0 0 15)
       (lines_on Fixtures.two_pages_under_a_table 2)
  /\ AzureOCRDocumentConverter.single_column_rows Fixtures.separate_tables
       Fixtures.two_pages_under_a_table (Py.lit "line") 0.05
     = Ok [(1%Z, [[Fixtures.line_at "Title" 0 0 0]]);
           (2%Z, [[Fixtures.line_at "cellB" 0 0 15];
                  [Fixtures.line_at "After" 0 3 30]])]
  /\ (forall (rt : Runtime) (to_csv : list (list str) -> str),
        exists doc,
          AzureOCRDocumentConverter._extract_text_doc_with_single_column_ordering
            to_csv Fixtures.separate_tables Fixtures.two_pages_under_a_table
            (Py.lit "line") [] 0.05 = Ok doc
          /\ Document.content doc
             = Some (Py.lit "Title" ++ [LF; FF] ++ Py.lit "cellB" ++ [LF]
                     ++ Py.lit "After" ++ [LF])).
Proof.
  repeat split; try reflexivity.
  - left. reflexivity.
  - intros. eexists. split; reflexivity.
Qed.

(** C3, as the code has it. When tables are extracted separately, a table
    counts for the page its first bounding region is on. With a bounding
    region and a span on every table, and a span and a polygon of four
    points on every text object: on every page a text object is removed
    before the rows are formed, and is in no row that is assembled, exactly
    when its offset lies in the span of a table that begins on that page,
    both ends included; every other text object of the page is kept, in its
    place, and is in a row. A table and an object are located by their
    first spans. *)
Theorem objects_in_tables_are_excluded :
  forall (Client Secret : Type)
         (self : AzureOCRDocumentConverter.t Client Secret)
         (result : AnalyzeResult.t) (object_type : str) (threshold_y : float),
    AzureOCRDocumentConverter.extract_tables_separately self = true ->
    (forall t, In t (AnalyzeResult.tables result) ->
       has_span (DocumentTable.spans t)
       /\ exists region rest,
            DocumentTable.bounding_regions t = Some (region :: rest)) ->
    (forall obj, In obj (text_objects result object_type) ->
       has_span (obj_spans obj) /\ four_cornered obj) ->
    exists kept rows_by_page,
      azure_ocr_utils.remove_objects_contained_within_tables
        (if Py.eqb_str object_type (Py.lit "line")
         then azure_ocr_utils.get_lines_per_page result
         else azure_ocr_utils.get_paragraphs_per_page result)
        (azure_ocr_utils.get_tables_per_page result)
      = Ok kept
      /\ (forall pn,
            Dict.get_default kept pn []
            = filter (fun obj => negb (in_a_table (tables_on result pn) obj))
                (text_objects_on result object_type pn))
      /\ AzureOCRDocumentConverter.single_column_rows self result object_type
           threshold_y = Ok rows_by_page
      /\ forall pn obj,
           (exists row,
              In row (Dict.get_default rows_by_page pn []) /\ In obj row)
           <-> In obj (text_objects_on result object_type pn)
               /\ in_a_table (tables_on result pn) obj = false.
Proof.
  intros Client Secret self result object_type threshold_y Hsep Htables
    Hobjects.
  assert (Hregions : forall t, In t (AnalyzeResult.tables result) ->
            exists region rest,
              DocumentTable.bounding_regions t = Some (region :: rest)).
  { intros t Ht. exact (proj2 (Htables t Ht)). }
  assert (Htab : forall pn,
            Dict.get_default (azure_ocr_utils.get_tables_per_page result) pn []
            = tables_on result pn).
  { intros pn. apply tables_per_page_exact. exact Hregions. }
  assert (Hobj : forall pn,
            Dict.get_default
              (if Py.eqb_str object_type (Py.lit "line")
               then azure_ocr_utils.get_lines_per_page result
               else azure_ocr_utils.get_paragraphs_per_page result) pn []
            = text_objects_on result object_type pn
            /\ incl (text_objects_on result object_type pn)
                 (text_objects result object_type)).
  { intros pn. unfold text_objects_on, text_objects in *.
    destruct (Py.eqb_str object_type (Py.lit "line")).
    - split; [apply lines_per_page_exact |].
      intros obj. apply lines_on_are_lines.
    - split.
      + apply paragraphs_per_page_exact. intros p Hp.
        destruct (Hobjects (Paragraph p) (in_map Paragraph _ _ Hp))
          as [_ [a [b [c [d Hpoly]]]]].
        simpl in Hpoly.
        destruct (DocumentParagraph.bounding_regions p) as [[| r rs] |];
          try discriminate.
        eauto.
      + intros obj Hin. unfold paragraphs_on in Hin.
        apply in_map_iff in Hin. destruct Hin as [p [<- Hp]].
        apply filter_In in Hp. apply in_map. tauto. }
  assert (Hnd_t : NoDup (Dict.keys (azure_ocr_utils.get_tables_per_page result))).
  { destruct (@group_fold _ _ DocumentTable.bounding_regions (fun t => t)
                (AnalyzeResult.tables result) [] [])
      as [Hnd _]; try (constructor; fail); try (intros; contradiction).
    exact Hnd. }
  assert (Hnd_o : NoDup
                    (Dict.keys
                       (if Py.eqb_str object_type (Py.lit "line")
                        then azure_ocr_utils.get_lines_per_page result
                        else azure_ocr_utils.get_paragraphs_per_page result))).
  { destruct (Py.eqb_str object_type (Py.lit "line"));
      [apply get_lines_per_page_nodup | apply get_paragraphs_per_page_nodup]. }
  destruct (@kept_objects_make_the_rows Client Secret self result object_type
              threshold_y Hsep)
    as [kept [rows [Hkept [Hfilter [Hrows Hmem]]]]].
  - intros pn tables Hin. apply Forall_forall. intros t Ht.
    rewrite <- (@entry_is_lookup _ _ _ _ Hnd_t Hin), Htab in Ht.
    unfold tables_on in Ht. apply filter_In in Ht.
    exact (proj1 (Htables t (proj1 Ht))).
  - intros pn objs Hin.
    assert (Hall : forall obj, In obj objs ->
              has_span (obj_spans obj) /\ four_cornered obj).
    { intros obj Ho. apply Hobjects. apply (proj2 (Hobj pn)).
      rewrite <- (proj1 (Hobj pn)), (@entry_is_lookup _ _ _ _ Hnd_o Hin).
      exact Ho. }
    split; apply Forall_forall; intros obj Ho;
      [exact (proj1 (Hall obj Ho))
      | exact (four_cornered_four_points (proj2 (Hall obj Ho)))].
  - exists kept, rows. split; [exact Hkept |]. split; [| split].
    + intros pn. rewrite Hfilter, Htab, (proj1 (Hobj pn)). reflexivity.
    + exact Hrows.
    + intros pn obj. rewrite Hmem, Htab, (proj1 (Hobj pn)). reflexivity.
Qed.

(** The page with a table over the second of its three lines: the first and
    the third line are kept and make the rows. *)
Lemma objects_in_tables_are_excluded_witness :
  exists kept rows_by_page,
    azure_ocr_utils.remove_objects_contained_within_tables
      (azure_ocr_utils.get_lines_per_page Fixtures.page_with_table)
      (azure_ocr_utils.get_tables_per_page Fixtures.page_with_table)
    = Ok kept
    /\ (forall pn,
          Dict.get_default kept pn []
          = filter
              (fun obj =>
                 negb (in_a_table (tables_on Fixtures.page_with_table pn) obj))
              (text_objects_on Fixtures.page_with_table (Py.lit "line") pn))
    /\ AzureOCRDocumentConverter.single_column_rows Fixtures.separate_tables
         Fixtures.page_with_table (Py.lit "line") 0.05
       = Ok rows_by_page
    /\ forall pn obj,
         (exists row,
            In row (Dict.get_default rows_by_page pn []) /\ In obj row)
         <-> In obj (text_objects_on Fixtures.page_with_table (Py.lit "line") pn)
             /\ in_a_table (tables_on Fixtures.page_with_table pn) obj = false.
Proof.
  apply (@objects_in_tables_are_excluded unit unit Fixtures.separate_tables
           Fixtures.page_with_table (Py.lit "line") 0.05).
  - reflexivity.
  - intros t [<- | []]. split; [discriminate | simpl; eauto].
  - intros obj Hobj. simpl in Hobj.
    destruct Hobj as [<- | [<- | [<- | []]]];
      (split; [discriminate | unfold four_cornered; simpl; eauto]).
Defined.
